(** * ThaiTravel dashboard: data cleaning, ingestion and SWOT classification

    A shallow embedding of [src/dashboard.py].  Python strings are sequences
    of Unicode code points, Python floats are IEEE-754 binary64 values
    (the [spec_float] specification of the standard library at precision 53),
    exceptions and early [return]s are explicit outcomes, and pandas data
    frames are lists of named columns. *)

From Stdlib Require Import String Ascii.
From Stdlib Require Import ZArith NArith List Bool Lia ZifyNat Permutation.
From Stdlib Require Import Floats.SpecFloat.
Import ListNotations.

Set Implicit Arguments.

(* ================================================================== *)
(** * Python strings *)
(* ================================================================== *)

Module PyStr.

Local Open Scope N_scope.

(** A [str] is a sequence of code points. *)
Definition char := N.
Definition str := list char.

(** String literals of the source are written as Rocq strings, which hold
    the UTF-8 bytes of the literal, and decoded to code points. *)
Fixpoint utf8_go (pending : nat) (acc : N) (bs : list N) : str :=
  match bs with
  | [] => []
  | b :: bs' =>
      match pending with
      | O =>
          if b <? 128 then b :: utf8_go 0 0 bs'
          else if b <? 224 then utf8_go 1 (N.land b 31) bs'
          else if b <? 240 then utf8_go 2 (N.land b 15) bs'
          else utf8_go 3 (N.land b 7) bs'
      | S k =>
          let acc' := acc * 64 + N.land b 63 in
          match k with
          | O => acc' :: utf8_go 0 0 bs'
          | S _ => utf8_go k acc' bs'
          end
      end
  end.

Definition u (s : String.string) : str :=
  utf8_go 0 0 (List.map Ascii.N_of_ascii (String.list_ascii_of_string s)).

Definition char_eqb (a b : char) : bool := a =? b.

Fixpoint str_eqb (a b : str) : bool :=
  match a, b with
  | [], [] => true
  | x :: a', y :: b' => char_eqb x y && str_eqb a' b'
  | _, _ => false
  end.

(** [s.startswith(p)] *)
Fixpoint startswith (p s : str) : bool :=
  match p, s with
  | [], _ => true
  | a :: p', b :: s' => char_eqb a b && startswith p' s'
  | _ :: _, [] => false
  end.

(** [p in s] *)
Fixpoint contains (p s : str) : bool :=
  startswith p s ||
  match s with
  | [] => false
  | _ :: t => contains p t
  end.

(** [s.split(sep)] for a non-empty separator: the occurrences of [sep] are
    found from left to right and do not overlap.  [skip] counts the code
    points of a separator just matched that are still to be passed over,
    [cur] is the current piece, reversed. *)
Fixpoint split_go (sep : str) (skip : nat) (cur : str) (s : str) : list str :=
  match s with
  | [] => [rev cur]
  | c :: t =>
      match skip with
      | S k => split_go sep k cur t
      | O =>
          if startswith sep s
          then rev cur :: split_go sep (length sep - 1) [] t
          else split_go sep 0 (c :: cur) t
      end
  end.

Definition split (s sep : str) : list str := split_go sep 0 [] s.

(** [s.replace(old, new)] for a non-empty [old]. *)
Fixpoint replace_go (old new : str) (skip : nat) (s : str) : str :=
  match s with
  | [] => []
  | c :: t =>
      match skip with
      | S k => replace_go old new k t
      | O =>
          if startswith old s
          then new ++ replace_go old new (length old - 1) t
          else c :: replace_go old new 0 t
      end
  end.

Definition replace (s old new : str) : str := replace_go old new 0 s.

(** [str.isspace] of one code point (Unicode 14, as in CPython 3.11):
    the code points of bidirectional type WS, B or S, or of category Zs. *)
Definition isspace (c : char) : bool :=
  ((9 <=? c) && (c <=? 13)) || ((28 <=? c) && (c <=? 32))
  || (c =? 0x85) || (c =? 0xA0) || (c =? 0x1680)
  || ((0x2000 <=? c) && (c <=? 0x200A))
  || (c =? 0x2028) || (c =? 0x2029) || (c =? 0x202F) || (c =? 0x205F)
  || (c =? 0x3000).

Fixpoint dropwhile (f : char -> bool) (s : str) : str :=
  match s with
  | [] => []
  | c :: t => if f c then dropwhile f t else s
  end.

Definition lstrip (s : str) : str := dropwhile isspace s.
Definition rstrip (s : str) : str := rev (dropwhile isspace (rev s)).
(** [s.strip()] *)
Definition strip (s : str) : str := rstrip (lstrip s).

(** [s.lower()], on the letters A-Z.  The other code points are left as they
    are: the source only compares the result with the literal ['nan'], and no
    code point outside A-Z lower-cases to a string containing [a] or [n]. *)
Definition lower_char (c : char) : char :=
  if (65 <=? c) && (c <=? 90) then c + 32 else c.

Definition lower (s : str) : str := List.map lower_char s.

(** [str(n)] of an integer. *)
Fixpoint digits_of_pos_go (fuel : nat) (n : N) (acc : str) : str :=
  match fuel with
  | O => acc
  | S k =>
      let acc' := (48 + n mod 10) :: acc in
      if n / 10 =? 0 then acc' else digits_of_pos_go k (n / 10) acc'
  end.

Definition str_of_N (n : N) : str :=
  digits_of_pos_go (S (N.to_nat (N.log2 n))) n [].

Definition str_of_Z (z : Z) : str :=
  match z with
  | Zneg p => 45 :: str_of_N (Npos p)
  | _ => str_of_N (Z.to_N z)
  end.

Definition str_eq_dec : forall a b : str, {a = b} + {a <> b} :=
  list_eq_dec N.eq_dec.

End PyStr.

Import PyStr.

(* ================================================================== *)
(** * Python floats and [float(str)] *)
(* ================================================================== *)

Module PyFloat.

(** A Python [float] is an IEEE-754 binary64 number. *)
Definition float := spec_float.
Definition prec : Z := 53.
Definition emax : Z := 1024.

Definition fadd : float -> float -> float := SFadd prec emax.
Definition fsub : float -> float -> float := SFsub prec emax.
Definition fmul : float -> float -> float := SFmul prec emax.
Definition fdiv : float -> float -> float := SFdiv prec emax.
(** [a < b] on floats: false as soon as one side is NaN. *)
Definition fltb : float -> float -> bool := SFltb.

(** [float(n)] of a (small) integer. *)
Definition of_Z (z : Z) : float := binary_normalize prec emax z 0 false.

Definition is_nan (f : float) : bool :=
  match f with S754_nan => true | _ => false end.

Definition is_finite (f : float) : bool :=
  match f with
  | S754_zero _ | S754_finite _ _ _ => true
  | S754_infinity _ | S754_nan => false
  end.

(** ** Correctly rounded decimal to binary conversion

    [decimal_to_double sign m e] is the binary64 number nearest to
    [(-1)^sign * m * 10^e] (ties to even), an infinity on overflow and a zero
    on underflow: the contract of [strtod] in CPython's [dtoa.c].  The first
    two tests only cut the computation short for exponents far outside the
    binary64 range, where the result is known. *)
Definition decimal_digits (m : positive) : Z :=
  Z.of_nat (length (str_of_N (Npos m))).

Definition decimal_to_double (sign : bool) (m : N) (e : Z) : float :=
  match m with
  | N0 => S754_zero sign
  | Npos p =>
      if (400 <? e + decimal_digits p)%Z then S754_infinity sign
      else if (e + decimal_digits p <? -400)%Z then S754_zero sign
      else if (0 <=? e)%Z
      then binary_normalize prec emax
             (if sign then Z.opp (Zpos p * 10 ^ e) else (Zpos p * 10 ^ e)%Z)
             0 sign
      else
        let '(q, e', l) :=
          SFdiv_core_binary prec emax (Zpos p) 0 (10 ^ (- e)) 0 in
        binary_round_aux prec emax sign q e' l
  end.

Local Open Scope N_scope.

(** ** [float(s)] for a string [s]

    [PyFloat_FromString] of CPython 3.11, in its stages. *)

(** [Py_UNICODE_TODECIMAL]: the decimal digits of Unicode 14 come in runs of
    consecutive code points counting 0 to 9. *)
Definition decimal_runs : list (N * N) :=
  [ (0x30, 10); (0x660, 10); (0x6F0, 10); (0x7C0, 10); (0x966, 10);
    (0x9E6, 10); (0xA66, 10); (0xAE6, 10); (0xB66, 10); (0xBE6, 10);
    (0xC66, 10); (0xCE6, 10); (0xD66, 10); (0xDE6, 10); (0xE50, 10);
    (0xED0, 10); (0xF20, 10); (0x1040, 10); (0x1090, 10); (0x17E0, 10);
    (0x1810, 10); (0x1946, 10); (0x19D0, 10); (0x1A80, 10); (0x1A90, 10);
    (0x1B50, 10); (0x1BB0, 10); (0x1C40, 10); (0x1C50, 10); (0xA620, 10);
    (0xA8D0, 10); (0xA900, 10); (0xA9D0, 10); (0xA9F0, 10); (0xAA50, 10);
    (0xABF0, 10); (0xFF10, 10); (0x104A0, 10); (0x10D30, 10); (0x11066, 10);
    (0x110F0, 10); (0x11136, 10); (0x111D0, 10); (0x112F0, 10); (0x11450, 10);
    (0x114D0, 10); (0x11650, 10); (0x116C0, 10); (0x11730, 10); (0x118E0, 10);
    (0x11950, 10); (0x11C50, 10); (0x11D50, 10); (0x11DA0, 10); (0x16A60, 10);
    (0x16AC0, 10); (0x16B50, 10); (0x1D7CE, 50); (0x1E140, 10); (0x1E2F0, 10);
    (0x1E950, 10); (0x1FBF0, 10) ].

Fixpoint find_decimal (runs : list (N * N)) (c : char) : option N :=
  match runs with
  | [] => None
  | (start, len) :: rest =>
      if (start <=? c) && (c <? start + len)
      then Some ((c - start) mod 10)
      else find_decimal rest c
  end.

Definition unicode_decimal (c : char) : option N := find_decimal decimal_runs c.

(** [_PyUnicode_TransformDecimalAndSpaceToASCII]: an ASCII string is left as
    it is; otherwise code points below 127 are kept, the other white space
    becomes a space, a decimal digit its ASCII digit, and the output stops
    with a ['?'] at the first code point that is none of these. *)
Fixpoint transform_go (s : str) : str :=
  match s with
  | [] => []
  | ch :: t =>
      if ch <? 127 then ch :: transform_go t
      else if isspace ch then 32 :: transform_go t
      else
        match unicode_decimal ch with
        | None => [63]
        | Some d => (48 + d) :: transform_go t
        end
  end.

Definition is_ascii (s : str) : bool := forallb (fun c => c <? 128) s.

Definition transform_decimal_and_space_to_ascii (s : str) : str :=
  if is_ascii s then s else transform_go s.

(** [Py_ISSPACE] *)
Definition is_space_ascii (c : char) : bool :=
  (c =? 32) || ((9 <=? c) && (c <=? 13)).

Definition is_digit (c : char) : bool := (48 <=? c) && (c <=? 57).

(** [_Py_string_to_number_with_underscores]: an underscore is only allowed
    between two digits; the underscores are removed. *)
Fixpoint underscores_go (prev : char) (s : str) : option str :=
  match s with
  | [] => if prev =? 95 then None else Some []
  | p :: t =>
      if p =? 95 then
        if is_digit prev then underscores_go p t else None
      else if (prev =? 95) && negb (is_digit p) then None
      else option_map (cons p) (underscores_go p t)
  end.

Definition remove_underscores (s : str) : option str :=
  if existsb (fun c => c =? 95) s then underscores_go 0 s else Some s.

(** The longest prefix of digits, and what follows it. *)
Fixpoint span_digits (s : str) : str * str :=
  match s with
  | [] => ([], [])
  | c :: t =>
      if is_digit c
      then let '(d, r) := span_digits t in (c :: d, r)
      else ([], s)
  end.

Fixpoint digits_value_go (acc : N) (ds : str) : N :=
  match ds with
  | [] => acc
  | c :: t => digits_value_go (10 * acc + (c - 48)) t
  end.

Definition digits_value (ds : str) : N := digits_value_go 0 ds.

Definition skip_zeros (ds : str) : str := dropwhile (fun c => c =? 48) ds.

Definition parse_sign (s : str) : bool * str :=
  match s with
  | c :: t =>
      if c =? 45 then (true, t)
      else if c =? 43 then (false, t)
      else (false, s)
  | [] => (false, s)
  end.

(** The decimal point and the digits after it. *)
Definition parse_fraction (s : str) : str * str :=
  match s with
  | c :: t => if c =? 46 then span_digits t else ([], s)
  | [] => ([], s)
  end.

Definition MAX_ABS_EXP : N := 1100000000.
Definition MAX_DIGITS : N := 1000000000.

(** The exponent part: ['e'] or ['E'], a sign, at least one digit; when there
    is no digit the ['e'] is not consumed. *)
Definition parse_exponent (s : str) : Z * str :=
  match s with
  | c :: t =>
      if (c =? 101) || (c =? 69) then
        let '(esign, t1) := parse_sign t in
        let '(ed, t2) := span_digits t1 in
        match ed with
        | [] => (0%Z, s)
        | _ :: _ =>
            let sig := skip_zeros ed in
            let abs_exp := digits_value sig in
            let e :=
              if (9 <? N.of_nat (length sig)) || (MAX_ABS_EXP <? abs_exp)
              then MAX_ABS_EXP else abs_exp in
            ((if esign then Z.opp (Z.of_N e) else Z.of_N e), t2)
        end
      else (0%Z, s)
  | [] => (0%Z, s)
  end.

(** [_Py_dg_strtod]: the value of the longest prefix that is a decimal
    number, and the rest; [None] when no number starts the string. *)
Definition dg_strtod (s00 : str) : option (float * str) :=
  let '(sign, s) := parse_sign s00 in
  let '(ip, s) := span_digits s in
  let '(fp, s) := parse_fraction s in
  match ip ++ fp with
  | [] => None
  | _ :: _ =>
      if (MAX_DIGITS <? N.of_nat (length (skip_zeros (ip ++ fp))))
         || (MAX_DIGITS <? N.of_nat (length fp))
      then None
      else
        let '(e, s) := parse_exponent s in
        Some (decimal_to_double sign (digits_value (ip ++ fp))
                (e - Z.of_nat (length fp)), s)
  end.

(** [case_insensitive_match]: [t] is lower case. *)
Fixpoint case_insensitive_match (s t : str) {struct t} : option str :=
  match t with
  | [] => Some s
  | c :: t' =>
      match s with
      | [] => None
      | x :: s' =>
          if lower_char x =? c then case_insensitive_match s' t' else None
      end
  end.

(** [_Py_parse_inf_or_nan] *)
Definition parse_inf_or_nan (p : str) : option (float * str) :=
  let '(negate, s) := parse_sign p in
  match case_insensitive_match s (u "inf") with
  | Some s1 =>
      match case_insensitive_match s1 (u "inity") with
      | Some s2 => Some (S754_infinity negate, s2)
      | None => Some (S754_infinity negate, s1)
      end
  | None =>
      match case_insensitive_match s (u "nan") with
      | Some s1 => Some (S754_nan, s1)
      | None => None
      end
  end.

(** [_PyOS_ascii_strtod] *)
Definition ascii_strtod (s : str) : option (float * str) :=
  match dg_strtod s with
  | Some r => Some r
  | None => parse_inf_or_nan s
  end.

(** [float_from_string_inner]: the whole string must have been read. *)
Definition float_from_string_inner (s : str) : option float :=
  match ascii_strtod s with
  | Some (x, []) => Some x
  | _ => None
  end.

(** [float(s)]; [None] stands for [ValueError]. *)
Definition float_of_str (s : str) : option float :=
  let t := transform_decimal_and_space_to_ascii s in
  match dropwhile is_space_ascii t with
  | [] => None
  | c :: t1 =>
      match remove_underscores (rev (dropwhile is_space_ascii (rev (c :: t1)))) with
      | None => None
      | Some t2 => float_from_string_inner t2
      end
  end.

(** The code point ['?'], which the transformation to ASCII writes for a
    code point that is neither white space nor a digit, is read by no stage
    of the parser. *)
Definition QM : char := 63.

(** A code point that is not ASCII, not white space and not a digit. *)
Definition unreadable (c : char) : bool :=
  negb (c <? 128) && negb (isspace c)
  && match unicode_decimal c with None => true | Some _ => false end.

End PyFloat.

Import PyFloat.

(* ================================================================== *)
(** * Python values, exceptions and early return *)
(* ================================================================== *)

(** The numbers of the program: Python [int]s and [float]s. *)
Inductive number :=
  | Int (z : Z)
  | Float (f : float).

(** The cells of a CSV column as pandas hands them to the program: text, or
    a number; a missing cell is the float NaN. *)
Inductive pyval :=
  | Str (s : str)
  | Num (n : number).

Definition NaN : pyval := Num (Float S754_nan).

Definition to_float (n : number) : float :=
  match n with
  | Int z => of_Z z
  | Float f => f
  end.

(** [a + b] and [a * b] on numbers: integer arithmetic on two [int]s,
    float arithmetic as soon as one side is a [float]. *)
Definition num_add (a b : number) : number :=
  match a, b with
  | Int x, Int y => Int (x + y)
  | _, _ => Float (fadd (to_float a) (to_float b))
  end.

Definition num_mul (a b : number) : number :=
  match a, b with
  | Int x, Int y => Int (x * y)
  | _, _ => Float (fmul (to_float a) (to_float b))
  end.

Definition num_is_nan (n : number) : bool :=
  match n with
  | Float f => is_nan f
  | Int _ => false
  end.

(** [pd.isna(v)] of a scalar. *)
Definition pd_isna (v : pyval) : bool :=
  match v with
  | Num n => num_is_nan n
  | Str _ => false
  end.

Inductive exn := ValueError | IndexError | KeyError | AttributeError.

(** What running a block of statements comes to: it falls through to the
    next statement, it [return]s from the function, or it raises. *)
Inductive outcome (A : Type) :=
  | Normal (a : A)
  | Return (v : number)
  | Raise (e : exn).
Arguments Normal {A} a.
Arguments Return {A} v.
Arguments Raise {A} e.

(** What a call of a function, or the evaluation of an expression, comes
    to. *)
Inductive result (A : Type) :=
  | Returns (v : A)
  | Raises (e : exn).
Arguments Returns {A} v.
Arguments Raises {A} e.

Definition and_then {A B} (r : result A) (k : A -> result B) : result B :=
  match r with
  | Returns v => k v
  | Raises e => Raises e
  end.

(** [None] stands for the exception [e]. *)
Definition or_raise {A} (e : exn) (o : option A) : result A :=
  match o with
  | Some v => Returns v
  | None => Raises e
  end.

Declare Scope result_scope.
Delimit Scope result_scope with result.
Notation "x <- r ;; k" := (and_then r (fun x => k))
  (at level 61, r at next level, right associativity) : result_scope.

(** Statements of [clean_complex_string] read and assign the local variable
    [val], a string from line 31 on. *)
Module Stmt.

Definition M (A : Type) : Type := str -> outcome A * str.

Definition ret {A} (a : A) : M A := fun st => (Normal a, st).

Definition bind {A B} (m : M A) (f : A -> M B) : M B :=
  fun st =>
    match m st with
    | (Normal a, st') => f a st'
    | (Return v, st') => (Return v, st')
    | (Raise e, st') => (Raise e, st')
    end.

Definition get_val : M str := fun st => (Normal st, st).
Definition set_val (v : str) : M unit := fun _ => (Normal tt, v).
Definition return_ {A} (v : number) : M A := fun st => (Return v, st).
Definition raise {A} (e : exn) : M A := fun st => (Raise e, st).

(** [try: body / except: handler] with a bare [except]. *)
Definition try_except (body handler : M unit) : M unit :=
  fun st =>
    match body st with
    | (Raise _, st') => handler st'
    | r => r
    end.

Definition pass : M unit := ret tt.

(** [if c: body] *)
Definition when (c : bool) (body : M unit) : M unit :=
  if c then body else pass.

(** [xs[i]] *)
Definition item {A} (xs : list A) (i : nat) : M A :=
  match nth_error xs i with
  | Some x => ret x
  | None => raise IndexError
  end.

(** [float(s)] *)
Definition py_float (s : str) : M float :=
  match float_of_str s with
  | Some f => ret f
  | None => raise ValueError
  end.

(** A call: falling off the end of the body returns [None]. *)
Definition run (m : M unit) (st : str) : result (option number) :=
  match fst (m st) with
  | Normal _ => Returns None
  | Return v => Returns (Some v)
  | Raise e => Raises e
  end.

End Stmt.

Declare Scope stmt_scope.
Delimit Scope stmt_scope with stmt.
Notation "x <- m ;; k" := (Stmt.bind m (fun x => k))
  (at level 61, m at next level, right associativity) : stmt_scope.
Notation "m ;; k" := (Stmt.bind m (fun _ => k))
  (at level 61, right associativity) : stmt_scope.

(* ================================================================== *)
(** * The numeric-string cleaner *)
(* ================================================================== *)

Module Cleaner.

Import Stmt.

Definition COMMA : str := Eval vm_compute in u ",".
Definition DASH : str := Eval vm_compute in u "-".
Definition HOURS : str := Eval vm_compute in u "ชม.".
Definition MINUTES : str := Eval vm_compute in u "นาที".
Definition NAN : str := Eval vm_compute in u "nan".

Section WithRepr.

(** [repr] of a float (the shortest decimal string that reads back as the
    float), a builtin of the language. *)
Variable float_repr : float -> str.

(** [str(v)], for the values on which it returns: [str] of an integer of
    more than 4300 digits raises [ValueError] ([MAX_STR_DIGITS] below), and
    no cell of a table read from a CSV is such an integer.  The theorems on
    arbitrary integers carry the bound as a hypothesis. *)
Definition py_str (v : pyval) : str :=
  match v with
  | Str s => s
  | Num (Int z) => str_of_Z z
  | Num (Float f) => float_repr f
  end.

Local Open Scope stmt_scope.

(** Lines 34-39: the range ["A-B"]. *)
Definition range_block : M unit :=
  val <- get_val ;;
  when (contains DASH val)
    (try_except
       (let parts := split val DASH in
        p0 <- item parts 0 ;;
        a <- py_float p0 ;;
        p1 <- item parts 1 ;;
        b <- py_float p1 ;;
        return_ (Float (fdiv (fadd a b) (of_Z 2))))
       pass).

(** Lines 41-52: the duration ["H ชม. M นาที"]. *)
Definition duration_block : M unit :=
  val <- get_val ;;
  when (contains HOURS val || contains MINUTES val)
    (try_except
       (h <- (if contains HOURS val then
                let parts := split val HOURS in
                p0 <- item parts 0 ;;
                h <- py_float p0 ;;
                p1 <- item parts 1 ;;
                set_val p1 ;;
                ret (Float h)
              else ret (Int 0)) ;;
        val <- get_val ;;
        m <- (if contains MINUTES val then
                x <- py_float (replace val MINUTES []) ;;
                ret (Float x)
              else ret (Int 0)) ;;
        return_ (num_add (num_mul h (Int 60)) m))
       pass).

(** Lines 54-57: the plain float. *)
Definition float_block : M unit :=
  val <- get_val ;;
  try_except
    (x <- py_float val ;;
     return_ (Float x))
    (return_ (Int 0)).

(** Lines 32-57, on the string of line 31. *)
Definition clean_body : M unit :=
  val <- get_val ;;
  when (match val with [] => true | _ => false end
        || str_eqb (lower val) NAN)
    (return_ (Int 0)) ;;
  range_block ;;
  duration_block ;;
  float_block.

Definition clean_complex_string (val : pyval) : result (option number) :=
  if pd_isna val then Returns (Some (Int 0))
  else run clean_body (strip (replace (py_str val) COMMA [])).

End WithRepr.

End Cleaner.

Import Cleaner.

(** ** What the cleaner is said to compute

    The three readings of a cell in the words of the specification, each on
    the string of line 31 (commas removed, white space stripped), to be
    compared with [clean_complex_string]. *)
Module CleanerSpec.

(** Line 31. *)
Definition cleaned (s : str) : str := strip (replace s COMMA []).

(** The guard of line 32: an empty string, or ['nan'] in any casing. *)
Definition is_blank (v : str) : bool :=
  match v with [] => true | _ => false end || str_eqb (lower v) NAN.

(** "averages the two numbers in an A-B range string" *)
Definition parse_range (v : str) : option number :=
  if contains DASH v then
    match split v DASH with
    | a :: b :: _ =>
        match float_of_str a, float_of_str b with
        | Some x, Some y => Some (Float (fdiv (fadd x y) (of_Z 2)))
        | _, _ => None
        end
    | _ => None
    end
  else None.

Definition total_minutes (h m : number) : number :=
  num_add (num_mul h (Int 60)) m.

(** "converts H ชม. M นาที duration strings to total minutes" *)
Definition parse_duration (v : str) : option number :=
  if contains HOURS v then
    match split v HOURS with
    | p0 :: p1 :: _ =>
        match float_of_str p0 with
        | Some h =>
            if contains MINUTES p1 then
              match float_of_str (replace p1 MINUTES []) with
              | Some m => Some (total_minutes (Float h) (Float m))
              | None => None
              end
            else Some (total_minutes (Float h) (Int 0))
        | None => None
        end
    | _ => None
    end
  else if contains MINUTES v then
    match float_of_str (replace v MINUTES []) with
    | Some m => Some (total_minutes (Int 0) (Float m))
    | None => None
    end
  else None.

(** "otherwise parses as a plain float, defaulting to 0 on failure" *)
Definition plain_float_or_zero (v : str) : number :=
  match float_of_str v with
  | Some x => Float x
  | None => Int 0
  end.

(** The cleaner as the specification describes it, on the string of line 31. *)
Definition clean_spec (v : str) : number :=
  if is_blank v then Int 0
  else
    match parse_range v with
    | Some r => r
    | None =>
        match parse_duration v with
        | Some d => d
        | None => plain_float_or_zero v
        end
    end.

Definition parseable_range (v : str) : bool :=
  match parse_range v with Some _ => true | None => false end.
Definition parseable_duration (v : str) : bool :=
  match parse_duration v with Some _ => true | None => false end.
Definition parseable_float (v : str) : bool :=
  match float_of_str v with Some _ => true | None => false end.

Definition num_is_finite (n : number) : bool :=
  match n with
  | Int _ => true
  | Float f => is_finite f
  end.

(** A call returns a finite number. *)
Definition returns_finite (r : result (option number)) : Prop :=
  exists x, r = Returns (Some x) /\ num_is_finite x = true.

(** "NaN, empty, and whitespace-only inputs" *)
Definition is_blank_input (val : pyval) : bool :=
  match val with
  | Str s => forallb isspace s
  | Num n => num_is_nan n
  end.

(** The limit of CPython 3.11 on the digits of an integer that [str] and
    [format] write ([sys.get_int_max_str_digits()], 4300 unless it is
    configured): on a wider integer they raise [ValueError]. *)
Definition MAX_STR_DIGITS : nat := 4300.

(** The number of decimal digits of an integer. *)
Definition int_digits (z : Z) : nat := length (str_of_N (Z.abs_N z)).

(** The values whose [str] returns: the strings, the floats, and the
    integers within the limit. *)
Definition str_returns (val : pyval) : bool :=
  match val with
  | Num (Int z) => Nat.leb (int_digits z) MAX_STR_DIGITS
  | _ => true
  end.

(** A block never raises, whatever [val] holds. *)
Definition never_raises {A} (m : Stmt.M A) : Prop :=
  forall st e, fst (m st) <> Raise e.

(** A block always leaves the function with a [return]. *)
Definition always_returns {A} (m : Stmt.M A) : Prop :=
  forall st, exists v, fst (m st) = Return v.

(** The inputs of the examples below are strings and integers, for which
    [float_repr] is not called. *)
Definition repr_unused : float -> str := fun _ => [].

End CleanerSpec.

Import CleanerSpec.

(* ================================================================== *)
(** * Data frames *)
(* ================================================================== *)

Module Frame.

(** A column of cells. *)
Definition Series := list pyval.

(** A frame as [read_csv] returns it: named columns, in order.  pandas
    makes the names of a CSV distinct and its columns equally long. *)
Definition DataFrame (L : Type) := list (L * Series).

Section Labelled.

Variable L : Type.
Variable label_eqb : L -> L -> bool.

(** [df.columns] *)
Definition columns (df : DataFrame L) : list L := map fst df.

(** [c in df.columns] *)
Definition has_column (c : L) (df : DataFrame L) : bool :=
  existsb (label_eqb c) (columns df).

(** [df[c]]; [None] stands for [KeyError]. *)
Fixpoint get_col (c : L) (df : DataFrame L) : option Series :=
  match df with
  | [] => None
  | (l, col) :: rest => if label_eqb c l then Some col else get_col c rest
  end.

(** [df.rename(columns={old: new})] *)
Definition rename (old new : L) (df : DataFrame L) : DataFrame L :=
  map (fun '(l, col) => (if label_eqb old l then new else l, col)) df.

(** [df.drop(columns=[c for c in df.columns if p c])] *)
Definition drop_columns (p : L -> bool) (df : DataFrame L) : DataFrame L :=
  filter (fun '(l, _) => negb (p l)) df.

End Labelled.

(** [col[mask]]: the entries of a column where the mask holds. *)
Definition select {A} (mask : list bool) (col : list A) : list A :=
  map snd (filter fst (combine mask col)).

(** [df[mask]]: the rows of a frame where the mask holds. *)
Definition filter_rows {L} (mask : list bool) (df : DataFrame L) : DataFrame L :=
  map (fun '(l, col) => (l, select mask col)) df.

(** [x in names] for a cell [x] and a list of strings, as in [Series.isin]. *)
Definition isin (names : list str) (v : pyval) : bool :=
  match v with
  | Str s => existsb (str_eqb s) names
  | Num _ => false
  end.

(** [v == s] for a cell and a string. *)
Definition eq_str (s : str) (v : pyval) : bool :=
  match v with
  | Str t => str_eqb t s
  | Num _ => false
  end.

End Frame.

Import Frame.

(* ================================================================== *)
(** * Ingestion of the visitor table (lines 61-85) and the national
      total (lines 215-217) *)
(* ================================================================== *)

Module Tourist.

Definition UNNAMED0 : str := Eval vm_compute in u "Unnamed: 0".
Definition PROVINCE : str := Eval vm_compute in u "Province".
Definition YEAR_TOTAL : str := Eval vm_compute in u "ม.ค.-ธ.ค.".
Definition PART_TOTAL : str := Eval vm_compute in u "ม.ค.-ก.ค.".
Definition REFERENCE : str := Eval vm_compute in u "อ้างอิง".
Definition NATIONAL : str := Eval vm_compute in u "ทั่วประเทศไทย".

Definition regions_to_remove : list str :=
  Eval vm_compute in
  [ u "ภาคกลางไม่รวมกรุงเทพฯ"; u "ภาคตะวันออก"; u "ภาคใต้"; u "ภาคเหนือ";
    u "ภาคตะวันออกเฉียงเหนือ"; u "ทั่วประเทศไทย" ].

(** The labels of the ingested table: ['Province'], and the first days of
    the months from January 2015 on. *)
Inductive label :=
  | Name (s : str)
  | MonthStart (year month : Z).

Definition label_eqb (a b : label) : bool :=
  match a, b with
  | Name s, Name t => str_eqb s t
  | MonthStart y m, MonthStart y' m' => (y =? y')%Z && (m =? m')%Z
  | _, _ => false
  end.

Definition is_month (l : label) : bool :=
  match l with MonthStart _ _ => true | Name _ => false end.

(** No other column is called ['Unnamed: 0'] or ['Province']. *)
Definition plain_label (l : str) : bool :=
  negb (str_eqb UNNAMED0 l || str_eqb PROVINCE l).

(** [pd.date_range(start='2015-01-01', periods=n, freq='MS')] *)
Definition month_start (i : nat) : label :=
  MonthStart (2015 + Z.of_nat i / 12) (1 + Z.of_nat i mod 12).

Definition date_range (n : nat) : list label := map month_start (seq 0 n).

Section WithPandas.

Variable float_repr : float -> str.
(** [pd.to_numeric(col, errors='coerce')] on a column of strings. *)
Variable to_numeric : list str -> Series.
(** [col.sum()]: the sum of the entries of a column that are not NaN. *)
Variable series_sum : Series -> pyval.

(** The three filters of lines 73-75 on the province cell of a row. *)
Definition not_na (v : pyval) : bool := negb (pd_isna v).
Definition not_nan_text (v : pyval) : bool :=
  negb (str_eqb (lower (py_str float_repr v)) NAN).
Definition not_reference (v : pyval) : bool :=
  negb (contains REFERENCE (py_str float_repr v)).

(** [df.columns = ['Province'] + list(new_date_cols)] *)
Definition relabel (df : DataFrame str) : DataFrame label :=
  combine (Name PROVINCE :: date_range (length df - 1)) (map snd df).

(** Lines 81-83, for one column. *)
Definition numeric_column (col : Series) : Series :=
  to_numeric (map (fun v => replace (py_str float_repr v) COMMA []) col).

Definition convert_months (df : DataFrame label) : DataFrame label :=
  map (fun '(l, col) =>
         match l with
         | MonthStart _ _ => (l, numeric_column col)
         | Name _ => (l, col)
         end) df.

Definition count_label (c : str) (df : DataFrame str) : nat :=
  length (filter (str_eqb c) (columns df)).

(** Line 66: the columns of yearly and part-year totals. *)
Definition cols_to_drop (col : str) : bool :=
  contains YEAR_TOTAL col || contains PART_TOTAL col.

Definition load_tourist_data (df : DataFrame str) : result (DataFrame label) :=
  (let df := drop_columns cols_to_drop df in
   names <- or_raise KeyError (get_col str_eqb UNNAMED0 df) ;;
   let df := filter_rows (map (fun v => negb (isin regions_to_remove v)) names) df in
   let df := rename str_eqb UNNAMED0 PROVINCE df in
   prov <- or_raise KeyError (get_col str_eqb PROVINCE df) ;;
   (* two columns named 'Province': [df['Province']] is a frame, which has
      no [.str] *)
   if Nat.ltb 1 (count_label PROVINCE df) then Raises AttributeError
   else
     let df := filter_rows (map not_na prov) df in
     prov <- or_raise KeyError (get_col str_eqb PROVINCE df) ;;
     let df := filter_rows (map not_nan_text prov) df in
     prov <- or_raise KeyError (get_col str_eqb PROVINCE df) ;;
     let df := filter_rows (map not_reference prov) df in
     Returns (convert_months (relabel df)))%result.

(** Line 216: [pd.DataFrame(df.drop(columns=['Province']).sum()).T], and
    line 217. *)
Definition national_total (df_tourist : DataFrame label) : DataFrame label :=
  map (fun '(l, col) => (l, [series_sum col]))
      (drop_columns (label_eqb (Name PROVINCE)) df_tourist)
  ++ [(Name PROVINCE, [Str NATIONAL])].

(** Lines 215-219. *)
Definition province_data (df_tourist : DataFrame label) (selected_province : str)
  : result (DataFrame label) :=
  (prov <- or_raise KeyError (get_col label_eqb (Name PROVINCE) df_tourist) ;;
   if str_eqb selected_province NATIONAL
      && negb (existsb (eq_str NATIONAL) prov)
   then Returns (national_total df_tourist)
   else Returns (filter_rows (map (eq_str selected_province) prov) df_tourist))%result.

(** A real province row: its name is present, is none of the regional or
    national aggregates, and is no reference note. *)
Definition is_real_province (v : pyval) : bool :=
  negb (isin regions_to_remove v) && not_na v && not_nan_text v
  && not_reference v.

End WithPandas.

(** Stand-ins for the two pandas functions, for the examples: a cell that
    reads as a float is that float and any other is missing; the sum adds
    from the top and passes over the missing cells. *)
Definition sample_to_numeric (col : list str) : Series :=
  map (fun s => match float_of_str s with
                | Some f => Num (Float f)
                | None => NaN
                end) col.

Definition sample_sum (col : Series) : pyval :=
  Num (fold_left (fun acc v =>
                    match v with
                    | Num n => if num_is_nan n then acc else num_add acc n
                    | Str _ => acc
                    end) col (Int 0)).

Definition sample_table : DataFrame str :=
  [ (UNNAMED0, [Str (u "เชียงใหม่"); Str (u "ภาคเหนือ"); Str (u "ภูเก็ต");
                NaN; Str (u "ทั่วประเทศไทย")]);
    (u "ม.ค.", [Str (u "1,000"); Str (u "5,000"); Str (u "2,500");
                Str (u "7"); Str (u "9,999")]);
    (u "ม.ค.-ธ.ค.", [Str (u "1,000"); Str (u "5,000"); Str (u "2,500");
                     Str (u "7"); Str (u "9,999")]);
    (u "ก.พ.", [Str (u "10"); Str (u "50"); Str (u "-");
                Str (u "7"); Str (u "99")]) ].

End Tourist.

Import Tourist.

(* ================================================================== *)
(** * Ingestion of the factor table (lines 89-154) *)
(* ================================================================== *)

Module Factor.

Definition PROVINCE_TH : str := Eval vm_compute in u "จังหวัด".
Definition TOTAL_TOURISTS : str := Eval vm_compute in u "Total_Tourists".
Definition FACEBOOK : str := Eval vm_compute in u "จำนวนการค้นหาบน Facebook".
Definition TIKTOK : str := Eval vm_compute in u "จำนวนการค้นหาบน Tiktok".
Definition INSTAGRAM : str := Eval vm_compute in u "จำนวนการค้นหาบน Instagram".
Definition INTEREST : str := Eval vm_compute in u "ความสนใจต่อที่เที่ยว".

(** The header of the CSV column and the name it gets, in the order of
    the dictionary. *)
Definition column_mapping : list (str * str) :=
  Eval vm_compute in
  [ (u "สนามบิน
 (มี=1, ไม่มี=0)", u "สนามบิน");
    (u "รถไฟ
 (มี=1,ไม่มี=0)", u "รถไฟ");
    (u "ระยะห่างจากกทม.
(กิโลเมตร) โดยประมาณ", u "ระยะห่างจากกรุงเทพ");
    (u "ระยะเวลาจากกทม. ไปยังจังหวัดต่างๆ
 (เดินทางโดยรถยนต์)", u "เดินทางโดยรถยนต์");
    (u "จำนวนการค้นหาบน
Facebook ", u "จำนวนการค้นหาบน Facebook");
    (u "จำนวนการค้นหาบน
Tiktok", u "จำนวนการค้นหาบน Tiktok");
    (u "จำนวนการค้นหาบน
Instagram ", u "จำนวนการค้นหาบน Instagram");
    (u "แหล่งท่องเที่ยวเชิงศาสนา", u "จำนวนสถานที่ท่องเที่ยว");
    (u "แหล่งท่องเที่ยวเชิงประวัติศาสตร์
และโบราณสถาน", u "โบราณสถาน");
    (u "พิพิธภัณฑ์และแหล่งเรียนรู้", u "พิพิธภัณฑ์");
    (u "แหล่งท่องเที่ยวเชิงนันทนาการ
และสวนสาธารณะ", u "สวนสาธารณะ");
    (u "แหล่งท่องเที่ยวเชิงพาณิชย์และตลาด", u "ตลาด");
    (u "แหล่งท่องเที่ยวเชิงวัฒนธรรม
ร่วมสมัยและบันเทิง", u "ร่วมสมัยและบันเทิง");
    (u "แหล่งท่องเที่ยวเชิงธรรมชาติ
และสิ่งแวดล้อม", u "ธรรมชาติและสิ่งแวดล้อม");
    (u "โครงสร้างพื้นฐานและสัญลักษณ์เมือง", u "สัญลักษณ์เมือง");
    (u "คาเฟ่", u "ความหนาแน่นของคาเฟ่");
    (u "ปัญหาด้านเศรษฐกิจและรายได้ประชากร", u "ปัญหาด้านเศรษฐกิจ");
    (u "ปัญหาโครงสร้างพื้นฐานและระบบคมนาคม", u "ปัญหาระบบการคมนาคม");
    (u "ปัญหาสิ่งแวดล้อมและมลพิษ", u "ปัญหามลพิษ");
    (u "ปัญหาภัยพิบัติและความเสี่ยงด้านสภาพภูมิอากาศ",
     u "ปัญหาความเสี่ยงด้านภัยพิบัติ");
    (u "ปัญหาการขยายตัวของเมืองและคุณภาพชีวิต", u "ปัญหาคุณภาพชีวิต");
    (u "ปัญหาโครงสร้างประชากรและการย้ายถิ่น", u "ปัญหาโครงสร้างประชากร");
    (u "จำนวนนักท่องเที่ยว", u "Total_Tourists") ].

Definition required_features : list str :=
  Eval vm_compute in
  [ u "สนามบิน"; u "รถไฟ"; u "ระยะห่างจากกรุงเทพ"; u "เดินทางโดยรถยนต์";
    u "จำนวนการค้นหาบน Facebook"; u "จำนวนการค้นหาบน Tiktok";
    u "จำนวนการค้นหาบน Instagram";
    u "จำนวนสถานที่ท่องเที่ยว";
    u "โบราณสถาน"; u "พิพิธภัณฑ์"; u "สวนสาธารณะ"; u "ตลาด";
    u "ร่วมสมัยและบันเทิง"; u "ธรรมชาติและสิ่งแวดล้อม"; u "สัญลักษณ์เมือง";
    u "ปัญหาด้านเศรษฐกิจ"; u "ปัญหาระบบการคมนาคม"; u "ปัญหามลพิษ";
    u "ปัญหาความเสี่ยงด้านภัยพิบัติ"; u "ปัญหาคุณภาพชีวิต";
    u "ปัญหาโครงสร้างประชากร";
    u "ความหนาแน่นของคาเฟ่";
    u "ความสนใจต่อที่เที่ยว" ].

(** The frames the function builds: the province of each row, and named
    columns of numbers. *)
Record NumFrame := {
  province : list pyval;
  numeric : list (str * list number)
}.

(** [c in new_df.columns], for a name other than ['Province']. *)
Definition has_numeric (c : str) (df : NumFrame) : bool :=
  existsb (fun '(l, _) => str_eqb c l) (numeric df).

(** [df[c]] *)
Fixpoint lookup (c : str) (cols : list (str * list number)) : option (list number) :=
  match cols with
  | [] => None
  | (l, col) :: rest => if str_eqb c l then Some col else lookup c rest
  end.

(** [df[c] = col]: the column is replaced where it stands, or added last. *)
Fixpoint assign (c : str) (col : list number) (cols : list (str * list number))
  : list (str * list number) :=
  match cols with
  | [] => [(c, col)]
  | (l, old) :: rest =>
      if str_eqb c l then (l, col) :: rest else (l, old) :: assign c col rest
  end.

Definition set_numeric (c : str) (col : list number) (df : NumFrame) : NumFrame :=
  {| province := province df; numeric := assign c col (numeric df) |}.

Definition is_int (n : number) : bool :=
  match n with Int _ => true | Float _ => false end.

(** The column pandas makes of a list of Python numbers: [int64] when all
    are integers, [float64] otherwise. *)
Definition infer_dtype (l : list number) : list number :=
  if forallb is_int l then l else map (fun n => Float (to_float n)) l.

Definition wrap_int64 (z : Z) : Z :=
  ((z + 2 ^ 63) mod 2 ^ 64 - 2 ^ 63)%Z.

(** [a + b] on the entries of two columns. *)
Definition np_add (a b : number) : number :=
  match a, b with
  | Int x, Int y => Int (wrap_int64 (x + y))
  | _, _ => Float (fadd (to_float a) (to_float b))
  end.

Fixpoint map2 {A B C} (f : A -> B -> C) (xs : list A) (ys : list B) : list C :=
  match xs, ys with
  | x :: xs', y :: ys' => f x y :: map2 f xs' ys'
  | _, _ => []
  end.

(** ** [groupby('Province').last()] *)

(** [a == b] and [a < b] on numbers. *)
Definition num_eqb (a b : number) : bool :=
  match a, b with
  | Int x, Int y => (x =? y)%Z
  | _, _ => SFeqb (to_float a) (to_float b)
  end.

Definition num_ltb (a b : number) : bool :=
  match a, b with
  | Int x, Int y => (x <? y)%Z
  | _, _ => fltb (to_float a) (to_float b)
  end.

(** [a == b] on two cells of a column. *)
Definition pyval_eqb (a b : pyval) : bool :=
  match a, b with
  | Str s, Str t => str_eqb s t
  | Num x, Num y => num_eqb x y
  | _, _ => false
  end.

Fixpoint str_ltb (a b : str) : bool :=
  match a, b with
  | [], [] => false
  | [], _ :: _ => true
  | _ :: _, [] => false
  | x :: a', y :: b' => (x <? y)%N || ((x =? y)%N && str_ltb a' b')
  end.

(** The order of the group keys: numbers first, then strings by code
    points. *)
Definition pyval_ltb (a b : pyval) : bool :=
  match a, b with
  | Str s, Str t => str_ltb s t
  | Num x, Num y => num_ltb x y
  | Num _, Str _ => true
  | Str _, Num _ => false
  end.

Fixpoint insert_key (k : pyval) (keys : list pyval) : list pyval :=
  match keys with
  | [] => [k]
  | h :: t =>
      if pyval_eqb k h then keys
      else if pyval_ltb k h then k :: keys
      else h :: insert_key k t
  end.

(** The distinct provinces, sorted. *)
Definition group_keys (prov : list pyval) : list pyval :=
  fold_right insert_key [] prov.

(** The last entry of a group that is not NaN; NaN when there is none. *)
Definition last_valid (vals : list number) : number :=
  match filter (fun n => negb (num_is_nan n)) (rev vals) with
  | v :: _ => v
  | [] => Float S754_nan
  end.

Definition group_last (prov : list pyval) (col : list number) (k : pyval) : number :=
  last_valid (select (map (pyval_eqb k) prov) col).

Definition groupby_last (df : NumFrame) : NumFrame :=
  let keys := group_keys (province df) in
  {| province := keys;
     numeric := map (fun '(c, col) => (c, map (group_last (province df) col) keys))
                    (numeric df) |}.

Section WithRepr.

Variable float_repr : float -> str.

(** [col.apply(clean_complex_string)]; a [None] would be stored as a
    missing value. *)
Fixpoint apply_clean (col : Series) : result (list number) :=
  match col with
  | [] => Returns []
  | v :: rest =>
      x <- clean_complex_string float_repr v ;;
      xs <- apply_clean rest ;;
      Returns (match x with Some n => n | None => Float S754_nan end :: xs)
  end%result.

(** Lines 130-134: the loop over [column_mapping]. *)
Fixpoint map_columns (mapping : list (str * str)) (df : DataFrame str)
    (new_df : NumFrame) : result NumFrame :=
  match mapping with
  | [] => Returns new_df
  | (csv_col, target_col) :: rest =>
      match get_col str_eqb csv_col df with
      | Some col =>
          xs <- apply_clean col ;;
          map_columns rest df (set_numeric target_col (infer_dtype xs) new_df)
      | None =>
          map_columns rest df
            (set_numeric target_col
               (repeat (Int 0) (length (province new_df))) new_df)
      end
  end%result.

(** [new_df[cols]]; a missing name raises [KeyError]. *)
Fixpoint select_columns (cols : list str) (df : list (str * list number))
  : option (list (str * list number)) :=
  match cols with
  | [] => Some []
  | c :: rest =>
      match lookup c df, select_columns rest df with
      | Some col, Some out => Some ((c, col) :: out)
      | _, _ => None
      end
  end.

Definition load_factor_and_target_data (df : DataFrame str)
  : result (NumFrame * list str) :=
  (let df := if has_column str_eqb PROVINCE_TH df
             then rename str_eqb PROVINCE_TH PROVINCE df else df in
   prov <- or_raise KeyError (get_col str_eqb PROVINCE df) ;;
   (* two columns named 'Province': [df['Province']] is a frame, which has
      no [.str] *)
   if Nat.ltb 1 (count_label PROVINCE df) then Raises AttributeError
   else
     let df := filter_rows (map not_na prov) df in
     prov <- or_raise KeyError (get_col str_eqb PROVINCE df) ;;
     let df := filter_rows (map (not_nan_text float_repr) prov) df in
     prov <- or_raise KeyError (get_col str_eqb PROVINCE df) ;;
     let df := filter_rows (map (not_reference float_repr) prov) df in
     prov <- or_raise KeyError (get_col str_eqb PROVINCE df) ;;
     new_df <- map_columns column_mapping df {| province := prov; numeric := [] |} ;;
     fb <- or_raise KeyError (lookup FACEBOOK (numeric new_df)) ;;
     tk <- or_raise KeyError (lookup TIKTOK (numeric new_df)) ;;
     ig <- or_raise KeyError (lookup INSTAGRAM (numeric new_df)) ;;
     let new_df :=
       set_numeric INTEREST (map2 np_add (map2 np_add fb tk) ig) new_df in
     let final_cols :=
       TOTAL_TOURISTS
       :: filter (fun c => has_numeric c new_df) required_features in
     cols <- or_raise KeyError (select_columns final_cols (numeric new_df)) ;;
     Returns (groupby_last {| province := province new_df; numeric := cols |},
              required_features))%result.

End WithRepr.

End Factor.

Import Factor.

(* ================================================================== *)
(** * The comparison with the top ten and the SWOT classification
      (lines 342-443) *)
(* ================================================================== *)

Module Swot.

Definition BANGKOK : str := Eval vm_compute in u "กรุงเทพมหานคร".

Definition uncontrollable_vars : list str :=
  Eval vm_compute in
  [ u "ระยะห่างจากกรุงเทพ"; u "เดินทางโดยรถยนต์"; u "รถไฟ"; u "สนามบิน" ].

Definition result_vars : list str :=
  Eval vm_compute in
  [ u "จำนวนการค้นหาบน Facebook"; u "จำนวนการค้นหาบน Tiktok";
    u "จำนวนการค้นหาบน Instagram"; u "ความสนใจต่อที่เที่ยว" ].

Definition negative_keywords : list str :=
  Eval vm_compute in [ u "ปัญหา"; u "มลพิษ"; u "ความเสี่ยง" ].

(** [x in xs] for strings. *)
Definition mem (x : str) (xs : list str) : bool := existsb (str_eqb x) xs.

(** Line 370. *)
Definition actionable_vars (feature_names_list : list str) : list str :=
  filter (fun f => negb (mem f uncontrollable_vars) && negb (mem f result_vars))
         feature_names_list.

(** Line 425. *)
Definition is_negative_factor (feature : str) : bool :=
  existsb (fun kw => contains kw feature) negative_keywords.

(** One entry of [comparison_data]. *)
Record comparison := {
  Feature : str;
  Value : number;
  Benchmark : float;
  Gap : float
}.

(** One entry of the three lists. *)
Record item := {
  feature : str;
  current : number;
  target : float;
  is_neg : bool
}.

Record swot_lists := {
  weaknesses_list : list item;
  opportunities_list : list item;
  strengths_list : list item
}.

(** [df[mask]] *)
Definition filter_num_rows (mask : list bool) (df : NumFrame) : NumFrame :=
  {| province := select mask (province df);
     numeric := map (fun '(c, col) => (c, select mask col)) (numeric df) |}.

(** Line 343. *)
Definition train_data (df_model_data : NumFrame) : NumFrame :=
  filter_num_rows (map (fun v => negb (eq_str BANGKOK v)) (province df_model_data))
                  df_model_data.

(** [df.iloc[0]]: the first row, as a series indexed by the column names;
    [IndexError] on a frame without rows. *)
Fixpoint first_row (cols : list (str * list number)) : option (list (str * number)) :=
  match cols with
  | [] => Some []
  | (c, col) :: rest =>
      match col, first_row rest with
      | v :: _, Some row => Some ((c, v) :: row)
      | _, _ => None
      end
  end.

Definition iloc0 (df : NumFrame) : result (list (str * number)) :=
  match province df with
  | [] => Raises IndexError
  | _ :: _ => or_raise IndexError (first_row (numeric df))
  end.

(** [row[c]] *)
Fixpoint row_get (c : str) (row : list (str * number)) : option number :=
  match row with
  | [] => None
  | (l, v) :: rest => if str_eqb c l then Some v else row_get c rest
  end.

(** [comp_df.loc[f]] *)
Fixpoint loc (f : str) (comp_df : list comparison) : option comparison :=
  match comp_df with
  | [] => None
  | r :: rest => if str_eqb f (Feature r) then Some r else loc f rest
  end.

(** The rows at the given positions. *)
Definition take_rows {A} (positions : list nat) (col : list A) : list A :=
  flat_map (fun i => match nth_error col i with Some x => [x] | None => [] end)
           positions.

(** [a > b] and [a < b] on the entries of [comp_df]. *)
Definition gt (a : number) (b : float) : bool := fltb b (to_float a).
Definition lt (a : number) (b : float) : bool := fltb (to_float a) b.

(** Lines 419-443, for one row of [sorted_actionable_imp]. *)
Definition classify (it : item) (acc : swot_lists) : swot_lists :=
  if is_neg it then
    if gt (current it) (target it)
    then {| weaknesses_list := weaknesses_list acc ++ [it];
            opportunities_list := opportunities_list acc;
            strengths_list := strengths_list acc |}
    else {| weaknesses_list := weaknesses_list acc;
            opportunities_list := opportunities_list acc;
            strengths_list := strengths_list acc ++ [it] |}
  else
    if lt (current it) (target it)
    then {| weaknesses_list := weaknesses_list acc;
            opportunities_list := opportunities_list acc ++ [it];
            strengths_list := strengths_list acc |}
    else {| weaknesses_list := weaknesses_list acc;
            opportunities_list := opportunities_list acc;
            strengths_list := strengths_list acc ++ [it] |}.

Fixpoint classify_loop (rows : list (str * float)) (comp_df : list comparison)
    (acc : swot_lists) : result swot_lists :=
  match rows with
  | [] => Returns acc
  | (f, _) :: rest =>
      r <- or_raise KeyError (loc f comp_df) ;;
      let it := {| feature := f;
                   current := Value r;
                   target := Benchmark r;
                   is_neg := is_negative_factor f |} in
      classify_loop rest comp_df (classify it acc)
  end%result.

Definition empty_lists : swot_lists :=
  {| weaknesses_list := []; opportunities_list := []; strengths_list := [] |}.

(** [if v:] on a cell. *)
Definition truthy (v : pyval) : bool :=
  match v with
  | Str [] => false
  | Str (_ :: _) => true
  | Num (Int z) => negb (z =? 0)%Z
  | Num (Float f) => negb (SFeqb f (S754_zero false))
  end.

Section WithLibraries.

(** [col.nlargest(n)]: the positions of the rows it keeps, in its order. *)
Variable nlargest_rows : nat -> list number -> list nat.
(** [col.mean()] *)
Variable series_mean : list number -> float.
(** [df.sort_values('Importance', ascending=False)] *)
Variable sort_values_desc : list (str * float) -> list (str * float).

(** Lines 354-356; the frame cannot be built from columns of different
    lengths. *)
Definition feature_imp_df (feature_names_list : list str) (importances : list float)
  : result (list (str * float)) :=
  if Nat.eqb (length feature_names_list) (length importances)
  then Returns (sort_values_desc (combine feature_names_list importances))
  else Raises ValueError.

(** Lines 397-407. *)
Fixpoint comparison_data (feature_names_list : list str)
    (prov_row : list (str * number)) (top_10_provinces : list (str * list number))
  : result (list comparison) :=
  match feature_names_list with
  | [] => Returns []
  | f :: rest =>
      prov_v <- or_raise KeyError (row_get f prov_row) ;;
      col <- or_raise KeyError (lookup f top_10_provinces) ;;
      let bench_v := series_mean col in
      rows <- comparison_data rest prov_row top_10_provinces ;;
      Returns ({| Feature := f;
                  Value := prov_v;
                  Benchmark := bench_v;
                  Gap := fsub (to_float prov_v) bench_v |} :: rows)
  end%result.

(** Line 413. *)
Definition sorted_actionable_imp (feature_names_list : list str)
    (imp : list (str * float)) : list (str * float) :=
  sort_values_desc
    (filter (fun '(f, _) => mem f (actionable_vars feature_names_list)) imp).

(** Lines 390-443: the comparison table and the three lists for the
    selected province; nothing when the selection is empty. *)
Definition swot_analysis (df_model_data : NumFrame) (feature_names_list : list str)
    (importances : list float) (selected_swot_prov : pyval)
  : result (option (list comparison * swot_lists)) :=
  (let train := train_data df_model_data in
   imp <- feature_imp_df feature_names_list importances ;;
   if truthy selected_swot_prov then
     prov_row <- iloc0 (filter_num_rows
                          (map (fun v => pyval_eqb v selected_swot_prov)
                               (province train))
                          train) ;;
     prov_val <- or_raise KeyError (row_get TOTAL_TOURISTS prov_row) ;;
     totals <- or_raise KeyError (lookup TOTAL_TOURISTS (numeric train)) ;;
     let top_10_provinces :=
       map (fun '(c, col) => (c, take_rows (nlargest_rows 10 totals) col))
           (numeric train) in
     comp_df <- comparison_data feature_names_list prov_row top_10_provinces ;;
     lists <- classify_loop (sorted_actionable_imp feature_names_list imp)
                            comp_df empty_lists ;;
     Returns (Some (comp_df, lists))
   else Returns None)%result.

End WithLibraries.

(** ** The buckets in the words of the specification *)

(** "a problem-type feature exceeding benchmark" *)
Definition is_weakness (it : item) : bool :=
  is_neg it && gt (current it) (target it).

(** "a positive-type feature below benchmark" *)
Definition is_opportunity (it : item) : bool :=
  negb (is_neg it) && lt (current it) (target it).

(** "otherwise" *)
Definition is_strength (it : item) : bool :=
  negb (is_weakness it) && negb (is_opportunity it).

(** The item the loop builds for a feature. *)
Definition item_of (comp_df : list comparison) (f : str) : item :=
  match loc f comp_df with
  | Some r => {| feature := f; current := Value r; target := Benchmark r;
                 is_neg := is_negative_factor f |}
  | None => {| feature := f; current := Int 0; target := S754_nan;
               is_neg := is_negative_factor f |}
  end.

(** What the later stages rely on in a factor table: the named columns are
    there, every column is as long as the province column, and no province
    is missing. *)
Definition frame_ok (names : list str) (df : NumFrame) : Prop :=
  (forall f, In f names -> exists col, lookup f (numeric df) = Some col)
  /\ (forall c col, In (c, col) (numeric df) ->
        length col = length (province df))
  /\ (forall x, In x (province df) -> not_na x = true).

(** ** Stand-ins for the library functions, and a small table, for the
       examples *)

(** The arithmetic mean, added up from the top. *)
Definition sample_mean (col : list number) : float :=
  fdiv (fold_left fadd (map to_float col) (of_Z 0))
       (of_Z (Z.of_nat (length col))).

Fixpoint insert_desc {A} (key : A -> float) (x : A) (l : list A) : list A :=
  match l with
  | [] => [x]
  | y :: t => if fltb (key x) (key y) then y :: insert_desc key x t else x :: l
  end.

(** Insertion sort, largest first. *)
Definition sort_desc {A} (key : A -> float) (l : list A) : list A :=
  fold_right (insert_desc key) [] l.

Definition sample_sort_values (l : list (str * float)) : list (str * float) :=
  sort_desc snd l.

Definition sample_nlargest (n : nat) (col : list number) : list nat :=
  firstn n (map fst (sort_desc (fun p => to_float (snd p))
                               (combine (seq 0 (length col)) col))).

Definition POLLUTION : str := Eval vm_compute in u "ปัญหามลพิษ".
Definition MARKET : str := Eval vm_compute in u "ตลาด".
Definition CHIANG_MAI : str := Eval vm_compute in u "เชียงใหม่".

(** Four provinces; pollution and markets are 3 in Chiang Mai and 0
    elsewhere outside the capital. *)
Definition sample_csv : DataFrame str :=
  [ (PROVINCE_TH, [Str CHIANG_MAI; Str BANGKOK; Str (u "ภูเก็ต"); Str (u "ตาก")]);
    (u "ปัญหาสิ่งแวดล้อมและมลพิษ", [Str (u "3"); Str (u "9"); Str (u "0"); Str (u "0")]);
    (u "แหล่งท่องเที่ยวเชิงพาณิชย์และตลาด",
     [Str (u "3"); Str (u "9"); Str (u "0"); Str (u "0")]);
    (u "คาเฟ่", [Str (u "10-20"); Str (u "500"); Str (u "1,250"); Str (u "2")]);
    (u "จำนวนนักท่องเที่ยว",
     [Str (u "100"); Str (u "9,000"); Str (u "300"); Str (u "200")]) ].

Definition sample_model : NumFrame :=
  Eval vm_compute in
  match load_factor_and_target_data repr_unused sample_csv with
  | Returns (df, _) => df
  | Raises _ => {| province := []; numeric := [] |}
  end.

Definition sample_importances : list float :=
  map (fun i => of_Z (Z.of_nat i)) (seq 0 23).

(** The entry of the comparison table for a feature, in a result of
    [swot_analysis]. *)
Definition comparison_of (res : result (option (list comparison * swot_lists)))
    (f : str) : option (number * float * float) :=
  match res with
  | Returns (Some (comp_df, _)) =>
      option_map (fun r => (Value r, Benchmark r, Gap r)) (loc f comp_df)
  | _ => None
  end.

Fixpoint nodupb (l : list str) : bool :=
  match l with
  | [] => true
  | x :: t => negb (mem x t) && nodupb t
  end.

End Swot.

Import Swot.

(* ================================================================== *)
(** * The two formatters of the display (lines 16-27) *)
(* ================================================================== *)

Module Format.

Definition thai_months_abbr : list str :=
  Eval vm_compute in
  [ u "ม.ค."; u "ก.พ."; u "มี.ค."; u "เม.ย."; u "พ.ค."; u "มิ.ย.";
    u "ก.ค."; u "ส.ค."; u "ก.ย."; u "ต.ค."; u "พ.ย."; u "ธ.ค." ].

Definition thai_months_full : list str :=
  Eval vm_compute in
  [ u "มกราคม"; u "กุมภาพันธ์"; u "มีนาคม"; u "เมษายน"; u "พฤษภาคม";
    u "มิถุนายน"; u "กรกฎาคม"; u "สิงหาคม"; u "กันยายน"; u "ตุลาคม";
    u "พฤศจิกายน"; u "ธันวาคม" ].

(** [xs[i]]: a negative index counts from the end; [None] stands for
    [IndexError]. *)
Definition py_index {A} (xs : list A) (i : Z) : option A :=
  let n := Z.of_nat (length xs) in
  if (0 <=? i)%Z && (i <? n)%Z then nth_error xs (Z.to_nat i)
  else if (- n <=? i)%Z && (i <? 0)%Z then nth_error xs (Z.to_nat (n + i))
  else None.

(** What the formatter reads of a timestamp. *)
Record timestamp := { year : Z; month : Z }.

Definition SPACE : str := Eval vm_compute in u " ".

(** Lines 19-24; [None] is a missing date (NaT). *)
Definition format_thai_date (date_obj : option timestamp) (full_month : bool)
  : result str :=
  match date_obj with
  | None => Returns []
  | Some d =>
      let month_idx := (month d - 1)%Z in
      let year_thai := (year d + 543)%Z in
      (month_name <- or_raise IndexError
                       (py_index (if full_month then thai_months_full
                                  else thai_months_abbr) month_idx) ;;
       Returns (month_name ++ SPACE ++ str_of_Z year_thai))%result
  end.

(** What [int(val)] comes to. *)
Inductive int_result :=
  | IntOf (z : Z)
  | IntValueError     (* cannot convert float NaN to integer *)
  | IntOverflowError. (* cannot convert float infinity to integer *)

(** [int(f)] of a float: the integer part, towards zero. *)
Definition int_of_float (f : float) : int_result :=
  match f with
  | S754_nan => IntValueError
  | S754_infinity _ => IntOverflowError
  | S754_zero _ => IntOf 0
  | S754_finite s m e =>
      let a := if (0 <=? e)%Z then (Zpos m * 2 ^ e)%Z
               else (Zpos m / 2 ^ (- e))%Z in
      IntOf (if s then Z.opp a else a)
  end.

(** [int(val)] *)
Definition py_int (val : number) : int_result :=
  match val with
  | Int z => IntOf z
  | Float f => int_of_float f
  end.

(** The digits in groups of three from the right, with commas between. *)
Fixpoint group_thousands (ds : str) : str :=
  match ds with
  | [] => []
  | d :: t =>
      d :: (if negb (Nat.eqb (length t) 0) && Nat.eqb (length t mod 3) 0
            then 44%N :: group_thousands t
            else group_thousands t)
  end.

(** [f"{n:,}"] *)
Definition format_commas (n : Z) : str :=
  match n with
  | Zneg p => 45%N :: group_thousands (str_of_N (Npos p))
  | _ => group_thousands (str_of_N (Z.to_N n))
  end.

Definition UNIT : str := Eval vm_compute in u " คน".

(** Lines 26-27; [inl] is the exception of [int]. *)
Definition format_number_with_unit (val : number) : int_result + str :=
  match py_int val with
  | IntOf n => inr (format_commas n ++ UNIT)
  | e => inl e
  end.

(** [n] is the integer part of a number, towards zero: the number itself
    when it is an integer, and for the float (-1)^s * m * 2^e the integer
    of the same sign whose absolute value [a] has a <= m * 2^e < a + 1. *)
Definition truncates (val : number) (n : Z) : Prop :=
  match val with
  | Int z => n = z
  | Float (S754_zero _) => n = 0%Z
  | Float (S754_finite s m e) =>
      exists a : Z,
        (0 <= a)%Z
        /\ n = (if s then - a else a)%Z
        /\ ((0 <= e)%Z -> a = (Zpos m * 2 ^ e)%Z)
        /\ ((e < 0)%Z ->
            (a * 2 ^ (- e) <= Zpos m < (a + 1) * 2 ^ (- e))%Z)
  | Float _ => False
  end.

(** The commas of a grouped numeral stand at every fourth place from the
    right, and nowhere else. *)
Definition commas_every_three (g : str) : Prop :=
  forall i, (i < length g)%nat ->
            (nth i (rev g) 0%N = 44%N <-> i mod 4 = 3).

(** The table of month names line 23 reads. *)
Definition month_table (full_month : bool) : list str :=
  if full_month then thai_months_full else thai_months_abbr.

(** A character of the decimal numeral of an integer: a digit or the
    minus sign. *)
Definition numeral_char (c : char) : bool := is_digit c || (c =? 45)%N.

End Format.

Import Format.

(* ================================================================== *)
(** * Shapes of the factor table's input *)
(* ================================================================== *)

Module FactorShape.

(** A province cell that is a name, or is missing. *)
Definition text_or_missing (v : pyval) : bool :=
  match v with
  | Str _ => true
  | Num n => num_is_nan n
  end.

Definition is_text (v : pyval) : bool :=
  match v with Str _ => true | Num _ => false end.

(** A province cell the three filters of lines 97-99 keep. *)
Definition valid_province (float_repr : float -> str) (v : pyval) : bool :=
  not_na v && not_nan_text float_repr v && not_reference float_repr v.

(** The frame the ingestion works on after line 95. *)
Definition with_province_column (csv : DataFrame str) : DataFrame str :=
  if has_column str_eqb PROVINCE_TH csv
  then rename str_eqb PROVINCE_TH PROVINCE csv else csv.

(** A list of group keys in strictly increasing order. *)
Inductive increasing : list pyval -> Prop :=
  | inc_nil : increasing []
  | inc_cons k l :
      (forall h, In h l -> pyval_ltb k h = true) ->
      increasing l -> increasing (k :: l).

(** A factor CSV with a province listed twice, an empty province cell and
    a reference line. *)
Definition repeated_csv : DataFrame str :=
  [ (PROVINCE, [Str CHIANG_MAI; NaN; Str (u "ตาก"); Str CHIANG_MAI;
                Str (u "อ้างอิง: กระทรวง")]);
    (u "คาเฟ่", [Str (u "1"); Str (u "2"); Str (u "3"); Str (u "4");
                 Str (u "5")]) ].

(** A visitor table of two provinces and one month. *)
Definition two_provinces : DataFrame label :=
  [ (Name PROVINCE, [Str CHIANG_MAI; Str (u "ตาก")]);
    (MonthStart 2015 1, [Num (Int 10); Num (Int 20)]) ].

(** The CSV headers of the three search counts that line 136 adds up. *)
Definition search_headers : list str :=
  map fst
    (filter (fun kt => existsb (str_eqb (snd kt)) [FACEBOOK; TIKTOK; INSTAGRAM])
       column_mapping).

End FactorShape.
Import FactorShape.

(* ================================================================== *)
(** * The cards of the action plan (lines 445-507) *)
(* ================================================================== *)

Module Display.

(** One entry of [active_sections]. *)
Record section := {
  title : str;
  items : list item;
  color_code : str;
  bg_color : str;
  status_text : str
}.

Definition RED : str := Eval vm_compute in u "red".
Definition ORANGE : str := Eval vm_compute in u "orange".
Definition GREEN : str := Eval vm_compute in u "green".
Definition CONTROLLED : str := Eval vm_compute in u "ควบคุมได้ดี".
Definition HIGH_POTENTIAL : str := Eval vm_compute in u "ศักยภาพสูง".

(** Lines 448-454, 457-463 and 466-472. *)
Definition weaknesses_section (l : list item) : section :=
  Eval vm_compute in
  {| title := u "🚨 จุดอ่อน / สิ่งที่ต้องเร่งแก้ไข (Weaknesses)";
     items := l;
     color_code := u "red";
     bg_color := u "rgba(255, 0, 0, 0.05)";
     status_text := u "ต้องลด/แก้ไข" |}.

Definition opportunities_section (l : list item) : section :=
  Eval vm_compute in
  {| title := u "⚠️ โอกาสพัฒนา / สิ่งที่ต้องเพิ่ม (Opportunities)";
     items := l;
     color_code := u "orange";
     bg_color := u "rgba(255, 165, 0, 0.05)";
     status_text := u "ควรสร้าง/ส่งเสริมเพิ่ม" |}.

Definition strengths_section (l : list item) : section :=
  Eval vm_compute in
  {| title := u "✅ จุดแข็ง / ศักยภาพสูง (Strengths)";
     items := l;
     color_code := u "green";
     bg_color := u "rgba(0, 128, 0, 0.05)";
     status_text := u "ดีเยี่ยม/ควบคุมได้ดี" |}.

(** The status text of the strengths section. *)
Definition STRENGTHS_STATUS : str :=
  Eval vm_compute in status_text (strengths_section []).

(** [if l:] on a list. *)
Definition nonempty {A} (l : list A) : bool :=
  match l with [] => false | _ :: _ => true end.

(** Lines 445-472. *)
Definition active_sections (lists : swot_lists) : list section :=
  (if nonempty (weaknesses_list lists)
   then [weaknesses_section (weaknesses_list lists)] else [])
  ++ (if nonempty (opportunities_list lists)
      then [opportunities_section (opportunities_list lists)] else [])
  ++ (if nonempty (strengths_list lists)
      then [strengths_section (strengths_list lists)] else []).

(** Lines 487-489: the status line of a card. *)
Definition status_display (sec : section) (it : item) : str :=
  let status_display :=
    if is_neg it && str_eqb (color_code sec) GREEN
    then CONTROLLED else status_text sec in
  if str_eqb (color_code sec) GREEN && negb (is_neg it)
  then HIGH_POTENTIAL else status_display.

(** Lines 474 and 504-505: with no section the view shows the notice that
    there is nothing to analyse. *)
Definition shows_notice (lists : swot_lists) : bool :=
  negb (nonempty (active_sections lists)).

(** Lists for the examples: one problem above its benchmark, one asset at
    its benchmark. *)
Definition sample_lists : swot_lists :=
  {| weaknesses_list :=
       [ {| feature := POLLUTION; current := Float (of_Z 3);
            target := of_Z 1; is_neg := true |} ];
     opportunities_list := [];
     strengths_list :=
       [ {| feature := MARKET; current := Float (of_Z 1);
            target := of_Z 1; is_neg := false |} ] |}.

End Display.
Import Display.

Unset Implicit Arguments.

(* ================================================================== *)
(** * Properties of the string operations *)
(* ================================================================== *)

Module PyStrFacts.

Lemma startswith_In (p s : str) :
  startswith p s = true -> forall c, In c p -> In c s.
Proof.
  revert s; induction p as [|a p IH]; intros s H c Hc.
  - destruct Hc.
  - destruct s as [|b s]; simpl in H; [discriminate|].
    apply andb_prop in H as [Hab Hps].
    apply N.eqb_eq in Hab; subst b.
    destruct Hc as [->|Hc]; [now left|right; eauto].
Qed.

Lemma contains_In (p s : str) :
  contains p s = true -> forall c, In c p -> In c s.
Proof.
  induction s as [|b s IH]; intros H c Hc.
  - simpl in H. rewrite orb_false_r in H. eapply startswith_In; eauto.
  - simpl in H. apply orb_prop in H as [H|H].
    + eapply startswith_In; eauto.
    + right; eauto.
Qed.

Lemma In_dropwhile (f : char -> bool) (s : str) (c : char) :
  In c s -> f c = false -> In c (dropwhile f s).
Proof.
  induction s as [|a s IH]; intros Hin Hf; [destruct Hin|].
  simpl. destruct (f a) eqn:Ha; [|exact Hin].
  destruct Hin as [->|Hin]; [congruence|auto].
Qed.

Lemma In_rstrip_by (f : char -> bool) (s : str) (c : char) :
  In c s -> f c = false -> In c (rev (dropwhile f (rev s))).
Proof.
  intros Hin Hf. apply in_rev. rewrite rev_involutive.
  apply In_dropwhile; [now apply in_rev in Hin|exact Hf].
Qed.

Lemma str_eqb_refl (s : str) : str_eqb s s = true.
Proof.
  induction s as [|c s IH]; [reflexivity|].
  simpl. unfold char_eqb. now rewrite N.eqb_refl.
Qed.

Lemma str_eqb_eq (a b : str) : str_eqb a b = true <-> a = b.
Proof.
  split; [|intros ->; apply str_eqb_refl].
  revert b; induction a as [|x a IH]; intros [|y b] H; try discriminate;
    [reflexivity|].
  simpl in H. apply andb_prop in H as [Hxy Hab].
  apply N.eqb_eq in Hxy. f_equal; auto.
Qed.

Lemma str_eqb_neq (a b : str) : str_eqb a b = false <-> a <> b.
Proof.
  rewrite <- str_eqb_eq. destruct (str_eqb a b); split; congruence.
Qed.

Lemma str_eqb_sym (a b : str) : str_eqb a b = str_eqb b a.
Proof.
  destruct (str_eqb a b) eqn:E.
  - apply str_eqb_eq in E. subst. symmetry. apply str_eqb_refl.
  - symmetry. apply str_eqb_neq. apply str_eqb_neq in E. congruence.
Qed.

Lemma existsb_str_eqb_In (x : str) (xs : list str) :
  existsb (str_eqb x) xs = true <-> In x xs.
Proof.
  rewrite existsb_exists. split.
  - intros (y & Hy & E). apply str_eqb_eq in E. now subst.
  - intros H. exists x. split; [exact H|apply str_eqb_refl].
Qed.

Lemma contains_nonempty (p s : str) :
  p <> [] -> contains p s = true -> s <> [].
Proof.
  intros Hp H ->. destruct p; [congruence|discriminate].
Qed.

End PyStrFacts.

(* ================================================================== *)
(** * Properties of [float(s)] *)
(* ================================================================== *)

Module PyFloatFacts.

Import PyStrFacts.
Local Open Scope N_scope.

Lemma span_digits_spec (s d r : str) :
  span_digits s = (d, r) -> s = d ++ r /\ ~ In QM d.
Proof.
  revert d r; induction s as [|c s IH]; intros d r H; simpl in H.
  - inversion H; subst; split; [reflexivity|intros []].
  - destruct (is_digit c) eqn:Hc.
    + destruct (span_digits s) as [d' r'] eqn:E. inversion H; subst.
      destruct (IH _ _ eq_refl) as [-> Hn]. split; [reflexivity|].
      intros [->|Hin]; [discriminate Hc|auto].
    + inversion H; subst. split; [reflexivity|intros []].
Qed.

Lemma parse_sign_spec (s t : str) (b : bool) :
  parse_sign s = (b, t) -> exists pre, s = pre ++ t /\ ~ In QM pre.
Proof.
  unfold parse_sign. intros H.
  destruct s as [|c s];
    [inversion H; subst; exists []; split; [reflexivity|intros []]|].
  destruct (c =? 45) eqn:H45; [|destruct (c =? 43) eqn:H43];
    inversion H; subst.
  - exists [c]. split; [reflexivity|]. intros [->|[]]. discriminate H45.
  - exists [c]. split; [reflexivity|]. intros [->|[]]. discriminate H43.
  - exists []. split; [reflexivity|intros []].
Qed.

Lemma parse_fraction_spec (s fp r : str) :
  parse_fraction s = (fp, r) -> exists pre, s = pre ++ r /\ ~ In QM pre.
Proof.
  unfold parse_fraction. intros H.
  destruct s as [|c s];
    [inversion H; subst; exists []; split; [reflexivity|intros []]|].
  destruct (c =? 46) eqn:Hc.
  - apply span_digits_spec in H as [-> Hfp].
    exists (c :: fp). split; [reflexivity|].
    intros [->|Hin]; [discriminate Hc|auto].
  - inversion H; subst. exists []. split; [reflexivity|intros []].
Qed.

Lemma parse_exponent_spec (s r : str) (e : Z) :
  parse_exponent s = (e, r) -> exists pre, s = pre ++ r /\ ~ In QM pre.
Proof.
  unfold parse_exponent. intros H.
  assert (Hnil : exists pre, s = pre ++ s /\ ~ In QM pre)
    by (exists []; split; [reflexivity|intros []]).
  destruct s as [|c t]; [inversion H; subst; exact Hnil|].
  destruct ((c =? 101) || (c =? 69)) eqn:Hc; [|inversion H; subst; exact Hnil].
  destruct (parse_sign t) as [esign t1] eqn:Es.
  destruct (span_digits t1) as [ed t2] eqn:Ed.
  destruct ed as [|d0 ed']; [inversion H; subst; exact Hnil|].
  inversion H; subst. clear H.
  apply parse_sign_spec in Es as (pre & -> & Hpre).
  apply span_digits_spec in Ed as [-> Hd].
  exists (c :: pre ++ d0 :: ed'). split.
  - simpl. now rewrite <- app_assoc.
  - intros [->|Hin]; [discriminate Hc|].
    apply in_app_or in Hin as [?|?]; auto.
Qed.

(** Joining what two successive stages have read. *)
Lemma consumed_app (s pre1 s1 pre2 r : str) :
  s = pre1 ++ s1 -> ~ In QM pre1 -> s1 = pre2 ++ r -> ~ In QM pre2 ->
  exists pre, s = pre ++ r /\ ~ In QM pre.
Proof.
  intros -> H1 -> H2. exists (pre1 ++ pre2). split.
  - now rewrite app_assoc.
  - intros Hin. apply in_app_or in Hin as [?|?]; auto.
Qed.

Lemma dg_strtod_spec (s r : str) (x : float) :
  dg_strtod s = Some (x, r) -> exists pre, s = pre ++ r /\ ~ In QM pre.
Proof.
  unfold dg_strtod. intros H.
  destruct (parse_sign s) as [sign s1] eqn:Es.
  destruct (span_digits s1) as [ip s2] eqn:Ei.
  destruct (parse_fraction s2) as [fp s3] eqn:Ef.
  destruct (ip ++ fp); [discriminate|].
  destruct (_ || _); [discriminate|].
  destruct (parse_exponent s3) as [e s4] eqn:Ee.
  inversion H; subst. clear H.
  apply parse_sign_spec in Es as (p0 & E0 & H0).
  apply span_digits_spec in Ei as [E1 H1].
  apply parse_fraction_spec in Ef as (p2 & E2 & H2).
  apply parse_exponent_spec in Ee as (p3 & E3 & H3).
  destruct (@consumed_app _ _ _ _ _ E2 H2 E3 H3) as (q2 & F2 & G2).
  destruct (@consumed_app _ _ _ _ _ E1 H1 F2 G2) as (q1 & F1 & G1).
  exact (@consumed_app _ _ _ _ _ E0 H0 F1 G1).
Qed.

Lemma case_insensitive_match_spec (t s r : str) :
  ~ In QM t ->
  case_insensitive_match s t = Some r ->
  exists pre, s = pre ++ r /\ ~ In QM pre.
Proof.
  revert s; induction t as [|c t IH]; intros s Ht H; simpl in H.
  - inversion H; subst. exists []. split; [reflexivity|intros []].
  - destruct s as [|x s]; [discriminate|].
    destruct (lower_char x =? c) eqn:Hx; [|discriminate].
    apply IH in H as (pre & -> & Hpre); [|intros Hin; apply Ht; now right].
    exists (x :: pre). split; [reflexivity|].
    intros [->|Hin]; [|auto].
    apply N.eqb_eq in Hx. apply Ht. left. now rewrite <- Hx.
Qed.

Lemma parse_inf_or_nan_spec (s r : str) (x : float) :
  parse_inf_or_nan s = Some (x, r) -> exists pre, s = pre ++ r /\ ~ In QM pre.
Proof.
  unfold parse_inf_or_nan. intros H.
  destruct (parse_sign s) as [negate s1] eqn:Es.
  apply parse_sign_spec in Es as (p0 & E0 & H0).
  assert (Hlit : forall w, In QM (u w) -> existsb (N.eqb QM) (u w) = true).
  { intros w Hin. apply existsb_exists. exists QM. split; [exact Hin|reflexivity]. }
  destruct (case_insensitive_match s1 (u "inf")) as [s2|] eqn:E1.
  - apply case_insensitive_match_spec in E1 as (p1 & F1 & G1);
      [|intros Hin; apply Hlit in Hin; discriminate Hin].
    destruct (case_insensitive_match s2 (u "inity")) as [s3|] eqn:E2.
    + apply case_insensitive_match_spec in E2 as (p2 & F2 & G2);
        [|intros Hin; apply Hlit in Hin; discriminate Hin].
      inversion H; subst x r. clear H.
      destruct (@consumed_app _ _ _ _ _ F1 G1 F2 G2) as (q1 & K1 & L1).
      exact (@consumed_app _ _ _ _ _ E0 H0 K1 L1).
    + inversion H; subst x r. clear H.
      exact (@consumed_app _ _ _ _ _ E0 H0 F1 G1).
  - destruct (case_insensitive_match s1 (u "nan")) as [s2|] eqn:E2;
      [|discriminate].
    apply case_insensitive_match_spec in E2 as (p1 & F1 & G1);
      [|intros Hin; apply Hlit in Hin; discriminate Hin].
    inversion H; subst x r. clear H.
    exact (@consumed_app _ _ _ _ _ E0 H0 F1 G1).
Qed.

(** A string that [float_from_string_inner] accepts holds no ['?']. *)
Lemma float_from_string_inner_QM (s : str) (x : float) :
  float_from_string_inner s = Some x -> ~ In QM s.
Proof.
  unfold float_from_string_inner, ascii_strtod. intros H.
  assert (Hs : exists pre, s = pre ++ [] /\ ~ In QM pre).
  { destruct (dg_strtod s) as [[y r]|] eqn:E.
    - destruct r; [|discriminate]. eapply dg_strtod_spec; eauto.
    - destruct (parse_inf_or_nan s) as [[y r]|] eqn:E'; [|discriminate].
      destruct r; [|discriminate]. eapply parse_inf_or_nan_spec; eauto. }
  destruct Hs as (pre & -> & Hpre). now rewrite app_nil_r.
Qed.

Lemma underscores_go_In (s r : str) (prev c : char) :
  underscores_go prev s = Some r -> c <> 95 -> In c s -> In c r.
Proof.
  revert prev r; induction s as [|p t IH]; intros prev r H Hc Hin;
    [destruct Hin|].
  simpl in H. destruct (p =? 95) eqn:Hp.
  - apply N.eqb_eq in Hp. subst p.
    destruct (is_digit prev); [|discriminate].
    destruct Hin as [E|Hin]; [congruence|eauto].
  - destruct ((prev =? 95) && negb (is_digit p)); [discriminate|].
    destruct (underscores_go p t) as [r'|] eqn:E; [|discriminate].
    inversion H; subst. destruct Hin as [->|Hin]; [now left|right; eauto].
Qed.

Lemma remove_underscores_In (s r : str) (c : char) :
  remove_underscores s = Some r -> c <> 95 -> In c s -> In c r.
Proof.
  unfold remove_underscores.
  destruct (existsb (fun c0 => c0 =? 95) s).
  - apply underscores_go_In.
  - intros H; inversion H; auto.
Qed.

Lemma transform_go_unreadable (s : str) (c : char) :
  In c s -> unreadable c = true -> In QM (transform_go s).
Proof.
  unfold unreadable. intros Hin Hc.
  apply andb_prop in Hc as [Hc Hd]. apply andb_prop in Hc as [Ha Hs].
  apply negb_true_iff in Ha, Hs.
  induction s as [|ch t IH]; [destruct Hin|]. simpl.
  destruct (ch <? 127) eqn:E1.
  { destruct Hin as [->|Hin]; [|right; auto].
    apply N.ltb_lt in E1. apply N.ltb_ge in Ha. lia. }
  destruct (isspace ch) eqn:E2.
  { destruct Hin as [->|Hin]; [congruence|right; auto]. }
  destruct (unicode_decimal ch) eqn:E3; [|now left].
  destruct Hin as [->|Hin]; [rewrite E3 in Hd; discriminate|right; auto].
Qed.

(** [float(s)] raises as soon as [s] holds a code point that is not ASCII,
    not white space and not a decimal digit: a Thai letter, for one. *)
Lemma float_of_str_unreadable (s : str) (c : char) :
  In c s -> unreadable c = true -> float_of_str s = None.
Proof.
  intros Hin Hc. unfold float_of_str, transform_decimal_and_space_to_ascii.
  destruct (is_ascii s) eqn:Ha.
  { exfalso. unfold is_ascii in Ha. rewrite forallb_forall in Ha.
    specialize (Ha _ Hin). unfold unreadable in Hc.
    apply andb_prop in Hc as [Hc _]. apply andb_prop in Hc as [Hc _].
    apply negb_true_iff in Hc. apply N.ltb_lt in Ha. apply N.ltb_ge in Hc. lia. }
  pose proof (@transform_go_unreadable s c Hin Hc) as Hq.
  set (t := transform_go s) in *.
  assert (H1 : In QM (dropwhile is_space_ascii t))
    by (apply In_dropwhile; [exact Hq|reflexivity]).
  destruct (dropwhile is_space_ascii t) as [|c0 t1] eqn:E; [reflexivity|].
  assert (H2 : In QM (rev (dropwhile is_space_ascii (rev (c0 :: t1)))))
    by (apply In_rstrip_by; [exact H1|reflexivity]).
  destruct (remove_underscores _) as [t2|] eqn:Er; [|reflexivity].
  destruct (float_from_string_inner t2) as [x|] eqn:Ef; [|reflexivity].
  exfalso. apply (@float_from_string_inner_QM _ _ Ef).
  eapply remove_underscores_In; eauto. discriminate.
Qed.

End PyFloatFacts.

(* ================================================================== *)
(** * The numeric-string cleaner *)
(* ================================================================== *)

Module CleanerFacts.

Import Stmt PyStrFacts PyFloatFacts.
Local Open Scope stmt_scope.

(** ** Blocks that cannot raise *)

Lemma never_raises_ret {A} (a : A) : never_raises (ret a).
Proof. intros st e; discriminate. Qed.

Lemma never_raises_return {A} (v : number) : never_raises (@return_ A v).
Proof. intros st e; discriminate. Qed.

Lemma never_raises_get_val : never_raises get_val.
Proof. intros st e; discriminate. Qed.

Lemma never_raises_bind {A B} (m : M A) (k : A -> M B) :
  never_raises m -> (forall a, never_raises (k a)) -> never_raises (bind m k).
Proof.
  intros Hm Hk st e. unfold bind. specialize (Hm st).
  destruct (m st) as [[a|v|e'] st']; simpl in *.
  - apply Hk.
  - discriminate.
  - destruct (Hm e' eq_refl).
Qed.

(** A [try] whose handler cannot raise cannot raise. *)
Lemma never_raises_try (body handler : M unit) :
  never_raises handler -> never_raises (try_except body handler).
Proof.
  intros Hh st e. unfold try_except.
  destruct (body st) as [[a|v|e'] st']; simpl; try discriminate. apply Hh.
Qed.

Lemma never_raises_when (c : bool) (body : M unit) :
  never_raises body -> never_raises (when c body).
Proof. destruct c; simpl; [auto|intros _; apply never_raises_ret]. Qed.

Lemma always_returns_bind {A B} (m : M A) (k : A -> M B) :
  never_raises m -> (forall a, always_returns (k a)) ->
  always_returns (bind m k).
Proof.
  intros Hm Hk st. unfold bind. specialize (Hm st).
  destruct (m st) as [[a|v|e'] st']; simpl in *.
  - apply Hk.
  - eauto.
  - destruct (Hm e' eq_refl).
Qed.

Create HintDb blocks.

#[local] Hint Resolve never_raises_ret never_raises_return never_raises_get_val
  never_raises_try never_raises_when : blocks.

Lemma range_block_never_raises : never_raises range_block.
Proof.
  unfold range_block. apply never_raises_bind; auto with blocks.
  intros val. unfold pass. auto with blocks.
Qed.

Lemma duration_block_never_raises : never_raises duration_block.
Proof.
  unfold duration_block. apply never_raises_bind; auto with blocks.
  intros val. unfold pass. auto with blocks.
Qed.

Lemma float_block_always_returns : always_returns float_block.
Proof.
  intros st. unfold float_block, bind, get_val, try_except, py_float, return_.
  destruct (float_of_str st) as [x|]; simpl; eauto.
Qed.

Lemma clean_body_always_returns : always_returns clean_body.
Proof.
  unfold clean_body.
  apply always_returns_bind; [auto with blocks|intros val].
  apply always_returns_bind; [auto with blocks|intros _].
  apply always_returns_bind; [apply range_block_never_raises|intros _].
  apply always_returns_bind; [apply duration_block_never_raises|intros _].
  apply float_block_always_returns.
Qed.

(** ** The blocks, one by one *)

Lemma range_block_spec (v : str) :
  range_block v =
  (match parse_range v with Some r => Return r | None => Normal tt end, v).
Proof.
  unfold range_block, parse_range, bind, get_val, when, try_except, pass,
    item, py_float, return_, ret, raise.
  destruct (contains DASH v); [|reflexivity].
  destruct (split v DASH) as [|a [|b rest]]; simpl; try reflexivity;
    destruct (float_of_str a); simpl; try reflexivity.
  destruct (float_of_str b); reflexivity.
Qed.

Lemma unreadable_hours : forallb unreadable [3594; 3617]%N = true.
Proof. reflexivity. Qed.

Lemma float_of_str_hours (v : str) :
  contains HOURS v = true -> float_of_str v = None.
Proof.
  intros H. apply float_of_str_unreadable with (c := 3594%N);
    [|reflexivity].
  eapply contains_In; [exact H|now left].
Qed.

Lemma float_of_str_minutes (v : str) :
  contains MINUTES v = true -> float_of_str v = None.
Proof.
  intros H. apply float_of_str_unreadable with (c := 3609%N);
    [|reflexivity].
  eapply contains_In; [exact H|now left].
Qed.

(** The duration block assigns [val]; when it falls through, the string it
    leaves in [val] reads as a plain float exactly as the one it found. *)
Lemma duration_block_spec (v : str) :
  exists v',
    duration_block v =
    (match parse_duration v with Some d => Return d | None => Normal tt end, v')
    /\ (parse_duration v = None -> float_of_str v' = float_of_str v).
Proof.
  unfold duration_block, parse_duration, total_minutes, bind, get_val, set_val,
    when, try_except, pass, item, py_float, return_, ret, raise.
  cbv beta.
  destruct (contains HOURS v) eqn:Hh; cbv beta iota zeta.
  - unfold orb.
    destruct (split v HOURS) as [|p0 [|p1 rest]]; cbn [nth_error];
      cbv beta iota zeta.
    + eexists; split; reflexivity.
    + destruct (float_of_str p0); cbv beta iota zeta;
        eexists; split; reflexivity.
    + destruct (float_of_str p0) as [h|]; cbv beta iota zeta;
        [|eexists; split; reflexivity].
      destruct (contains MINUTES p1) eqn:Hm; cbv beta iota zeta.
      * destruct (float_of_str (replace p1 MINUTES [])) as [m|];
          cbv beta iota zeta;
          eexists; (split; [reflexivity|]); intros E; [discriminate|].
        rewrite (float_of_str_minutes _ Hm).
        now rewrite (float_of_str_hours _ Hh).
      * eexists; split; [reflexivity|discriminate].
  - unfold orb.
    destruct (contains MINUTES v) eqn:Hm; cbv beta iota zeta.
    + destruct (float_of_str (replace v MINUTES [])); cbv beta iota zeta;
        rewrite ?Hm; eexists; split; reflexivity.
    + rewrite ?Hm; eexists; split; reflexivity.
Qed.

Lemma float_block_spec (v : str) :
  float_block v = (Return (plain_float_or_zero v), v).
Proof.
  unfold float_block, plain_float_or_zero, bind, get_val, try_except,
    py_float, return_, ret, raise.
  destruct (float_of_str v); reflexivity.
Qed.

(** ** The cleaner computes what the specification describes *)
Lemma clean_body_refines (v : str) :
  run clean_body v = Returns (Some (clean_spec v)).
Proof.
  unfold run, clean_body, clean_spec, is_blank.
  unfold bind at 1. unfold get_val at 1. cbv beta iota.
  unfold bind at 1.
  destruct (match v with [] => true | _ :: _ => false end
            || str_eqb (lower v) NAN); [reflexivity|].
  cbn [when pass ret]. unfold bind at 1. rewrite range_block_spec.
  destruct (parse_range v) as [r|]; [reflexivity|].
  unfold bind at 1.
  destruct (duration_block_spec v) as (v' & -> & Hv').
  destruct (parse_duration v) as [d|]; [reflexivity|].
  rewrite float_block_spec. simpl.
  unfold plain_float_or_zero. now rewrite Hv'.
Qed.

Section WithRepr.

Variable float_repr : float -> str.

Lemma clean_complex_string_refines (s : str) :
  clean_complex_string float_repr (Str s)
  = Returns (Some (clean_spec (cleaned s))).
Proof. unfold clean_complex_string. simpl. apply clean_body_refines. Qed.

Lemma replace_go_delete_In (old : str) (skip : nat) (s : str) (c : char) :
  In c (replace_go old [] skip s) -> In c s.
Proof.
  revert skip; induction s as [|a s IH]; intros skip H; [destruct H|].
  simpl in H. destruct skip as [|k].
  - destruct (startswith old (a :: s)).
    + right. eapply IH. exact H.
    + destruct H as [->|H]; [now left|right; eapply IH; exact H].
  - right. eapply IH. exact H.
Qed.

Lemma strip_all_space (s : str) : forallb isspace s = true -> strip s = [].
Proof.
  intros H. unfold strip, lstrip, rstrip.
  assert (E : dropwhile isspace s = []).
  { induction s as [|a s IH]; [reflexivity|]. simpl in *.
    apply andb_prop in H as [-> H]. auto. }
  now rewrite E.
Qed.

Lemma cleaned_all_space (s : str) :
  forallb isspace s = true -> cleaned s = [].
Proof.
  intros H. unfold cleaned. apply strip_all_space.
  apply forallb_forall. intros c Hc.
  apply replace_go_delete_In in Hc. rewrite forallb_forall in H. auto.
Qed.

(** A string that holds a dash passes the guard of line 32. *)
Lemma dash_not_blank (v : str) : contains DASH v = true -> is_blank v = false.
Proof.
  intros H. unfold is_blank.
  assert (Hin : In 45%N v) by (eapply contains_In; [exact H|now left]).
  destruct v as [|c v]; [destruct Hin|].
  change (str_eqb (lower (c :: v)) NAN = false).
  destruct (str_eqb (lower (c :: v)) NAN) eqn:E; [|reflexivity].
  exfalso.
  assert (Hl : In 45%N (lower (c :: v))).
  { change 45%N with (lower_char 45%N). apply in_map. exact Hin. }
  revert E Hl. generalize (lower (c :: v)). intros l E Hl.
  unfold NAN in E.
  destruct l as [|x1 [|x2 [|x3 [|x4 l]]]]; simpl in E; try discriminate;
    repeat (apply andb_prop in E as [? E]); try discriminate.
  unfold char_eqb in *.
  repeat match goal with
         | H : (_ =? _)%N = true |- _ => apply N.eqb_eq in H
         end.
  subst.
  destruct Hl as [Hl|[Hl|[Hl|[]]]]; discriminate Hl.
Qed.

(** The cleaner returns a number on every cell. *)
Lemma clean_complex_string_returns (val : pyval) :
  exists x, clean_complex_string float_repr val = Returns (Some x).
Proof.
  unfold clean_complex_string.
  destruct (pd_isna val); [now exists (Int 0)|].
  destruct (clean_body_always_returns
              (strip (replace (py_str float_repr val) COMMA []))) as [x Hx].
  exists x. unfold run. now rewrite Hx.
Qed.

(** What the cleaner returns on a string: the integer 0 or a float. *)
Lemma parse_range_float (v : str) (r : number) :
  parse_range v = Some r -> exists f, r = Float f.
Proof.
  unfold parse_range. intros H.
  repeat match type of H with
         | context [match ?x with _ => _ end] => destruct x; try discriminate H
         end.
  injection H as <-. eauto.
Qed.

Lemma parse_duration_float (v : str) (d : number) :
  parse_duration v = Some d -> exists f, d = Float f.
Proof.
  unfold parse_duration, total_minutes. intros H.
  repeat match type of H with
         | context [match ?x with _ => _ end] => destruct x; try discriminate H
         end;
    injection H as <-; cbn [num_add num_mul to_float]; eauto.
Qed.

Lemma clean_spec_shape (v : str) :
  clean_spec v = Int 0 \/ exists f, clean_spec v = Float f.
Proof.
  unfold clean_spec.
  destruct (is_blank v); [now left|].
  destruct (parse_range v) as [r|] eqn:Er;
    [right; exact (parse_range_float v r Er)|].
  destruct (parse_duration v) as [d|] eqn:Ed;
    [right; exact (parse_duration_float v d Ed)|].
  unfold plain_float_or_zero.
  destruct (float_of_str v); [right; eauto|now left].
Qed.

(** C1, as amended.  For every input value whose [str] returns - a string,
    a float, NaN, or an integer of at most 4300 digits -
    [clean_complex_string] never raises: it returns a number, which is the
    integer 0 or a float (and the float need not be finite).  For NaN, for
    the empty string and for a string of white space only it returns 0. *)
Theorem clean_complex_string_total (val : pyval) :
  str_returns val = true ->
  exists x,
    clean_complex_string float_repr val = Returns (Some x)
    /\ (x = Int 0 \/ exists f, x = Float f)
    /\ (is_blank_input val = true -> x = Int 0).
Proof.
  intros _. unfold clean_complex_string.
  destruct (pd_isna val) eqn:Hna.
  - exists (Int 0). split; [reflexivity|]. split; [now left|reflexivity].
  - rewrite clean_body_refines. eexists. split; [reflexivity|].
    split; [apply clean_spec_shape|].
    intros Hb. destruct val as [s|n]; simpl in Hb, Hna; [|congruence].
    cbn [py_str]. fold (cleaned s).
    rewrite (cleaned_all_space _ Hb). reflexivity.
Qed.

(** C2.  ["10-20"] is cleaned to 15.0, ["2ชม.30นาที"] to 150.0, and every
    string that is neither a parseable range, nor a parseable duration, nor
    a parseable plain float to 0. *)
Theorem clean_range_duration_default :
  clean_complex_string float_repr (Str (u "10-20")) = Returns (Some (Float (of_Z 15)))
  /\ clean_complex_string float_repr (Str (u "2ชม.30นาที"))
     = Returns (Some (Float (of_Z 150)))
  /\ forall s,
       parseable_range (cleaned s) = false ->
       parseable_duration (cleaned s) = false ->
       parseable_float (cleaned s) = false ->
       clean_complex_string float_repr (Str s) = Returns (Some (Int 0)).
Proof.
  split; [|split].
  - rewrite clean_complex_string_refines. vm_compute. reflexivity.
  - rewrite clean_complex_string_refines. vm_compute. reflexivity.
  - intros s Hr Hd Hf. rewrite clean_complex_string_refines.
    unfold clean_spec, parseable_range, parseable_duration, parseable_float,
      plain_float_or_zero in *.
    destruct (is_blank (cleaned s)); [reflexivity|].
    destruct (parse_range (cleaned s)); [discriminate|].
    destruct (parse_duration (cleaned s)); [discriminate|].
    destruct (float_of_str (cleaned s)); [discriminate|reflexivity].
Qed.

(** C10, as amended.  When the cleaned string holds a dash and its first two
    dash-separated parts do not both read as floats, no average is taken and
    the cleaner falls through to the duration block and then to the plain
    float: the result is the duration when the string is a parseable
    duration, and otherwise the plain float or 0; without a duration marker
    it is the plain float or 0.  So ["-5"] is cleaned to -5.0.  When both
    parts do read as floats the result is their average. *)
Theorem dash_fall_through :
  (forall s,
     contains DASH (cleaned s) = true ->
     parseable_range (cleaned s) = false ->
     clean_complex_string float_repr (Str s)
     = Returns (Some (match parse_duration (cleaned s) with
                      | Some d => d
                      | None => plain_float_or_zero (cleaned s)
                      end))
     /\ (contains HOURS (cleaned s) = false ->
         contains MINUTES (cleaned s) = false ->
         clean_complex_string float_repr (Str s)
         = Returns (Some (plain_float_or_zero (cleaned s)))))
  /\ clean_complex_string float_repr (Str (u "-5")) = Returns (Some (Float (of_Z (-5))))
  /\ (forall s a b rest x y,
        contains DASH (cleaned s) = true ->
        split (cleaned s) DASH = a :: b :: rest ->
        float_of_str a = Some x ->
        float_of_str b = Some y ->
        clean_complex_string float_repr (Str s)
        = Returns (Some (Float (fdiv (fadd x y) (of_Z 2))))).
Proof.
  split; [|split].
  - intros s Hd Hr.
    assert (E : clean_complex_string float_repr (Str s)
                = Returns (Some (match parse_duration (cleaned s) with
                                 | Some d => d
                                 | None => plain_float_or_zero (cleaned s)
                                 end))).
    { rewrite clean_complex_string_refines. unfold clean_spec.
      rewrite (dash_not_blank _ Hd). unfold parseable_range in Hr.
      destruct (parse_range (cleaned s)); [discriminate|reflexivity]. }
    split; [exact E|].
    intros Hh Hm. rewrite E. unfold parse_duration. now rewrite Hh, Hm.
  - rewrite clean_complex_string_refines. vm_compute. reflexivity.
  - intros s a b rest x y Hd Hs Ha Hb.
    rewrite clean_complex_string_refines. unfold clean_spec.
    rewrite (dash_not_blank _ Hd). unfold parse_range.
    now rewrite Hd, Hs, Ha, Hb.
Qed.

End WithRepr.

(** C1: the result is not always finite.  The string ["inf"] is cleaned to
    plus infinity. *)
Lemma clean_inf_is_infinite :
  clean_complex_string repr_unused (Str (u "inf"))
  = Returns (Some (Float (S754_infinity false)))
  /\ ~ returns_finite (clean_complex_string repr_unused (Str (u "inf"))).
Proof.
  assert (E : clean_complex_string repr_unused (Str (u "inf"))
              = Returns (Some (Float (S754_infinity false))))
    by (vm_compute; reflexivity).
  split; [exact E|].
  rewrite E. intros (x & Hx & Hfin). injection Hx as <-. discriminate Hfin.
Qed.

Lemma clean_complex_string_total_witness :
  str_returns (Str (u "   ")) = true
  /\ is_blank_input (Str (u "   ")) = true
  /\ str_returns (Num (Int 1250)) = true
  /\ (exists x,
        clean_complex_string repr_unused (Str (u "   ")) = Returns (Some x)
        /\ x = Int 0)
  /\ exists x,
       clean_complex_string repr_unused (Num (Int 1250)) = Returns (Some x)
       /\ (x = Int 0 \/ exists f, x = Float f).
Proof.
  do 3 (split; [reflexivity|]). split.
  - destruct (clean_complex_string_total repr_unused (Str (u "   ")) eq_refl)
      as (x & Hx & _ & H0).
    exists x. split; [exact Hx|]. apply H0. reflexivity.
  - destruct (clean_complex_string_total repr_unused (Num (Int 1250)) eq_refl)
      as (x & Hx & Hshape & _).
    exists x. split; [exact Hx|exact Hshape].
Defined.

Lemma clean_range_duration_default_witness :
  parseable_range (cleaned (u "abc")) = false
  /\ parseable_duration (cleaned (u "abc")) = false
  /\ parseable_float (cleaned (u "abc")) = false
  /\ clean_complex_string repr_unused (Str (u "abc")) = Returns (Some (Int 0)).
Proof.
  do 3 (split; [reflexivity|]).
  apply (proj2 (proj2 (clean_range_duration_default repr_unused)));
    reflexivity.
Defined.

(** C10: a string with a dash that is no range does not always come to its
    plain float.  ["-2ชม.30นาที"] is cleaned by the duration block, to -90.0,
    while read as a plain float it would give 0. *)
Lemma dash_duration_is_not_plain_float :
  contains DASH (cleaned (u "-2ชม.30นาที")) = true
  /\ parseable_range (cleaned (u "-2ชม.30นาที")) = false
  /\ clean_complex_string repr_unused (Str (u "-2ชม.30นาที"))
     = Returns (Some (Float (of_Z (-90))))
  /\ plain_float_or_zero (cleaned (u "-2ชม.30นาที")) = Int 0.
Proof. repeat split; vm_compute; reflexivity. Qed.

Lemma dash_fall_through_witness :
  (contains DASH (cleaned (u "1e-5")) = true
   /\ parseable_range (cleaned (u "1e-5")) = false
   /\ contains HOURS (cleaned (u "1e-5")) = false
   /\ contains MINUTES (cleaned (u "1e-5")) = false
   /\ clean_complex_string repr_unused (Str (u "1e-5"))
      = Returns (Some (plain_float_or_zero (cleaned (u "1e-5")))))
  /\ (contains DASH (cleaned (u "1-4")) = true
      /\ split (cleaned (u "1-4")) DASH = [u "1"; u "4"]
      /\ float_of_str (u "1") = Some (of_Z 1)
      /\ float_of_str (u "4") = Some (of_Z 4)
      /\ clean_complex_string repr_unused (Str (u "1-4"))
         = Returns (Some (Float (fdiv (fadd (of_Z 1) (of_Z 4)) (of_Z 2))))).
Proof.
  destruct (dash_fall_through repr_unused) as (Hfall & _ & Havg).
  split.
  - do 4 (split; [reflexivity|]).
    apply (proj2 (Hfall (u "1e-5") eq_refl eq_refl)); reflexivity.
  - do 4 (split; [reflexivity|]).
    apply (Havg (u "1-4") (u "1") (u "4") []); reflexivity.
Defined.

End CleanerFacts.

(* ================================================================== *)
(** * Frames *)
(* ================================================================== *)

Module FrameFacts.

Lemma select_cons {A} (b : bool) (m : list bool) (x : A) (col : list A) :
  select (b :: m) (x :: col) = if b then x :: select m col else select m col.
Proof. unfold select. simpl. now destruct b. Qed.

Lemma select_nil_r {A} (m : list bool) : select m (@nil A) = [].
Proof. unfold select. now destruct m. Qed.

(** Two successive row filters, the second computed on the rows the first
    has kept, are one filter. *)
Lemma select_select {A} (q p : pyval -> bool) (ks : list pyval) (col : list A) :
  select (map p (select (map q ks) ks)) (select (map q ks) col)
  = select (map (fun k => q k && p k) ks) col.
Proof.
  revert col; induction ks as [|k ks IH]; intros col.
  - reflexivity.
  - destruct col as [|c col].
    + simpl map. now rewrite !select_nil_r.
    + simpl map. rewrite !select_cons. destruct (q k); simpl andb.
      * simpl map. rewrite select_cons. destruct (p k); now rewrite IH.
      * apply IH.
Qed.

Lemma filter_rows_cons {L} (m : list bool) (l : L) (col : Series)
    (df : DataFrame L) :
  filter_rows m ((l, col) :: df) = (l, select m col) :: filter_rows m df.
Proof. reflexivity. Qed.

Lemma filter_rows_twice {L} (q p : pyval -> bool) (ks : list pyval)
    (df : DataFrame L) :
  filter_rows (map p (select (map q ks) ks)) (filter_rows (map q ks) df)
  = filter_rows (map (fun k => q k && p k) ks) df.
Proof.
  induction df as [|[l col] df IH]; [reflexivity|].
  rewrite !filter_rows_cons, IH. now rewrite select_select.
Qed.

Lemma In_select (p : pyval -> bool) (ks : list pyval) (x : pyval) :
  In x (select (map p ks) ks) -> p x = true.
Proof.
  induction ks as [|k ks IH]; [intros []|].
  simpl map. rewrite select_cons. destruct (p k) eqn:E.
  - intros [<-|H]; auto.
  - auto.
Qed.

Lemma columns_filter_rows {L} (m : list bool) (df : DataFrame L) :
  columns (filter_rows m df) = columns df.
Proof.
  unfold columns, filter_rows. rewrite map_map.
  apply map_ext. now intros [l col].
Qed.

Lemma map_snd_filter_rows {L} (m : list bool) (df : DataFrame L) :
  map snd (filter_rows m df) = map (fun c => select m (snd c)) df.
Proof.
  unfold filter_rows. rewrite map_map. apply map_ext. now intros [l col].
Qed.

Lemma map_snd_rename (old new : str) (df : DataFrame str) :
  map snd (rename str_eqb old new df) = map snd df.
Proof.
  unfold rename. rewrite map_map. apply map_ext. now intros [l col].
Qed.

Lemma filter_rows_rename (m : list bool) (old new : str) (df : DataFrame str) :
  filter_rows m (rename str_eqb old new df)
  = rename str_eqb old new (filter_rows m df).
Proof.
  unfold filter_rows, rename. rewrite !map_map. apply map_ext. now intros [l col].
Qed.

End FrameFacts.

(* ================================================================== *)
(** * The visitor table and the national total *)
(* ================================================================== *)

Module TouristFacts.

Import FrameFacts.

Lemma date_range_months (n : nat) : forallb is_month (date_range n) = true.
Proof.
  unfold date_range. apply forallb_forall. intros l Hl.
  apply in_map_iff in Hl as (i & <- & _). reflexivity.
Qed.

Lemma date_range_length (n : nat) : length (date_range n) = n.
Proof. unfold date_range. now rewrite length_map, length_seq. Qed.

Section WithPandas.

Variable float_repr : float -> str.
Variable to_numeric : list str -> Series.
Variable series_sum : Series -> pyval.

Lemma convert_months_combine (ls : list label) (cs : list Series) :
  forallb is_month ls = true ->
  convert_months float_repr to_numeric (combine ls cs)
  = combine ls (map (numeric_column float_repr to_numeric) cs).
Proof.
  revert cs; induction ls as [|l ls IH]; intros cs H; [reflexivity|].
  destruct cs as [|c cs]; [reflexivity|].
  simpl in H. apply andb_prop in H as [Hl Hls].
  simpl. rewrite <- IH by exact Hls.
  destruct l; [discriminate|reflexivity].
Qed.

Lemma drop_province_combine (ls : list label) (cs : list Series) :
  forallb is_month ls = true ->
  drop_columns (label_eqb (Name PROVINCE)) (combine ls cs) = combine ls cs.
Proof.
  revert cs; induction ls as [|l ls IH]; intros cs H; [reflexivity|].
  destruct cs as [|c cs]; [reflexivity|].
  simpl in H. apply andb_prop in H as [Hl Hls].
  unfold drop_columns in *. simpl.
  destruct l; [discriminate|]. simpl. now rewrite IH.
Qed.

Lemma map_sum_combine (ls : list label) (cs : list Series) :
  map (fun '(l, col) => (l, [series_sum col])) (combine ls cs)
  = combine ls (map (fun c => [series_sum c]) cs).
Proof.
  revert cs; induction ls as [|l ls IH]; intros cs; [reflexivity|].
  destruct cs as [|c cs]; [reflexivity|]. simpl. now rewrite IH.
Qed.

Lemma count_province_renamed (df : DataFrame str) :
  forallb plain_label (columns df) = true ->
  count_label PROVINCE (rename str_eqb UNNAMED0 PROVINCE df) = 0.
Proof.
  unfold count_label, columns, rename. rewrite map_map.
  induction df as [|[l col] df IH]; intros H; [reflexivity|].
  simpl in H. apply andb_prop in H as [Hl Hdf].
  unfold plain_label in Hl. apply negb_true_iff, orb_false_iff in Hl as [Hu Hp].
  cbn [map fst]. rewrite Hu. cbn [filter]. rewrite Hp. auto.
Qed.

Lemma forallb_drop_columns (p q : str -> bool) (df : DataFrame str) :
  forallb p (columns df) = true ->
  forallb p (columns (drop_columns q df)) = true.
Proof.
  unfold columns, drop_columns. intros H.
  apply forallb_forall. intros l Hl.
  apply in_map_iff in Hl as ([l' col] & <- & Hin).
  apply filter_In in Hin as [Hin _].
  rewrite forallb_forall in H. apply H.
  apply in_map_iff. now exists (l', col).
Qed.

Lemma real_province_not_national (v : pyval) :
  is_real_province float_repr v = true -> eq_str NATIONAL v = false.
Proof.
  unfold is_real_province. intros H.
  repeat (apply andb_prop in H as [H _]).
  apply negb_true_iff in H.
  destruct v as [s|n]; [|reflexivity]. simpl in *.
  destruct (str_eqb s NATIONAL) eqn:E; [|reflexivity].
  unfold regions_to_remove in H. simpl existsb in H.
  unfold NATIONAL in E. rewrite E in H.
  rewrite !orb_true_r in H. discriminate H.
Qed.

(** C3.  The table read with its unnamed first column of province names is
    ingested, the rows kept are those of the real provinces, and for every
    month column the national pseudo-row, which is synthesized whenever the
    national view is selected, holds the sum of the month's values over the
    real province rows. *)
Theorem national_total_sums_real_provinces
    (names : Series) (rest : DataFrame str) :
  forallb plain_label (columns rest) = true ->
  let months := drop_columns cols_to_drop rest in
  let real := map (is_real_province float_repr) names in
  let month_values (c : str * Series) :=
    numeric_column float_repr to_numeric (select real (snd c)) in
  exists df_tourist,
    load_tourist_data float_repr to_numeric ((UNNAMED0, names) :: rest)
    = Returns df_tourist
    /\ df_tourist
       = (Name PROVINCE, select real names)
         :: combine (date_range (length months)) (map month_values months)
    /\ province_data series_sum df_tourist NATIONAL
       = Returns (national_total series_sum df_tourist)
    /\ national_total series_sum df_tourist
       = combine (date_range (length months))
                 (map (fun c => [series_sum (month_values c)]) months)
         ++ [(Name PROVINCE, [Str NATIONAL])].
Proof.
  intros Hplain months real month_values.
  assert (Hmonths : forallb plain_label (columns months) = true)
    by (apply forallb_drop_columns; exact Hplain).
  set (df := (Name PROVINCE, select real names)
             :: combine (date_range (length months)) (map month_values months)).
  assert (Hload : load_tourist_data float_repr to_numeric
                    ((UNNAMED0, names) :: rest) = Returns df).
  { unfold load_tourist_data.
    change (drop_columns cols_to_drop ((UNNAMED0, names) :: rest))
      with ((UNNAMED0, names) :: months).
    change (get_col str_eqb UNNAMED0 ((UNNAMED0, names) :: months))
      with (Some names).
    cbn [or_raise and_then].
    set (q1 := fun v => negb (isin regions_to_remove v)).
    rewrite filter_rows_cons.
    change (rename str_eqb UNNAMED0 PROVINCE
              ((UNNAMED0, select (map q1 names) names)
               :: filter_rows (map q1 names) months))
      with ((PROVINCE, select (map q1 names) names)
            :: rename str_eqb UNNAMED0 PROVINCE
                 (filter_rows (map q1 names) months)).
    rewrite <- filter_rows_rename.
    set (cols := rename str_eqb UNNAMED0 PROVINCE months).
    assert (Hcount : count_label PROVINCE cols = 0)
      by (apply count_province_renamed; exact Hmonths).
    assert (Hget : forall c d, get_col str_eqb PROVINCE ((PROVINCE, c) :: d) = Some c)
      by reflexivity.
    rewrite Hget. cbn [or_raise and_then].
    assert (Hc : forall c m,
               count_label PROVINCE ((PROVINCE, c) :: filter_rows m cols) = 1).
    { intros c m. unfold count_label. unfold columns at 1.
      change (map fst ((PROVINCE, c) :: filter_rows m cols))
        with (PROVINCE :: columns (filter_rows m cols)).
      rewrite columns_filter_rows.
      change (filter (str_eqb PROVINCE) (PROVINCE :: columns cols))
        with (PROVINCE :: filter (str_eqb PROVINCE) (columns cols)).
      simpl length. f_equal. exact Hcount. }
    rewrite Hc. cbn [Nat.ltb Nat.leb].
    rewrite filter_rows_cons, filter_rows_twice, select_select, Hget.
    cbn [or_raise and_then].
    rewrite filter_rows_cons, filter_rows_twice, select_select, Hget.
    cbn [or_raise and_then].
    rewrite filter_rows_cons, filter_rows_twice, select_select.
    fold (is_real_province float_repr).
    change (map (fun k => q1 k && not_na k && not_nan_text float_repr k
                          && not_reference float_repr k) names)
      with real.
    unfold relabel. cbn [length map snd Nat.sub].
    rewrite Nat.sub_0_r.
    assert (Hlen : length (filter_rows real cols) = length months).
    { unfold filter_rows, cols, rename. now rewrite !length_map. }
    rewrite Hlen, map_snd_filter_rows.
    cbn [combine].
    match goal with
    | |- context [convert_months _ _ (?h :: ?t)] =>
        change (convert_months float_repr to_numeric (h :: t))
          with (h :: convert_months float_repr to_numeric t)
    end.
    unfold df. f_equal. f_equal.
    rewrite (convert_months_combine _ _ (date_range_months _)).
    f_equal. rewrite map_map.
    unfold cols, rename. rewrite map_map. apply map_ext. now intros [l c]. }
  exists df. split; [exact Hload|]. split; [reflexivity|].
  assert (Hnat : national_total series_sum df
                 = combine (date_range (length months))
                           (map (fun c => [series_sum (month_values c)]) months)
                   ++ [(Name PROVINCE, [Str NATIONAL])]).
  { unfold national_total, df.
    change (drop_columns (label_eqb (Name PROVINCE))
              ((Name PROVINCE, select real names)
               :: combine (date_range (length months)) (map month_values months)))
      with (drop_columns (label_eqb (Name PROVINCE))
              (combine (date_range (length months)) (map month_values months))).
    rewrite (drop_province_combine _ _ (date_range_months _)).
    rewrite map_sum_combine, map_map. reflexivity. }
  split; [|exact Hnat].
  unfold province_data, df.
  change (get_col label_eqb (Name PROVINCE)
            ((Name PROVINCE, select real names)
             :: combine (date_range (length months)) (map month_values months)))
    with (Some (select real names)).
  cbn [or_raise and_then].
  change (str_eqb NATIONAL NATIONAL) with true. cbn [andb].
  replace (existsb (eq_str NATIONAL) (select real names)) with false; [reflexivity|].
  symmetry. apply not_true_iff_false. intros H.
  apply existsb_exists in H as (x & Hx & Hn).
  apply In_select in Hx. apply real_province_not_national in Hx. congruence.
Qed.

End WithPandas.

Lemma national_total_sums_real_provinces_witness :
  forallb plain_label (columns (tl sample_table)) = true
  /\ exists df_tourist,
       load_tourist_data repr_unused sample_to_numeric sample_table
       = Returns df_tourist
       /\ province_data sample_sum df_tourist NATIONAL
          = Returns
              [ (MonthStart 2015 1, [Num (Float (of_Z 3500))]);
                (MonthStart 2015 2, [Num (Float (of_Z 10))]);
                (Name PROVINCE, [Str NATIONAL]) ].
Proof.
  split; [reflexivity|].
  destruct (national_total_sums_real_provinces repr_unused sample_to_numeric
              sample_sum
              [Str (u "เชียงใหม่"); Str (u "ภาคเหนือ"); Str (u "ภูเก็ต");
               NaN; Str (u "ทั่วประเทศไทย")]
              (tl sample_table) eq_refl)
    as (df & Hload & Hdf & Hsel & Hnat).
  exists df. split; [exact Hload|].
  rewrite Hsel, Hnat. reflexivity.
Defined.

End TouristFacts.

(* ================================================================== *)
(** * The factor table *)
(* ================================================================== *)

Module FactorFacts.

Import PyStrFacts FrameFacts CleanerFacts.

(** ** Columns by name *)

Lemma lookup_assign_same (c : str) (col : list number) cols :
  lookup c (assign c col cols) = Some col.
Proof.
  induction cols as [|[l old] cols IH]; simpl.
  - now rewrite str_eqb_refl.
  - destruct (str_eqb c l) eqn:E; simpl; rewrite E; auto.
Qed.

Lemma lookup_assign_other (c c' : str) (col : list number) cols :
  c <> c' -> lookup c' (assign c col cols) = lookup c' cols.
Proof.
  intros Hne. induction cols as [|[l old] cols IH]; simpl.
  - replace (str_eqb c' c) with false; [reflexivity|].
    symmetry. apply str_eqb_neq. congruence.
  - destruct (str_eqb c l) eqn:E; simpl.
    + apply str_eqb_eq in E. subst l.
      replace (str_eqb c' c) with false; [reflexivity|].
      symmetry. apply str_eqb_neq. congruence.
    + destruct (str_eqb c' l); auto.
Qed.

Lemma has_numeric_lookup (c : str) (df : NumFrame) :
  has_numeric c df = true <-> exists col, lookup c (numeric df) = Some col.
Proof.
  unfold has_numeric. induction (numeric df) as [|[l col] cols IH]; simpl.
  - split; [discriminate|intros [? ?]; discriminate].
  - destruct (str_eqb c l); simpl; [split; eauto|exact IH].
Qed.

Lemma get_col_filter_rows (c : str) (m : list bool) (df : DataFrame str) :
  get_col str_eqb c (filter_rows m df)
  = option_map (select m) (get_col str_eqb c df).
Proof.
  induction df as [|[l col] df IH]; [reflexivity|].
  rewrite filter_rows_cons. simpl. destruct (str_eqb c l); auto.
Qed.

Lemma In_select_subset {A} (m : list bool) (col : list A) (x : A) :
  In x (select m col) -> In x col.
Proof.
  unfold select. intros H. apply in_map_iff in H as ([b y] & <- & Hin).
  apply filter_In in Hin as [Hin _]. now apply in_combine_r in Hin.
Qed.

Lemma select_repeat {A} (f : pyval -> bool) (prov : list pyval) (a : A) :
  select (map f prov) (repeat a (length prov))
  = repeat a (length (filter f prov)).
Proof.
  induction prov as [|k prov IH]; [reflexivity|].
  simpl map. simpl length. simpl repeat. rewrite select_cons. simpl filter.
  destruct (f k); simpl; now rewrite IH.
Qed.

(** ** The group keys *)

Lemma insert_key_In (k x : pyval) (keys : list pyval) :
  In x (insert_key k keys) -> x = k \/ In x keys.
Proof.
  induction keys as [|h t IH]; simpl.
  - intros [<-|[]]; now left.
  - destruct (pyval_eqb k h); [now right|].
    destruct (pyval_ltb k h).
    + intros [<-|H]; [now left|now right].
    + intros [<-|H]; [right; now left|].
      destruct (IH H) as [->|H']; [now left|right; now right].
Qed.

Lemma group_keys_In (prov : list pyval) (x : pyval) :
  In x (group_keys prov) -> In x prov.
Proof.
  induction prov as [|k prov IH]; [intros []|].
  unfold group_keys. simpl. intros H.
  apply insert_key_In in H as [->|H]; [now left|right; auto].
Qed.

Lemma SFeqb_refl (f : float) : is_nan f = false -> SFeqb f f = true.
Proof.
  unfold SFeqb, SFcompare. destruct f as [s|s| |s m e]; intros H;
    try discriminate; try reflexivity.
  - now destruct s.
  - destruct s; rewrite Z.compare_refl, Pos.compare_cont_refl; reflexivity.
Qed.

Lemma pyval_eqb_refl (v : pyval) : not_na v = true -> pyval_eqb v v = true.
Proof.
  destruct v as [s|[z|f]]; simpl; intros H.
  - apply str_eqb_refl.
  - apply Z.eqb_refl.
  - apply SFeqb_refl. now apply negb_true_iff in H.
Qed.

Lemma last_valid_zeros (n : nat) : last_valid (repeat (Int 0) (S n)) = Int 0.
Proof.
  unfold last_valid.
  assert (H : Forall (eq (Int 0)) (rev (repeat (Int 0) (S n)))).
  { apply Forall_forall. intros x Hx.
    apply in_rev in Hx. apply repeat_spec in Hx. now subst. }
  rewrite (Forall_eq_repeat H), length_rev, repeat_length. reflexivity.
Qed.

Lemma group_last_zeros (prov : list pyval) (k : pyval) :
  In k prov -> not_na k = true ->
  group_last prov (repeat (Int 0) (length prov)) k = Int 0.
Proof.
  intros Hin Hk. unfold group_last. rewrite select_repeat.
  assert (Hf : In k (filter (pyval_eqb k) prov))
    by (apply filter_In; split; [exact Hin|now apply pyval_eqb_refl]).
  destruct (filter (pyval_eqb k) prov) as [|x l]; [destruct Hf|].
  apply last_valid_zeros.
Qed.

Lemma get_col_has_column (c : str) (df : DataFrame str) :
  get_col str_eqb c df = None <-> has_column str_eqb c df = false.
Proof.
  unfold has_column, columns.
  induction df as [|[l col] df IH]; simpl; [tauto|].
  destruct (str_eqb c l); simpl; [split; discriminate|exact IH].
Qed.

Lemma count_label_get_col (c : str) (df : DataFrame str) :
  count_label c df = 1 -> exists col, get_col str_eqb c df = Some col.
Proof.
  unfold count_label, columns.
  induction df as [|[l col] df IH]; simpl; [discriminate|].
  rewrite (str_eqb_sym c l).
  destruct (str_eqb l c); simpl; [eauto|exact IH].
Qed.

Lemma has_column_rename (k old new : str) (df : DataFrame str) :
  k <> old -> k <> new ->
  has_column str_eqb k (rename str_eqb old new df) = has_column str_eqb k df.
Proof.
  intros Ho Hn. unfold has_column, columns, rename. rewrite map_map.
  induction df as [|[l col] df IH]; [reflexivity|].
  cbn [map fst existsb]. rewrite IH. f_equal.
  destruct (str_eqb old l) eqn:E.
  - apply str_eqb_eq in E. subst l.
    transitivity false; [|symmetry]; apply str_eqb_neq; assumption.
  - reflexivity.
Qed.

Section WithRepr.

Variable float_repr : float -> str.

Lemma apply_clean_returns (col : Series) :
  exists xs, apply_clean float_repr col = Returns xs.
Proof.
  induction col as [|v col [xs IH]]; [now exists []|].
  destruct (clean_complex_string_returns float_repr v) as [x Hx].
  simpl. rewrite Hx, IH. simpl. eauto.
Qed.

(** The loop of lines 130-134 gives every target a column, made of zeros
    when the CSV has no such header, and leaves the other columns alone. *)
Lemma map_columns_spec (df : DataFrame str) (mapping : list (str * str)) :
  NoDup (map snd mapping) ->
  forall acc,
  exists out,
    map_columns float_repr mapping df acc = Returns out
    /\ province out = province acc
    /\ (forall k t, In (k, t) mapping ->
          exists col,
            lookup t (numeric out) = Some col
            /\ (get_col str_eqb k df = None ->
                col = repeat (Int 0) (length (province acc))))
    /\ (forall t, ~ In t (map snd mapping) ->
          lookup t (numeric out) = lookup t (numeric acc)).
Proof.
  induction mapping as [|[k t] mapping IH]; intros Hnd acc.
  - exists acc. split; [reflexivity|]. split; [reflexivity|].
    split; [intros k t []|reflexivity].
  - inversion Hnd as [|? ? Hnotin Hnd']; subst.
    set (step := fun col => set_numeric t col acc).
    assert (Hstep : exists col,
               map_columns float_repr ((k, t) :: mapping) df acc
               = map_columns float_repr mapping df (step col)
               /\ (get_col str_eqb k df = None ->
                   col = repeat (Int 0) (length (province acc)))).
    { simpl. destruct (get_col str_eqb k df) as [c|].
      - destruct (apply_clean_returns c) as [xs Hxs]. rewrite Hxs. simpl.
        exists (infer_dtype xs). split; [reflexivity|discriminate].
      - eexists. split; reflexivity. }
    destruct Hstep as (col & -> & Hcol).
    destruct (IH Hnd' (step col)) as (out & Hout & Hprov & Htargets & Hothers).
    exists out. split; [exact Hout|]. split; [exact Hprov|]. split.
    + intros k' t' [E|Hin].
      * inversion E; subst k' t'. exists col. split; [|exact Hcol].
        rewrite (Hothers t Hnotin). apply lookup_assign_same.
      * destruct (Htargets k' t' Hin) as (col' & Hl & Hz).
        exists col'. split; [exact Hl|exact Hz].
    + intros t' Hnot. rewrite Hothers by (intros H; apply Hnot; now right).
      apply lookup_assign_other. intros ->. apply Hnot. now left.
Qed.

Lemma select_columns_spec (cs : list str) (df : list (str * list number)) :
  (forall c, In c cs -> exists col, lookup c df = Some col) ->
  exists out,
    select_columns cs df = Some out
    /\ forall c, In c cs -> lookup c out = lookup c df.
Proof.
  induction cs as [|c cs IH]; intros H.
  - exists []. split; [reflexivity|intros c []].
  - destruct (H c (or_introl eq_refl)) as [col Hc].
    destruct IH as (out & Hout & Hl); [intros c' Hc'; apply H; now right|].
    exists ((c, col) :: out). split.
    + simpl. now rewrite Hc, Hout.
    + intros c' Hin. simpl. destruct (str_eqb c' c) eqn:E.
      * apply str_eqb_eq in E. now subst.
      * destruct Hin as [->|Hin]; [now rewrite str_eqb_refl in E|auto].
Qed.

Lemma lookup_map_columns (g : list number -> list number) (c : str)
    (cols : list (str * list number)) :
  lookup c (map (fun '(l, col) => (l, g col)) cols)
  = option_map g (lookup c cols).
Proof.
  induction cols as [|[l col] cols IH]; [reflexivity|].
  simpl. destruct (str_eqb c l); auto.
Qed.

Lemma filter_all {A} (f : A -> bool) (l : list A) :
  (forall x, In x l -> f x = true) -> filter f l = l.
Proof.
  induction l as [|a l IH]; intros H; [reflexivity|].
  simpl. rewrite (H a (or_introl eq_refl)). f_equal. apply IH.
  intros x Hx. apply H. now right.
Qed.

(** Every required feature is the target of a CSV column, or the derived
    interest column. *)
Lemma required_feature_source (f : str) :
  In f required_features ->
  f = INTEREST \/ exists k, In (k, f) column_mapping.
Proof.
  intros Hin.
  assert (H : forallb (fun f => str_eqb f INTEREST
                                || existsb (str_eqb f) (map snd column_mapping))
                      required_features = true) by (vm_compute; reflexivity).
  rewrite forallb_forall in H. specialize (H f Hin).
  apply orb_prop in H as [H|H].
  - left. now apply str_eqb_eq.
  - right. apply existsb_str_eqb_In in H.
    apply in_map_iff in H as ([k t] & E & Hkt). simpl in E. subst t. eauto.
Qed.

Lemma nodupb_NoDup (l : list str) : nodupb l = true -> NoDup l.
Proof.
  induction l as [|x t IH]; intros E; [constructor|].
  simpl in E. apply andb_prop in E as [Hx Ht]. constructor; [|auto].
  intros Hin. apply existsb_str_eqb_In in Hin.
  unfold mem in Hx. rewrite Hin in Hx. discriminate.
Qed.

Lemma mapping_targets_distinct : NoDup (map snd column_mapping).
Proof. apply nodupb_NoDup. vm_compute. reflexivity. Qed.

Lemma required_features_distinct : NoDup required_features.
Proof. apply nodupb_NoDup. vm_compute. reflexivity. Qed.

Lemma interest_is_no_target : ~ In INTEREST (map snd column_mapping).
Proof.
  intros H. apply existsb_str_eqb_In in H. vm_compute in H. discriminate.
Qed.

Lemma mapping_key_plain (k t : str) :
  In (k, t) column_mapping -> k <> PROVINCE_TH /\ k <> PROVINCE.
Proof.
  intros Hin.
  assert (H : forallb (fun kt => negb (str_eqb (fst kt) PROVINCE_TH)
                                 && negb (str_eqb (fst kt) PROVINCE))
                      column_mapping = true) by (vm_compute; reflexivity).
  rewrite forallb_forall in H. specialize (H _ Hin). simpl in H.
  apply andb_prop in H as [H1 H2]. apply negb_true_iff in H1, H2.
  split; now apply str_eqb_neq.
Qed.

Lemma target_in_mapping (t : str) :
  existsb (str_eqb t) (map snd column_mapping) = true ->
  exists k, In (k, t) column_mapping.
Proof.
  intros H. apply existsb_str_eqb_In in H.
  apply in_map_iff in H as ([k t'] & E & Hkt). simpl in E. subst. eauto.
Qed.

(** The factor table of a CSV with one province column. *)
Lemma load_factor_spec (csv : DataFrame str) :
  count_label PROVINCE
    (if has_column str_eqb PROVINCE_TH csv
     then rename str_eqb PROVINCE_TH PROVINCE csv else csv) = 1 ->
  exists df_final,
    load_factor_and_target_data float_repr csv
    = Returns (df_final, required_features)
    /\ (forall f, In f required_features -> has_numeric f df_final = true)
    /\ (forall csv_col f,
          In (csv_col, f) column_mapping ->
          In f required_features ->
          has_column str_eqb csv_col csv = false ->
          exists col,
            lookup f (numeric df_final) = Some col
            /\ Forall (eq (Int 0)) col)
    /\ frame_ok (TOTAL_TOURISTS :: required_features) df_final.
Proof.
  intros Hcount. unfold load_factor_and_target_data.
  set (df0 := if has_column str_eqb PROVINCE_TH csv
              then rename str_eqb PROVINCE_TH PROVINCE csv else csv) in *.
  destruct (count_label_get_col _ _ Hcount) as [prov0 Hp0].
  rewrite Hp0, Hcount. cbn [or_raise and_then Nat.ltb Nat.leb].
  rewrite !get_col_filter_rows, Hp0. cbn [option_map or_raise and_then].
  rewrite !get_col_filter_rows, Hp0. cbn [option_map or_raise and_then].
  rewrite !get_col_filter_rows, Hp0. cbn [option_map or_raise and_then].
  set (m1 := map not_na prov0).
  set (m2 := map (not_nan_text float_repr) (select m1 prov0)).
  set (m3 := map (not_reference float_repr) (select m2 (select m1 prov0))).
  set (prov := select m3 (select m2 (select m1 prov0))).
  set (df := filter_rows m3 (filter_rows m2 (filter_rows m1 df0))).
  assert (Hprov : forall x, In x prov -> not_na x = true).
  { intros x Hx. unfold prov in Hx.
    do 2 apply In_select_subset in Hx. now apply In_select in Hx. }
  destruct (map_columns_spec df column_mapping mapping_targets_distinct
              {| province := prov; numeric := [] |})
    as (new_df & Hloop & Hnp & Htargets & _).
  rewrite Hloop. cbn [and_then]. simpl province in Hnp, Htargets.
  assert (Htarget : forall t,
             existsb (str_eqb t) (map snd column_mapping) = true ->
             exists col, lookup t (numeric new_df) = Some col).
  { intros t Ht. destruct (target_in_mapping _ Ht) as [k Hk].
    destruct (Htargets k t Hk) as (col & Hcol & _). eauto. }
  destruct (Htarget FACEBOOK eq_refl) as [fb Hfb].
  destruct (Htarget TIKTOK eq_refl) as [tk Htk].
  destruct (Htarget INSTAGRAM eq_refl) as [ig Hig].
  rewrite Hfb, Htk, Hig. cbn [or_raise and_then].
  set (interest := map2 np_add (map2 np_add fb tk) ig).
  set (new_df' := set_numeric INTEREST interest new_df).
  assert (Hreq : forall f, In f required_features ->
                           exists col, lookup f (numeric new_df') = Some col).
  { intros f Hf. destruct (required_feature_source f Hf) as [->|[k Hk]].
    - exists interest. apply lookup_assign_same.
    - destruct (Htargets k f Hk) as (col & Hcol & _). exists col.
      unfold new_df', set_numeric. cbn [numeric].
      rewrite lookup_assign_other; [exact Hcol|].
      intros E. apply interest_is_no_target. rewrite E.
      apply in_map_iff. exists (k, f). split; [reflexivity|exact Hk]. }
  rewrite (filter_all (fun c => has_numeric c new_df') required_features)
    by (intros f Hf; apply has_numeric_lookup; auto).
  destruct (select_columns_spec (TOTAL_TOURISTS :: required_features)
              (numeric new_df')) as (cols & Hcols & Hlook).
  { intros c [<-|Hc]; [|auto].
    destruct (Htarget TOTAL_TOURISTS eq_refl) as [col Hcol]. exists col.
    unfold new_df', set_numeric. cbn [numeric].
    rewrite lookup_assign_other; [exact Hcol|]. intros E. discriminate E. }
  rewrite Hcols. cbn [or_raise and_then].
  eexists. split; [reflexivity|].
  assert (Hfinal : forall f, In f required_features ->
             lookup f (numeric (groupby_last
                                  {| province := province new_df';
                                     numeric := cols |}))
             = option_map (fun col => map (group_last (province new_df') col)
                                          (group_keys (province new_df')))
                          (lookup f (numeric new_df'))).
  { intros f Hf. unfold groupby_last. cbn [numeric province].
    rewrite <- (Hlook f (or_intror Hf)).
    apply (lookup_map_columns
             (fun col => map (group_last (province new_df') col)
                             (group_keys (province new_df')))). }
  split; [|split].
  - intros f Hf. apply has_numeric_lookup. rewrite (Hfinal f Hf).
    destruct (Hreq f Hf) as [col ->]. simpl. eauto.
  - intros k f Hk Hf Habsent. rewrite (Hfinal f Hf).
    destruct (Htargets k f Hk) as (col & Hcol & Hzero).
    assert (Hnone : get_col str_eqb k df = None).
    { unfold df. rewrite !get_col_filter_rows.
      assert (E : get_col str_eqb k df0 = None); [|now rewrite E].
      apply get_col_has_column. unfold df0.
      destruct (has_column str_eqb PROVINCE_TH csv); [|exact Habsent].
      destruct (mapping_key_plain _ _ Hk) as [H1 H2].
      now rewrite has_column_rename. }
    specialize (Hzero Hnone). subst col.
    assert (Hl : lookup f (numeric new_df')
                 = Some (repeat (Int 0) (length prov))).
    { unfold new_df', set_numeric. cbn [numeric].
      rewrite lookup_assign_other; [exact Hcol|].
      intros E. apply interest_is_no_target. rewrite E.
      apply in_map_iff. exists (k, f). split; [reflexivity|exact Hk]. }
    rewrite Hl. cbn [option_map]. eexists. split; [reflexivity|].
    apply Forall_forall. intros x Hx.
    apply in_map_iff in Hx as (key & <- & Hkey).
    unfold new_df', set_numeric in *. cbn [province] in *. rewrite Hnp in *.
    symmetry. apply group_last_zeros.
    + now apply group_keys_In.
    + apply Hprov. now apply group_keys_In.
  - unfold frame_ok, groupby_last. cbn [numeric province]. split; [|split].
    + intros f Hf.
      rewrite (lookup_map_columns
                 (fun col => map (group_last (province new_df') col)
                                 (group_keys (province new_df')))).
      rewrite (Hlook f Hf).
      assert (H : exists col, lookup f (numeric new_df') = Some col).
      { destruct Hf as [<-|Hf]; [|auto].
        destruct (Htarget TOTAL_TOURISTS eq_refl) as [col Hcol]. exists col.
        unfold new_df', set_numeric. cbn [numeric].
        rewrite lookup_assign_other; [exact Hcol|]. intros E. discriminate E. }
      destruct H as [col ->]. simpl. eauto.
    + intros c col Hin. apply in_map_iff in Hin as ([c' col'] & E & _).
      inversion E; subst. now rewrite length_map.
    + intros x Hx. apply group_keys_In in Hx.
      unfold new_df', set_numeric in Hx. cbn [province] in Hx.
      rewrite Hnp in Hx. auto.
Qed.

Lemma get_col_count_label (c : str) (df : DataFrame str) (col : Series) :
  get_col str_eqb c df = Some col -> 1 <= count_label c df.
Proof.
  unfold count_label, columns.
  induction df as [|[l col'] df IH]; simpl; [discriminate|].
  rewrite (str_eqb_sym c l).
  destruct (str_eqb l c); simpl; [lia|exact IH].
Qed.

(** The function returns only on a CSV with one province column. *)
Lemma load_factor_returns_inv (csv : DataFrame str) (out : NumFrame * list str) :
  load_factor_and_target_data float_repr csv = Returns out ->
  count_label PROVINCE
    (if has_column str_eqb PROVINCE_TH csv
     then rename str_eqb PROVINCE_TH PROVINCE csv else csv) = 1.
Proof.
  unfold load_factor_and_target_data.
  set (df0 := if has_column str_eqb PROVINCE_TH csv
              then rename str_eqb PROVINCE_TH PROVINCE csv else csv).
  destruct (get_col str_eqb PROVINCE df0) as [prov|] eqn:E; [|discriminate].
  apply get_col_count_label in E. cbn [or_raise and_then].
  destruct (Nat.ltb 1 (count_label PROVINCE df0)) eqn:Hlt; [discriminate|].
  apply Nat.ltb_ge in Hlt. intros _. lia.
Qed.

(** What the function returns is a well-formed table over the required
    features. *)
Lemma load_factor_output (csv : DataFrame str) (df : NumFrame) (fs : list str) :
  load_factor_and_target_data float_repr csv = Returns (df, fs) ->
  fs = required_features /\ frame_ok (TOTAL_TOURISTS :: required_features) df.
Proof.
  intros H. pose proof (load_factor_returns_inv csv _ H) as Hcount.
  destruct (load_factor_spec csv Hcount) as (df' & Hload & _ & _ & Hok).
  rewrite Hload in H. injection H as <- <-. auto.
Qed.

End WithRepr.

End FactorFacts.

(* ================================================================== *)
(** * The comparison table and the SWOT lists *)
(* ================================================================== *)

Module SwotFacts.

Import PyStrFacts FrameFacts FactorFacts.

(** ** Lists *)

Lemma select_length_eq {A B} (m : list bool) (c1 : list A) (c2 : list B) :
  length c1 = length c2 -> length (select m c1) = length (select m c2).
Proof.
  revert c1 c2; induction m as [|b m IH]; intros [|x c1] [|y c2] H;
    try discriminate H; try reflexivity.
  rewrite !select_cons. injection H as H.
  destruct b; simpl; auto.
Qed.

Lemma In_select_intro (p : pyval -> bool) (ks : list pyval) (x : pyval) :
  In x ks -> p x = true -> In x (select (map p ks) ks).
Proof.
  induction ks as [|k ks IH]; [intros []|].
  intros Hin Hp. simpl map. rewrite select_cons.
  destruct Hin as [->|Hin].
  - rewrite Hp. now left.
  - destruct (p k); [right|]; auto.
Qed.

Lemma Permutation_filter {A} (f : A -> bool) (l l' : list A) :
  Permutation l l' -> Permutation (filter f l) (filter f l').
Proof.
  induction 1 as [|x l l' _ IH|x y l|l l' l'' _ IH1 _ IH2]; simpl.
  - constructor.
  - destruct (f x); [now constructor|exact IH].
  - destruct (f x), (f y); try reflexivity. apply perm_swap.
  - now transitivity (filter f l').
Qed.

Lemma map_fst_filter_combine {A B} (p : A -> bool) (xs : list A) (ys : list B) :
  length xs = length ys ->
  map fst (filter (fun '(x, _) => p x) (combine xs ys)) = filter p xs.
Proof.
  revert ys; induction xs as [|x xs IH]; intros [|y ys] H;
    try discriminate H; [reflexivity|].
  injection H as H. simpl. destruct (p x); simpl; now rewrite IH.
Qed.

(** Three tests of which exactly one holds of every element split a list
    into three. *)
Lemma three_way_split {A} (w o s : A -> bool) (l : list A) :
  (forall x, (w x = true /\ o x = false /\ s x = false)
             \/ (w x = false /\ o x = true /\ s x = false)
             \/ (w x = false /\ o x = false /\ s x = true)) ->
  Permutation (filter w l ++ filter o l ++ filter s l) l.
Proof.
  intros H. induction l as [|x l IH]; [constructor|].
  simpl. destruct (H x) as [(-> & -> & ->)|[(-> & -> & ->)|(-> & -> & ->)]].
  - simpl. now constructor.
  - symmetry. apply Permutation_cons_app. now symmetry.
  - symmetry. rewrite app_assoc. apply Permutation_cons_app.
    rewrite <- app_assoc. now symmetry.
Qed.

(** ** Rows and columns of a factor table *)

Lemma frame_ok_filter (names : list str) (m : list bool) (df : NumFrame) :
  frame_ok names df -> frame_ok names (filter_num_rows m df).
Proof.
  intros (Hcols & Hlen & Hna). unfold frame_ok, filter_num_rows.
  cbn [numeric province]. split; [|split].
  - intros f Hf. rewrite (lookup_map_columns (select m)).
    destruct (Hcols f Hf) as [col ->]. simpl. eauto.
  - intros c col Hin. apply in_map_iff in Hin as ([c' col'] & E & Hin).
    inversion E; subst. apply select_length_eq. eapply Hlen; eauto.
  - intros x Hx. apply Hna. eapply In_select_subset; eauto.
Qed.

Lemma first_row_spec (cols : list (str * list number)) :
  (forall c col, In (c, col) cols -> col <> []) ->
  exists row,
    first_row cols = Some row
    /\ forall f col, lookup f cols = Some col ->
                     exists v, row_get f row = Some v.
Proof.
  induction cols as [|[c col] cols IH]; intros H.
  - exists []. split; [reflexivity|]. intros f col E. discriminate E.
  - destruct IH as (row & Hrow & Hget);
      [intros c' col' Hin; apply (H c' col'); now right|].
    destruct col as [|v col]; [destruct (H c [] (or_introl eq_refl) eq_refl)|].
    exists ((c, v) :: row). split; [simpl; now rewrite Hrow|].
    intros f col' E. simpl in *. destruct (str_eqb f c); eauto.
Qed.

Lemma loc_spec (rows : list comparison) (f : str) :
  In f (map Feature rows) ->
  exists r, loc f rows = Some r /\ Feature r = f /\ In r rows.
Proof.
  induction rows as [|r rows IH]; [intros []|].
  intros Hin. simpl. destruct (str_eqb f (Feature r)) eqn:E.
  - apply str_eqb_eq in E. exists r. split; [reflexivity|]. split; [auto|now left].
  - destruct Hin as [Hf|Hin]; [subst f; now rewrite str_eqb_refl in E|].
    destruct (IH Hin) as (r' & Hl & Hf & Hr). exists r'. auto using in_cons.
Qed.

Lemma feature_item_of (comp_df : list comparison) (f : str) :
  feature (item_of comp_df f) = f.
Proof. unfold item_of. now destruct (loc f comp_df). Qed.

Lemma map_feature_items (comp_df : list comparison) (fs : list str) :
  map feature (map (item_of comp_df) fs) = fs.
Proof.
  rewrite map_map. rewrite <- (map_id fs) at 2.
  apply map_ext. apply feature_item_of.
Qed.

(** Exactly one of the three tests holds of an item. *)
Lemma bucket_cases (it : item) :
  (is_weakness it = true /\ is_opportunity it = false /\ is_strength it = false)
  \/ (is_weakness it = false /\ is_opportunity it = true /\ is_strength it = false)
  \/ (is_weakness it = false /\ is_opportunity it = false /\ is_strength it = true).
Proof.
  unfold is_strength, is_weakness, is_opportunity.
  destruct (is_neg it), (gt (current it) (target it)),
    (lt (current it) (target it)); simpl; tauto.
Qed.

(** The loop files every row under the test that holds of its item, in the
    order of the rows. *)
Lemma classify_loop_spec (comp_df : list comparison) (rows : list (str * float)) :
  (forall f, In f (map fst rows) -> exists r, loc f comp_df = Some r) ->
  forall acc,
  exists out,
    classify_loop rows comp_df acc = Returns out
    /\ weaknesses_list out
       = weaknesses_list acc
         ++ filter is_weakness (map (item_of comp_df) (map fst rows))
    /\ opportunities_list out
       = opportunities_list acc
         ++ filter is_opportunity (map (item_of comp_df) (map fst rows))
    /\ strengths_list out
       = strengths_list acc
         ++ filter is_strength (map (item_of comp_df) (map fst rows)).
Proof.
  induction rows as [|[f x] rows IH]; intros Hloc acc.
  - exists acc. simpl. now rewrite !app_nil_r.
  - destruct (Hloc f (or_introl eq_refl)) as [r Hr].
    cbn [classify_loop]. rewrite Hr. cbn [or_raise and_then].
    set (it := {| feature := f; current := Value r; target := Benchmark r;
                  is_neg := is_negative_factor f |}).
    assert (Hit : item_of comp_df f = it) by (unfold item_of; now rewrite Hr).
    destruct (IH (fun g Hg => Hloc g (or_intror Hg)) (classify it acc))
      as (out & Hout & Hw & Ho & Hs).
    exists out. split; [exact Hout|].
    cbn [map fst filter]. rewrite Hit, Hw, Ho, Hs.
    unfold classify, is_strength, is_weakness, is_opportunity.
    destruct (is_neg it), (gt (current it) (target it)),
      (lt (current it) (target it));
      cbn [weaknesses_list opportunities_list strengths_list andb negb];
      rewrite <- ?app_assoc; auto.
Qed.

Section WithLibraries.

Variable nlargest_rows : nat -> list number -> list nat.
Variable series_mean : list number -> float.
Variable sort_values_desc : list (str * float) -> list (str * float).

(** Sorting reorders the rows and does nothing else. *)
Hypothesis sort_values_perm :
  forall l, Permutation (sort_values_desc l) l.

Lemma comparison_data_spec (fs : list str) (prov_row : list (str * number))
    (top : list (str * list number)) :
  (forall f, In f fs -> exists v, row_get f prov_row = Some v) ->
  (forall f, In f fs -> exists col, lookup f top = Some col) ->
  exists rows,
    comparison_data series_mean fs prov_row top = Returns rows
    /\ map Feature rows = fs
    /\ forall r, In r rows ->
         row_get (Feature r) prov_row = Some (Value r)
         /\ (exists col, lookup (Feature r) top = Some col
                         /\ Benchmark r = series_mean col)
         /\ Gap r = fsub (to_float (Value r)) (Benchmark r).
Proof.
  induction fs as [|f fs IH]; intros Hrow Htop.
  - exists []. split; [reflexivity|]. split; [reflexivity|intros r []].
  - destruct (Hrow f (or_introl eq_refl)) as [v Hv].
    destruct (Htop f (or_introl eq_refl)) as [col Hcol].
    destruct IH as (rows & Hrows & Hfs & Hall);
      [intros g Hg; apply Hrow; now right
      |intros g Hg; apply Htop; now right|].
    simpl. rewrite Hv, Hcol. cbn [or_raise and_then]. rewrite Hrows.
    cbn [and_then]. eexists. split; [reflexivity|]. split.
    + simpl. now rewrite Hfs.
    + intros r [<-|Hr]; [|auto]. simpl. eauto.
Qed.

Lemma filter_mem_actionable (fs : list str) :
  filter (fun f => mem f (actionable_vars fs)) fs = actionable_vars fs.
Proof.
  unfold actionable_vars.
  set (q := fun f => negb (mem f uncontrollable_vars)
                     && negb (mem f result_vars)).
  apply filter_ext_in. intros f Hf. unfold mem at 1.
  destruct (q f) eqn:E.
  - apply existsb_str_eqb_In. apply filter_In. now split.
  - apply not_true_iff_false. intros H. apply existsb_str_eqb_In in H.
    apply filter_In in H as [_ H]. congruence.
Qed.

(** The features the loop visits are the actionable ones, in the order of
    their importance. *)
Lemma sorted_actionable_features (fs : list str) (importances : list float) :
  length fs = length importances ->
  Permutation
    (map fst (sorted_actionable_imp sort_values_desc fs
                (sort_values_desc (combine fs importances))))
    (actionable_vars fs).
Proof.
  intros Hlen. unfold sorted_actionable_imp.
  rewrite (Permutation_map fst (sort_values_perm _)).
  rewrite (Permutation_map fst
             (Permutation_filter _ _ _ (sort_values_perm (combine fs importances)))).
  rewrite (map_fst_filter_combine (fun f => mem f (actionable_vars fs)))
    by exact Hlen.
  now rewrite filter_mem_actionable.
Qed.

(** The analysis of a selected province of a well-formed factor table: it
    raises nothing, the comparison table has a row for every feature, and
    the three lists are the items of the actionable features under the
    three tests. *)
Lemma swot_analysis_run (df : NumFrame) (fs : list str)
    (importances : list float) (selected : pyval) :
  frame_ok (TOTAL_TOURISTS :: fs) df ->
  In selected (province (train_data df)) ->
  truthy selected = true ->
  length importances = length fs ->
  let order :=
    map fst (sorted_actionable_imp sort_values_desc fs
               (sort_values_desc (combine fs importances))) in
  exists prov_row totals comp_df lists,
    swot_analysis nlargest_rows series_mean sort_values_desc
      df fs importances selected
    = Returns (Some (comp_df, lists))
    /\ iloc0 (filter_num_rows
                (map (fun v => pyval_eqb v selected) (province (train_data df)))
                (train_data df)) = Returns prov_row
    /\ lookup TOTAL_TOURISTS (numeric (train_data df)) = Some totals
    /\ map Feature comp_df = fs
    /\ (forall r, In r comp_df ->
          row_get (Feature r) prov_row = Some (Value r)
          /\ (exists col,
                lookup (Feature r) (numeric (train_data df)) = Some col
                /\ Benchmark r
                   = series_mean (take_rows (nlargest_rows 10 totals) col))
          /\ Gap r = fsub (to_float (Value r)) (Benchmark r))
    /\ Permutation order (actionable_vars fs)
    /\ weaknesses_list lists = filter is_weakness (map (item_of comp_df) order)
    /\ opportunities_list lists
       = filter is_opportunity (map (item_of comp_df) order)
    /\ strengths_list lists = filter is_strength (map (item_of comp_df) order).
Proof.
  intros Hok Hsel Htruthy Hlen order. unfold order. clear order.
  unfold swot_analysis, feature_imp_df.
  rewrite Hlen, Nat.eqb_refl.
  cbn [and_then]. rewrite Htruthy.
  set (train := train_data df) in *.
  assert (Htrain : frame_ok (TOTAL_TOURISTS :: fs) train)
    by (apply frame_ok_filter; exact Hok).
  set (mask := map (fun v => pyval_eqb v selected) (province train)).
  pose proof (frame_ok_filter _ mask _ Htrain) as (Hcols & Hlens & Hna).
  destruct Htrain as (Htcols & Htlens & Htna).
  assert (Hhere : In selected (province (filter_num_rows mask train))).
  { unfold filter_num_rows, mask. cbn [province].
    apply In_select_intro; [exact Hsel|].
    apply pyval_eqb_refl. now apply Htna. }
  destruct (first_row_spec (numeric (filter_num_rows mask train)))
    as (prov_row & Hrow & Hget).
  { intros c col Hin ->. specialize (Hlens c [] Hin).
    destruct (province (filter_num_rows mask train)); [destruct Hhere|].
    discriminate Hlens. }
  assert (Hiloc : iloc0 (filter_num_rows mask train) = Returns prov_row).
  { unfold iloc0.
    destruct (province (filter_num_rows mask train)); [destruct Hhere|].
    now rewrite Hrow. }
  rewrite Hiloc. cbn [and_then].
  assert (Hrowget : forall f, In f (TOTAL_TOURISTS :: fs) ->
                              exists v, row_get f prov_row = Some v).
  { intros f Hf. destruct (Hcols f Hf) as [col Hcol]. eauto. }
  destruct (Hrowget TOTAL_TOURISTS (or_introl eq_refl)) as [prov_val ->].
  destruct (Htcols TOTAL_TOURISTS (or_introl eq_refl)) as [totals Htot].
  rewrite Htot. cbn [or_raise and_then].
  set (top := map (fun '(c, col) =>
                     (c, take_rows (nlargest_rows 10 totals) col))
                  (numeric train)).
  assert (Htop : forall f,
             lookup f top
             = option_map (take_rows (nlargest_rows 10 totals))
                          (lookup f (numeric train)))
    by (intros f; apply (lookup_map_columns
                           (take_rows (nlargest_rows 10 totals)))).
  destruct (comparison_data_spec fs prov_row top)
    as (comp_df & Hcomp & Hfs & Hall).
  { intros f Hf. apply Hrowget. now right. }
  { intros f Hf. rewrite Htop.
    destruct (Htcols f (or_intror Hf)) as [col ->]. simpl. eauto. }
  rewrite Hcomp. cbn [and_then].
  set (rows := sorted_actionable_imp sort_values_desc fs
                 (sort_values_desc (combine fs importances))).
  assert (Hperm : Permutation (map fst rows) (actionable_vars fs))
    by (apply sorted_actionable_features; now symmetry).
  destruct (classify_loop_spec comp_df rows) with (acc := empty_lists)
    as (lists & Hloop & Hw & Ho & Hs).
  { intros f Hf. apply (Permutation_in _ Hperm) in Hf.
    apply filter_In in Hf as [Hf _].
    destruct (loc_spec comp_df f) as (r & Hr & _); [now rewrite Hfs|eauto]. }
  rewrite Hloop. cbn [and_then].
  exists prov_row, totals, comp_df, lists.
  split; [reflexivity|]. split; [reflexivity|]. split; [reflexivity|].
  split; [exact Hfs|]. split.
  - intros r Hr. destruct (Hall r Hr) as (Hv & (col & Hcol & Hb) & Hg).
    split; [exact Hv|]. split; [|exact Hg].
    rewrite Htop in Hcol.
    destruct (lookup (Feature r) (numeric train)) as [col'|];
      [|discriminate Hcol].
    exists col'. split; [reflexivity|].
    simpl in Hcol. injection Hcol as <-. exact Hb.
  - split; [exact Hperm|]. auto.
Qed.

(** The same, with the order of the rows left open. *)
Lemma swot_analysis_spec (df : NumFrame) (fs : list str)
    (importances : list float) (selected : pyval) :
  frame_ok (TOTAL_TOURISTS :: fs) df ->
  In selected (province (train_data df)) ->
  truthy selected = true ->
  length importances = length fs ->
  exists prov_row totals comp_df lists order,
    swot_analysis nlargest_rows series_mean sort_values_desc
      df fs importances selected
    = Returns (Some (comp_df, lists))
    /\ iloc0 (filter_num_rows
                (map (fun v => pyval_eqb v selected) (province (train_data df)))
                (train_data df)) = Returns prov_row
    /\ lookup TOTAL_TOURISTS (numeric (train_data df)) = Some totals
    /\ map Feature comp_df = fs
    /\ (forall r, In r comp_df ->
          row_get (Feature r) prov_row = Some (Value r)
          /\ (exists col,
                lookup (Feature r) (numeric (train_data df)) = Some col
                /\ Benchmark r
                   = series_mean (take_rows (nlargest_rows 10 totals) col))
          /\ Gap r = fsub (to_float (Value r)) (Benchmark r))
    /\ Permutation order (actionable_vars fs)
    /\ weaknesses_list lists = filter is_weakness (map (item_of comp_df) order)
    /\ opportunities_list lists
       = filter is_opportunity (map (item_of comp_df) order)
    /\ strengths_list lists = filter is_strength (map (item_of comp_df) order).
Proof.
  intros Hok Hsel Htruthy Hlen.
  destruct (swot_analysis_run df fs importances selected Hok Hsel Htruthy Hlen)
    as (prov_row & totals & comp_df & lists & H).
  exists prov_row, totals, comp_df, lists. eexists. exact H.
Qed.

Lemma In_feature_bucket (t : item -> bool) (comp_df : list comparison)
    (order : list str) (f : str) :
  In f (map feature (filter t (map (item_of comp_df) order)))
  <-> In f order /\ t (item_of comp_df f) = true.
Proof.
  rewrite in_map_iff. split.
  - intros (it & Hf & Hin). apply filter_In in Hin as [Hin Ht].
    apply in_map_iff in Hin as (g & <- & Hg).
    rewrite feature_item_of in Hf. subst g. auto.
  - intros [Hin Ht]. exists (item_of comp_df f).
    split; [apply feature_item_of|].
    apply filter_In. split; [now apply in_map|exact Ht].
Qed.

Variable float_repr : float -> str.

(** C5.  For the selected province and every actionable feature, with the
    province's value of the feature and the mean of the feature over the
    ten provinces with most visitors as benchmark: the feature is among the
    weaknesses exactly when it is a problem-type feature and the value
    exceeds the benchmark, among the opportunities exactly when it is a
    positive-type feature and the value is below the benchmark, and among
    the strengths otherwise. *)
Theorem classification_follows_benchmark
    (csv : DataFrame str) (df_model_data : NumFrame)
    (feature_names_list : list str) (importances : list float)
    (selected : pyval) :
  load_factor_and_target_data float_repr csv
  = Returns (df_model_data, feature_names_list) ->
  In selected (province (train_data df_model_data)) ->
  truthy selected = true ->
  length importances = length feature_names_list ->
  exists prov_row totals comp_df lists,
    swot_analysis nlargest_rows series_mean sort_values_desc
      df_model_data feature_names_list importances selected
    = Returns (Some (comp_df, lists))
    /\ iloc0 (filter_num_rows
                (map (fun v => pyval_eqb v selected)
                     (province (train_data df_model_data)))
                (train_data df_model_data)) = Returns prov_row
    /\ lookup TOTAL_TOURISTS (numeric (train_data df_model_data)) = Some totals
    /\ forall f, In f (actionable_vars feature_names_list) ->
         exists value col,
           row_get f prov_row = Some value
           /\ lookup f (numeric (train_data df_model_data)) = Some col
           /\ let benchmark :=
                series_mean (take_rows (nlargest_rows 10 totals) col) in
              (In f (map feature (weaknesses_list lists))
               <-> is_negative_factor f = true /\ gt value benchmark = true)
              /\ (In f (map feature (opportunities_list lists))
                  <-> is_negative_factor f = false /\ lt value benchmark = true)
              /\ (In f (map feature (strengths_list lists))
                  <-> ~ (is_negative_factor f = true /\ gt value benchmark = true)
                      /\ ~ (is_negative_factor f = false
                            /\ lt value benchmark = true)).
Proof.
  intros Hload Hsel Htruthy Hlen.
  destruct (load_factor_output float_repr csv _ _ Hload) as [-> Hok].
  destruct (swot_analysis_spec df_model_data required_features importances
              selected Hok Hsel Htruthy Hlen)
    as (prov_row & totals & comp_df & lists & order & Hrun & Hrow & Htot
        & Hfs & Hall & Hperm & Hw & Ho & Hs).
  exists prov_row, totals, comp_df, lists.
  split; [exact Hrun|]. split; [exact Hrow|]. split; [exact Htot|].
  intros f Hf.
  assert (Hin : In f order) by (apply (Permutation_in _ (Permutation_sym Hperm)); exact Hf).
  assert (Hfeat : In f required_features)
    by (apply filter_In in Hf as [Hf _]; exact Hf).
  destruct (loc_spec comp_df f) as (r & Hr & Hrf & Hrin);
    [now rewrite Hfs|].
  destruct (Hall r Hrin) as (Hv & (col & Hcol & Hb) & _).
  rewrite Hrf in Hv, Hcol.
  exists (Value r), col. split; [exact Hv|]. split; [exact Hcol|].
  cbv zeta. rewrite <- Hb. rewrite Hw, Ho, Hs. rewrite !In_feature_bucket.
  unfold is_strength, is_weakness, is_opportunity, item_of. rewrite Hr.
  cbn [is_neg current target].
  destruct (is_negative_factor f), (gt (Value r) (Benchmark r)),
    (lt (Value r) (Benchmark r)); cbn [andb negb];
    intuition congruence.
Qed.

(** C6.  For the selected province every actionable feature is in exactly
    one of the three lists, once, and the lists hold nothing else. *)
Theorem classification_is_a_partition
    (csv : DataFrame str) (df_model_data : NumFrame)
    (feature_names_list : list str) (importances : list float)
    (selected : pyval) :
  load_factor_and_target_data float_repr csv
  = Returns (df_model_data, feature_names_list) ->
  In selected (province (train_data df_model_data)) ->
  truthy selected = true ->
  length importances = length feature_names_list ->
  exists comp_df lists,
    swot_analysis nlargest_rows series_mean sort_values_desc
      df_model_data feature_names_list importances selected
    = Returns (Some (comp_df, lists))
    /\ Permutation
         (map feature (weaknesses_list lists ++ opportunities_list lists
                       ++ strengths_list lists))
         (actionable_vars feature_names_list)
    /\ forall f, In f (actionable_vars feature_names_list) ->
         count_occ str_eq_dec
           (map feature (weaknesses_list lists ++ opportunities_list lists
                         ++ strengths_list lists)) f = 1.
Proof.
  intros Hload Hsel Htruthy Hlen.
  destruct (load_factor_output float_repr csv _ _ Hload) as [-> Hok].
  destruct (swot_analysis_spec df_model_data required_features importances
              selected Hok Hsel Htruthy Hlen)
    as (prov_row & totals & comp_df & lists & order & Hrun & _ & _
        & _ & _ & Hperm & Hw & Ho & Hs).
  exists comp_df, lists. split; [exact Hrun|].
  assert (Hall : Permutation
                   (map feature (weaknesses_list lists ++ opportunities_list lists
                                 ++ strengths_list lists))
                   (actionable_vars required_features)).
  { rewrite Hw, Ho, Hs.
    rewrite (Permutation_map feature
               (three_way_split is_weakness is_opportunity is_strength
                  (map (item_of comp_df) order) bucket_cases)).
    now rewrite map_feature_items. }
  split; [exact Hall|].
  intros f Hf.
  rewrite (proj1 (Permutation_count_occ str_eq_dec _ _) Hall f).
  apply NoDup_count_occ'; [|exact Hf].
  apply NoDup_filter. apply required_features_distinct.
Qed.

(** C9, as amended.  For the selected province and every feature, the
    comparison table holds the province's value of the feature, the mean of
    the feature over the ten provinces with most visitors, and their gap,
    which is the value minus the benchmark for every feature, of the
    problem type or not. *)
Theorem comparison_row_is_value_benchmark_gap
    (csv : DataFrame str) (df_model_data : NumFrame)
    (feature_names_list : list str) (importances : list float)
    (selected : pyval) :
  load_factor_and_target_data float_repr csv
  = Returns (df_model_data, feature_names_list) ->
  In selected (province (train_data df_model_data)) ->
  truthy selected = true ->
  length importances = length feature_names_list ->
  exists prov_row totals comp_df lists,
    swot_analysis nlargest_rows series_mean sort_values_desc
      df_model_data feature_names_list importances selected
    = Returns (Some (comp_df, lists))
    /\ iloc0 (filter_num_rows
                (map (fun v => pyval_eqb v selected)
                     (province (train_data df_model_data)))
                (train_data df_model_data)) = Returns prov_row
    /\ lookup TOTAL_TOURISTS (numeric (train_data df_model_data)) = Some totals
    /\ forall f, In f feature_names_list ->
         exists r col,
           loc f comp_df = Some r
           /\ row_get f prov_row = Some (Value r)
           /\ lookup f (numeric (train_data df_model_data)) = Some col
           /\ Benchmark r = series_mean (take_rows (nlargest_rows 10 totals) col)
           /\ Gap r = fsub (to_float (Value r)) (Benchmark r).
Proof.
  intros Hload Hsel Htruthy Hlen.
  destruct (load_factor_output float_repr csv _ _ Hload) as [-> Hok].
  destruct (swot_analysis_spec df_model_data required_features importances
              selected Hok Hsel Htruthy Hlen)
    as (prov_row & totals & comp_df & lists & order & Hrun & Hrow & Htot
        & Hfs & Hall & _).
  exists prov_row, totals, comp_df, lists.
  split; [exact Hrun|]. split; [exact Hrow|]. split; [exact Htot|].
  intros f Hf.
  destruct (loc_spec comp_df f) as (r & Hr & Hrf & Hrin);
    [now rewrite Hfs|].
  destruct (Hall r Hrin) as (Hv & (col & Hcol & Hb) & Hg).
  rewrite Hrf in Hv, Hcol. exists r, col. auto.
Qed.

End WithLibraries.

(** ** The examples *)

Lemma insert_desc_perm {A} (key : A -> float) (x : A) (l : list A) :
  Permutation (insert_desc key x l) (x :: l).
Proof.
  induction l as [|y l IH]; [reflexivity|].
  simpl. destruct (fltb (key x) (key y)); [|reflexivity].
  rewrite IH. apply perm_swap.
Qed.

Lemma sample_sort_values_perm (l : list (str * float)) :
  Permutation (sample_sort_values l) l.
Proof.
  unfold sample_sort_values, sort_desc.
  induction l as [|x l IH]; [reflexivity|].
  simpl. rewrite insert_desc_perm. now constructor.
Qed.

Lemma sample_load :
  load_factor_and_target_data repr_unused sample_csv
  = Returns (sample_model, required_features).
Proof. vm_compute. reflexivity. Qed.

Lemma sample_selected :
  In (Str CHIANG_MAI) (province (train_data sample_model)).
Proof. vm_compute. repeat (try (left; reflexivity); right). Qed.

Lemma classification_follows_benchmark_witness :
  exists prov_row totals comp_df lists,
    swot_analysis sample_nlargest sample_mean sample_sort_values
      sample_model required_features sample_importances (Str CHIANG_MAI)
    = Returns (Some (comp_df, lists))
    /\ iloc0 (filter_num_rows
                (map (fun v => pyval_eqb v (Str CHIANG_MAI))
                     (province (train_data sample_model)))
                (train_data sample_model)) = Returns prov_row
    /\ lookup TOTAL_TOURISTS (numeric (train_data sample_model)) = Some totals
    /\ In POLLUTION (map feature (weaknesses_list lists)).
Proof.
  destruct (classification_follows_benchmark
              sample_nlargest sample_mean sample_sort_values
              sample_sort_values_perm repr_unused
              sample_csv sample_model required_features sample_importances
              (Str CHIANG_MAI) sample_load sample_selected eq_refl eq_refl)
    as (prov_row & totals & comp_df & lists & Hrun & Hrow & Htot & Hall).
  exists prov_row, totals, comp_df, lists.
  split; [exact Hrun|]. split; [exact Hrow|]. split; [exact Htot|].
  vm_compute in Hrun. injection Hrun as _ <-.
  vm_compute. repeat (try (left; reflexivity); right).
Defined.

Lemma classification_is_a_partition_witness :
  exists comp_df lists,
    swot_analysis sample_nlargest sample_mean sample_sort_values
      sample_model required_features sample_importances (Str CHIANG_MAI)
    = Returns (Some (comp_df, lists))
    /\ count_occ str_eq_dec
         (map feature (weaknesses_list lists ++ opportunities_list lists
                       ++ strengths_list lists)) MARKET = 1.
Proof.
  destruct (classification_is_a_partition
              sample_nlargest sample_mean sample_sort_values
              sample_sort_values_perm repr_unused
              sample_csv sample_model required_features sample_importances
              (Str CHIANG_MAI) sample_load sample_selected eq_refl eq_refl)
    as (comp_df & lists & Hrun & _ & Hcount).
  exists comp_df, lists. split; [exact Hrun|].
  apply Hcount. vm_compute. repeat (try (left; reflexivity); right).
Defined.

Lemma comparison_row_is_value_benchmark_gap_witness :
  exists prov_row totals comp_df lists,
    swot_analysis sample_nlargest sample_mean sample_sort_values
      sample_model required_features sample_importances (Str CHIANG_MAI)
    = Returns (Some (comp_df, lists))
    /\ iloc0 (filter_num_rows
                (map (fun v => pyval_eqb v (Str CHIANG_MAI))
                     (province (train_data sample_model)))
                (train_data sample_model)) = Returns prov_row
    /\ lookup TOTAL_TOURISTS (numeric (train_data sample_model)) = Some totals
    /\ exists r, loc MARKET comp_df = Some r
                 /\ Gap r = fsub (to_float (Value r)) (Benchmark r).
Proof.
  destruct (comparison_row_is_value_benchmark_gap
              sample_nlargest sample_mean sample_sort_values
              sample_sort_values_perm repr_unused
              sample_csv sample_model required_features sample_importances
              (Str CHIANG_MAI) sample_load sample_selected eq_refl eq_refl)
    as (prov_row & totals & comp_df & lists & Hrun & Hrow & Htot & Hall).
  exists prov_row, totals, comp_df, lists.
  split; [exact Hrun|]. split; [exact Hrow|]. split; [exact Htot|].
  destruct (Hall MARKET) as (r & col & Hr & _ & _ & _ & Hg).
  { vm_compute. repeat (try (left; reflexivity); right). }
  exists r. auto.
Defined.

(** C9: the sign of the gap does not depend on the type of the feature.  In
    Chiang Mai pollution, a problem, and markets, an asset, both stand at 3
    against a benchmark of 1, and both gaps are +2. *)
Lemma gap_sign_is_the_same_for_problems :
  is_negative_factor POLLUTION = true
  /\ is_negative_factor MARKET = false
  /\ comparison_of
       (swot_analysis sample_nlargest sample_mean sample_sort_values
          sample_model required_features sample_importances (Str CHIANG_MAI))
       POLLUTION
     = Some (Float (of_Z 3), of_Z 1, of_Z 2)
  /\ comparison_of
       (swot_analysis sample_nlargest sample_mean sample_sort_values
          sample_model required_features sample_importances (Str CHIANG_MAI))
       MARKET
     = Some (Float (of_Z 3), of_Z 1, of_Z 2).
Proof. repeat split; vm_compute; reflexivity. Qed.

End SwotFacts.

(* ================================================================== *)
(** * Decimal numerals *)
(* ================================================================== *)

Module NumeralFacts.

Import PyStrFacts.
Local Open Scope N_scope.

Lemma digits_value_go_app (a : N) (x y : str) :
  digits_value_go a (x ++ y) = digits_value_go (digits_value_go a x) y.
Proof. revert a; induction x as [|c x IH]; intros a; simpl; auto. Qed.

Lemma is_digit_low (r : N) : r < 10 -> is_digit (48 + r) = true.
Proof.
  intros H. unfold is_digit. apply andb_true_intro. split.
  - apply N.leb_le. lia.
  - apply N.leb_le. lia.
Qed.

Lemma digits_of_pos_go_S (k : nat) (n : N) (acc : str) :
  digits_of_pos_go (S k) n acc
  = if n / 10 =? 0 then (48 + n mod 10) :: acc
    else digits_of_pos_go k (n / 10) ((48 + n mod 10) :: acc).
Proof. reflexivity. Qed.

(** The digits written for [n] before [acc]: there is at least one, and
    they read back as [n]. *)
Lemma digits_of_pos_go_spec (fuel : nat) :
  forall n acc,
    (1 <= fuel)%nat -> n < 2 ^ N.of_nat fuel ->
    exists ds,
      digits_of_pos_go fuel n acc = ds ++ acc
      /\ ds <> []
      /\ Forall (fun c => is_digit c = true) ds
      /\ (length ds <= fuel)%nat
      /\ forall a, digits_value_go a ds = a * 10 ^ N.of_nat (length ds) + n.
Proof.
  induction fuel as [|k IH]; intros n acc Hk Hn; [lia|].
  rewrite digits_of_pos_go_S.
  assert (Hr : n mod 10 < 10) by (apply N.mod_lt; discriminate).
  destruct (n / 10 =? 0) eqn:Hq.
  - apply N.eqb_eq in Hq.
    assert (Hsmall : n = n mod 10).
    { rewrite (N.div_mod n 10) at 1 by discriminate. rewrite Hq. lia. }
    exists [48 + n mod 10]. split; [reflexivity|]. split; [discriminate|].
    split; [repeat constructor; now apply is_digit_low|].
    split; [simpl; lia|].
    intros a. cbn [digits_value_go length].
    change (N.of_nat 1) with 1.
    rewrite N.pow_1_r, (N.add_comm 48), N.add_sub, <- Hsmall. ring.
  - apply N.eqb_neq in Hq.
    assert (Hdiv : n / 10 < 2 ^ N.of_nat k).
    { rewrite Nat2N.inj_succ, N.pow_succ_r' in Hn.
      apply N.Div0.div_lt_upper_bound. lia. }
    assert (Hk' : (1 <= k)%nat).
    { destruct k as [|k']; [|lia].
      change (2 ^ N.of_nat 0) with 1 in Hdiv.
      exfalso. apply Hq. now apply N.lt_1_r. }
    destruct (IH (n / 10) ((48 + n mod 10) :: acc) Hk' Hdiv)
      as (ds & Hds & Hne & Hdig & Hlen & Hval).
    exists (ds ++ [48 + n mod 10]). split.
    { rewrite Hds. now rewrite <- app_assoc. }
    split; [intros E; apply app_eq_nil in E as [_ E]; discriminate E|].
    split.
    { apply Forall_app. split; [exact Hdig|].
      repeat constructor. now apply is_digit_low. }
    split; [rewrite length_app; simpl; lia|].
    intros a. rewrite digits_value_go_app, Hval.
    cbn [digits_value_go]. rewrite length_app. cbn [length].
    replace (N.of_nat (length ds + 1)) with (N.succ (N.of_nat (length ds)))
      by lia.
    rewrite N.pow_succ_r'.
    pose proof (N.div_mod n 10 ltac:(discriminate)) as E.
    rewrite (N.add_comm 48), N.add_sub.
    clear - E. set (q := n / 10) in *. set (r := n mod 10) in *.
    clearbody q r. subst n. ring.
Qed.

Lemma str_of_N_spec (n : N) :
  str_of_N n <> []
  /\ Forall (fun c => is_digit c = true) (str_of_N n)
  /\ (length (str_of_N n) <= S (N.to_nat (N.log2 n)))%nat
  /\ digits_value (str_of_N n) = n.
Proof.
  unfold str_of_N.
  destruct (digits_of_pos_go_spec (S (N.to_nat (N.log2 n))) n [])
    as (ds & Hds & Hne & Hdig & Hlen & Hval).
  - lia.
  - rewrite Nat2N.inj_succ, N2Nat.id.
    destruct n as [|p]; [reflexivity|].
    apply N.log2_spec. reflexivity.
  - rewrite Hds, app_nil_r. repeat split; auto.
    unfold digits_value. rewrite Hval. lia.
Qed.

Lemma str_of_N_inj (n m : N) : str_of_N n = str_of_N m -> n = m.
Proof.
  intros E. rewrite <- (proj2 (proj2 (proj2 (str_of_N_spec n)))).
  rewrite E. apply str_of_N_spec.
Qed.

Lemma str_of_N_digit (n : N) (c : char) :
  In c (str_of_N n) -> is_digit c = true.
Proof.
  intros H. destruct (str_of_N_spec n) as (_ & Hd & _).
  rewrite Forall_forall in Hd. auto.
Qed.

(** [str(n)] of integers: the sign and the digits. *)
Lemma str_of_Z_cases (z : Z) :
  (exists p, z = Zneg p /\ str_of_Z z = 45 :: str_of_N (Npos p))
  \/ ((0 <= z)%Z /\ str_of_Z z = str_of_N (Z.to_N z)).
Proof.
  destruct z as [|p|p]; [right|right|left; eauto];
    (split; [lia|reflexivity]).
Qed.

Lemma str_of_Z_inj (a b : Z) : str_of_Z a = str_of_Z b -> a = b.
Proof.
  intros E.
  assert (Hhd : forall n, exists d t, str_of_N n = d :: t /\ is_digit d = true).
  { intros n. destruct (str_of_N_spec n) as (Hne & Hd & _).
    destruct (str_of_N n) as [|d t]; [congruence|].
    exists d, t. split; [reflexivity|]. now inversion Hd. }
  destruct (str_of_Z_cases a) as [(p & -> & Ha)|[Ha0 Ha]];
    destruct (str_of_Z_cases b) as [(q & -> & Hb)|[Hb0 Hb]];
    rewrite Ha, Hb in E.
  - injection E as E. apply str_of_N_inj in E. congruence.
  - destruct (Hhd (Z.to_N b)) as (d & t & Hd & Hdig). rewrite Hd in E.
    injection E as <- _. discriminate Hdig.
  - destruct (Hhd (Z.to_N a)) as (d & t & Hd & Hdig). rewrite Hd in E.
    injection E as -> _. discriminate Hdig.
  - apply str_of_N_inj in E. lia.
Qed.

End NumeralFacts.

(* ================================================================== *)
(** * More on the numeric-string cleaner *)
(* ================================================================== *)

Module CleanerMore.

Import PyStrFacts PyFloatFacts CleanerFacts NumeralFacts.
Local Open Scope N_scope.

(** Replacing a one-character pattern by nothing deletes the character. *)
Lemma replace_delete_char (c : char) (s : str) :
  replace s [c] [] = filter (fun x => negb (c =? x)) s.
Proof.
  unfold replace. induction s as [|x s IH]; [reflexivity|].
  cbn [replace_go startswith length Nat.sub filter].
  unfold char_eqb. rewrite andb_true_r.
  destruct (c =? x); simpl; now rewrite IH.
Qed.

Lemma filter_id {A} (f : A -> bool) (l : list A) :
  (forall x, In x l -> f x = true) -> filter f l = l.
Proof.
  induction l as [|a l IH]; intros H; [reflexivity|].
  simpl. rewrite (H a (or_introl eq_refl)). f_equal. apply IH.
  intros x Hx. apply H. now right.
Qed.

Lemma dropwhile_id (f : char -> bool) (s : str) :
  (forall c, In c s -> f c = false) -> dropwhile f s = s.
Proof.
  destruct s as [|c s]; intros H; [reflexivity|].
  simpl. now rewrite (H c (or_introl eq_refl)).
Qed.

Lemma strip_id (s : str) :
  (forall c, In c s -> isspace c = false) -> strip s = s.
Proof.
  intros H. unfold strip, lstrip, rstrip.
  rewrite (dropwhile_id isspace s H).
  rewrite dropwhile_id; [apply rev_involutive|].
  intros c Hc. apply H. now apply in_rev.
Qed.

Lemma contains_false (p s : str) (c : char) :
  In c p -> ~ In c s -> contains p s = false.
Proof.
  intros Hp Hs. apply not_true_iff_false. intros H.
  apply Hs. eapply contains_In; eauto.
Qed.

(** A string without the separator is one piece. *)
Lemma split_go_no_sep (c : char) (s cur : str) :
  ~ In c s -> split_go [c] 0 cur s = [rev cur ++ s].
Proof.
  revert cur; induction s as [|x s IH]; intros cur H.
  - simpl. now rewrite app_nil_r.
  - cbn [split_go startswith]. unfold char_eqb.
    destruct (c =? x) eqn:E.
    + apply N.eqb_eq in E. subst. exfalso. apply H. now left.
    + cbn [andb]. rewrite IH by (intros Hin; apply H; now right).
      simpl. now rewrite <- app_assoc.
Qed.

(** ** The characters of a decimal numeral *)

Lemma numeral_char_cases (c : char) :
  numeral_char c = true ->
  c = 45 \/ c = 48 \/ c = 49 \/ c = 50 \/ c = 51 \/ c = 52 \/ c = 53
  \/ c = 54 \/ c = 55 \/ c = 56 \/ c = 57.
Proof.
  unfold numeral_char, is_digit. intros H.
  apply orb_prop in H as [H|H].
  - apply andb_prop in H as [H1 H2].
    apply N.leb_le in H1, H2. lia.
  - apply N.eqb_eq in H. now left.
Qed.

(** What the stages of the cleaner and of [float] test on a character of a
    numeral. *)
Lemma numeral_char_plain (c : char) :
  numeral_char c = true ->
  isspace c = false /\ is_space_ascii c = false /\ (c <? 128) = true
  /\ (c =? 95) = false /\ (44 =? c) = false /\ lower_char c = c
  /\ c <> 110 /\ c <> 3594 /\ c <> 3609.
Proof.
  intros H. apply numeral_char_cases in H.
  repeat destruct H as [H|H]; subst c; repeat split; discriminate.
Qed.

Lemma str_of_Z_numeral (z : Z) (c : char) :
  In c (str_of_Z z) -> numeral_char c = true.
Proof.
  unfold numeral_char.
  destruct (str_of_Z_cases z) as [(p & -> & E)|[_ E]]; rewrite E.
  - intros [<-|H]; [reflexivity|]. now rewrite (str_of_N_digit _ _ H).
  - intros H. now rewrite (str_of_N_digit _ _ H).
Qed.

Lemma span_digits_all (ds : str) :
  (forall c, In c ds -> is_digit c = true) -> span_digits ds = (ds, []).
Proof.
  induction ds as [|c ds IH]; intros H; [reflexivity|].
  simpl. rewrite (H c (or_introl eq_refl)).
  rewrite IH by (intros x Hx; apply H; now right). reflexivity.
Qed.

Lemma skip_zeros_length (ds : str) :
  (length (skip_zeros ds) <= length ds)%nat.
Proof.
  unfold skip_zeros. induction ds as [|c ds IH]; [simpl; lia|].
  simpl. destruct (c =? 48); simpl; lia.
Qed.

(** [strtod] on an optional minus sign and digits. *)
Lemma dg_strtod_numeral (sign : bool) (n : N) :
  (length (str_of_N n) <= 400)%nat ->
  dg_strtod ((if sign then [45] else []) ++ str_of_N n)
  = Some (decimal_to_double sign n 0, []).
Proof.
  intros Hlen. destruct (str_of_N_spec n) as (Hne & Hdig & _ & Hval).
  rewrite Forall_forall in Hdig.
  unfold dg_strtod.
  assert (Hsign : parse_sign ((if sign then [45] else []) ++ str_of_N n)
                  = (sign, str_of_N n)).
  { destruct sign; [reflexivity|]. simpl.
    destruct (str_of_N n) as [|d t] eqn:E; [congruence|].
    unfold parse_sign.
    assert (Hd : is_digit d = true) by (apply Hdig; now left).
    unfold is_digit in Hd. apply andb_prop in Hd as [H1 H2].
    apply N.leb_le in H1, H2.
    replace (d =? 45) with false by (symmetry; apply N.eqb_neq; lia).
    replace (d =? 43) with false by (symmetry; apply N.eqb_neq; lia).
    reflexivity. }
  rewrite Hsign, (span_digits_all _ Hdig). cbn [parse_fraction].
  rewrite app_nil_r.
  destruct (str_of_N n) as [|d t] eqn:E; [congruence|].
  rewrite <- E in *.
  assert (H1 : (MAX_DIGITS <? N.of_nat (length (skip_zeros (str_of_N n))))
               = false).
  { apply N.ltb_ge. pose proof (skip_zeros_length (str_of_N n)).
    unfold MAX_DIGITS. lia. }
  rewrite H1. cbn [length orb parse_exponent].
  change (MAX_DIGITS <? N.of_nat 0) with false. cbv iota.
  rewrite Hval. reflexivity.
Qed.

Lemma decimal_to_double_int (sign : bool) (p : positive) :
  (length (str_of_N (Npos p)) <= 400)%nat ->
  decimal_to_double sign (Npos p) 0
  = of_Z (if sign then Zneg p else Zpos p).
Proof.
  intros Hlen. unfold decimal_to_double, decimal_digits.
  replace (400 <? 0 + Z.of_nat (length (str_of_N (N.pos p))))%Z with false
    by (symmetry; apply Z.ltb_ge; lia).
  replace (0 + Z.of_nat (length (str_of_N (N.pos p))) <? -400)%Z with false
    by (symmetry; apply Z.ltb_ge; lia).
  cbn [Z.leb Z.compare]. change (10 ^ 0)%Z with 1%Z. rewrite Z.mul_1_r.
  now destruct sign.
Qed.

(** [float(str(z))] is [float(z)]. *)
Lemma float_of_str_of_Z (z : Z) :
  (Z.abs z < 2 ^ 63)%Z -> float_of_str (str_of_Z z) = Some (of_Z z).
Proof.
  intros Hz.
  set (sign := (z <? 0)%Z). set (n := Z.to_N (Z.abs z)).
  assert (Hstr : str_of_Z z = (if sign then [45] else []) ++ str_of_N n).
  { unfold sign, n. destruct z; reflexivity. }
  assert (Hlen : (length (str_of_N n) <= 400)%nat).
  { destruct (str_of_N_spec n) as (_ & _ & Hl & _).
    assert (N.log2 n < 63).
    { destruct n as [|p] eqn:En; [reflexivity|].
      apply N.log2_lt_pow2; [reflexivity|]. unfold n in En. lia. }
    lia. }
  assert (Hchars : forall c, In c (str_of_Z z) -> numeral_char c = true)
    by apply str_of_Z_numeral.
  unfold float_of_str, transform_decimal_and_space_to_ascii.
  replace (is_ascii (str_of_Z z)) with true.
  2:{ symmetry. apply forallb_forall. intros c Hc.
      now apply numeral_char_plain, Hchars. }
  rewrite (dropwhile_id is_space_ascii (str_of_Z z))
    by (intros c Hc; now apply numeral_char_plain, Hchars).
  assert (Hne : str_of_Z z <> []).
  { rewrite Hstr. intros E. apply app_eq_nil in E as [_ E].
    now destruct (str_of_N_spec n). }
  destruct (str_of_Z z) as [|c0 t0] eqn:E; [congruence|].
  rewrite <- E in *.
  rewrite (dropwhile_id is_space_ascii (rev (str_of_Z z)))
    by (intros c Hc; apply in_rev in Hc; now apply numeral_char_plain, Hchars).
  rewrite rev_involutive. unfold remove_underscores.
  replace (existsb (fun c => c =? 95) (str_of_Z z)) with false.
  2:{ symmetry. apply not_true_iff_false. intros H.
      apply existsb_exists in H as (c & Hc & H95).
      destruct (numeral_char_plain c (Hchars c Hc)) as (_ & _ & _ & H & _).
      congruence. }
  unfold float_from_string_inner, ascii_strtod.
  rewrite Hstr, (dg_strtod_numeral sign n Hlen).
  f_equal. unfold n, sign.
  destruct z as [|p|p]; [reflexivity| |].
  - change (Z.to_N (Z.abs (Z.pos p))) with (N.pos p).
    apply (decimal_to_double_int false). exact Hlen.
  - change (Z.to_N (Z.abs (Z.neg p))) with (N.pos p).
    apply (decimal_to_double_int true). exact Hlen.
Qed.

Section WithRepr.

Variable float_repr : float -> str.

(** X1: a comma anywhere in a cell is ignored. *)
Theorem clean_ignores_commas (a b : str) :
  clean_complex_string float_repr (Str (a ++ COMMA ++ b))
  = clean_complex_string float_repr (Str (a ++ b)).
Proof.
  rewrite !clean_complex_string_refines. do 3 f_equal.
  unfold cleaned. f_equal. unfold COMMA.
  rewrite !replace_delete_char, !filter_app. reflexivity.
Qed.

(** X2: an integer cell is cleaned to the float of the same value, a negative
    one too, although its minus sign sends it through the range block
    first. *)
Theorem clean_integer_cell (z : Z) :
  (Z.abs z < 2 ^ 63)%Z ->
  clean_complex_string float_repr (Num (Int z))
  = Returns (Some (Float (of_Z z))).
Proof.
  intros Hz. unfold clean_complex_string. cbn [pd_isna num_is_nan py_str].
  assert (Hchars : forall c, In c (str_of_Z z) -> numeral_char c = true)
    by apply str_of_Z_numeral.
  assert (Hclean : strip (replace (str_of_Z z) COMMA []) = str_of_Z z).
  { unfold COMMA. rewrite replace_delete_char.
    rewrite filter_id.
    - apply strip_id. intros c Hc. now apply numeral_char_plain, Hchars.
    - intros c Hc.
      destruct (numeral_char_plain c (Hchars c Hc)) as (_ & _ & _ & _ & H & _).
      now rewrite H. }
  rewrite Hclean, clean_body_refines. do 2 f_equal.
  assert (Hnot : forall c, (forall x, numeral_char x = true -> x <> c) ->
                           ~ In c (str_of_Z z)).
  { intros c Hc Hin. apply (Hc c); auto. }
  assert (Hfloat := float_of_str_of_Z z Hz).
  unfold clean_spec.
  assert (Hblank : is_blank (str_of_Z z) = false).
  { unfold is_blank.
    destruct (str_of_Z z) as [|c0 t0] eqn:E;
      [change (float_of_str []) with (@None float) in Hfloat; discriminate|].
    rewrite <- E in *. cbn [orb].
    apply not_true_iff_false. intros H. apply str_eqb_eq in H.
    assert (Hin : In 110 (lower (str_of_Z z))) by (rewrite H; now left).
    apply in_map_iff in Hin as (c & Hl & Hc).
    destruct (numeral_char_plain c (Hchars c Hc))
      as (_ & _ & _ & _ & _ & Hlow & Hn & _).
    congruence. }
  rewrite Hblank.
  assert (Hdur : parse_duration (str_of_Z z) = None).
  { unfold parse_duration.
    rewrite (contains_false HOURS (str_of_Z z) 3594); [|now left|].
    rewrite (contains_false MINUTES (str_of_Z z) 3609); [reflexivity|now left|].
    - apply Hnot. intros x Hx. now apply numeral_char_plain in Hx.
    - apply Hnot. intros x Hx. now apply numeral_char_plain in Hx. }
  assert (Hrange : parse_range (str_of_Z z) = None).
  { unfold parse_range.
    destruct (str_of_Z_cases z) as [(p & -> & E)|[_ E]]; rewrite E.
    - change (contains DASH (45 :: str_of_N (N.pos p))) with true.
      unfold split. unfold DASH.
      change (split_go [45] 0 [] (45 :: str_of_N (N.pos p)))
        with ([] :: split_go [45] 0 [] (str_of_N (N.pos p))).
      rewrite split_go_no_sep; [reflexivity|].
      intros Hin. apply str_of_N_digit in Hin. discriminate Hin.
    - rewrite (contains_false DASH _ 45); [reflexivity|now left|].
      intros Hin. apply str_of_N_digit in Hin. discriminate Hin. }
  rewrite Hrange, Hdur. unfold plain_float_or_zero. now rewrite Hfloat.
Qed.

(** X3: a cell of text - a code point that is not ASCII, not white space and
    not a digit, with no dash and no duration marker around - is cleaned
    to 0. *)
Theorem clean_text_is_zero (s : str) (c : char) :
  In c (cleaned s) -> unreadable c = true ->
  contains DASH (cleaned s) = false ->
  contains HOURS (cleaned s) = false ->
  contains MINUTES (cleaned s) = false ->
  clean_complex_string float_repr (Str s) = Returns (Some (Int 0)).
Proof.
  intros Hin Hc Hd Hh Hm. rewrite clean_complex_string_refines.
  do 2 f_equal. unfold clean_spec, parse_range, parse_duration,
    plain_float_or_zero.
  rewrite Hd, Hh, Hm, (float_of_str_unreadable _ _ Hin Hc).
  now destruct (is_blank (cleaned s)).
Qed.

End WithRepr.

Lemma clean_integer_cell_witness :
  (Z.abs (-1250) < 2 ^ 63)%Z
  /\ clean_complex_string repr_unused (Num (Int (-1250)))
     = Returns (Some (Float (of_Z (-1250)))).
Proof.
  split; [reflexivity|].
  apply (clean_integer_cell repr_unused (-1250)). reflexivity.
Defined.

Lemma clean_text_is_zero_witness :
  In 3594 (cleaned (u "เชียงใหม่"))
  /\ unreadable 3594 = true
  /\ clean_complex_string repr_unused (Str (u "เชียงใหม่"))
     = Returns (Some (Int 0)).
Proof.
  assert (Hin : In 3594 (cleaned (u "เชียงใหม่")))
    by (vm_compute; repeat (try (left; reflexivity); right)).
  split; [exact Hin|]. split; [reflexivity|].
  apply (clean_text_is_zero repr_unused (u "เชียงใหม่") 3594 Hin);
    reflexivity.
Defined.

End CleanerMore.

(* ================================================================== *)
(** * The formatters *)
(* ================================================================== *)

Module FormatFacts.

Import PyStrFacts NumeralFacts FactorFacts CleanerMore.
Local Open Scope N_scope.

(** Two strings that agree after a separator neither holds before it
    agree before and after it. *)
Lemma app_sep_inj (sep : char) (a b x y : str) :
  ~ In sep a -> ~ In sep b ->
  a ++ sep :: x = b ++ sep :: y -> a = b /\ x = y.
Proof.
  revert b; induction a as [|c a IH]; intros [|d b] Ha Hb E; simpl in E.
  - injection E as E. now split.
  - injection E as E _. exfalso. apply Hb. now left.
  - injection E as E _. exfalso. apply Ha. now left.
  - injection E as E1 E2. subst d.
    destruct (IH b) as [-> ->]; auto.
    + intros H. apply Ha. now right.
    + intros H. apply Hb. now right.
Qed.

Lemma month_table_distinct (full_month : bool) :
  NoDup (month_table full_month).
Proof. destruct full_month; apply nodupb_NoDup; vm_compute; reflexivity. Qed.

Lemma month_table_no_space (full_month : bool) (name : str) :
  In name (month_table full_month) -> ~ In 32 name.
Proof.
  intros Hin H32.
  assert (E : forallb (fun s => negb (existsb (N.eqb 32) s))
                      (month_table full_month) = true)
    by (destruct full_month; vm_compute; reflexivity).
  rewrite forallb_forall in E. specialize (E name Hin).
  apply negb_true_iff in E.
  assert (existsb (N.eqb 32) name = true)
    by (apply existsb_exists; exists 32; split; [exact H32|reflexivity]).
  congruence.
Qed.

(** The months 1 to 12 index the table in range. *)
Lemma month_index (full_month : bool) (m : Z) :
  (1 <= m <= 12)%Z ->
  py_index (month_table full_month) (m - 1)
  = nth_error (month_table full_month) (Z.to_nat (m - 1))
  /\ (Z.to_nat (m - 1) < length (month_table full_month))%nat.
Proof.
  intros Hm. unfold py_index.
  assert (Hlen : length (month_table full_month) = 12%nat)
    by (destruct full_month; reflexivity).
  rewrite Hlen.
  replace ((0 <=? m - 1)%Z && (m - 1 <? Z.of_nat 12)%Z) with true.
  - split; [reflexivity|lia].
  - symmetry. apply andb_true_intro. split.
    + apply Z.leb_le. lia.
    + apply Z.ltb_lt. lia.
Qed.

(** X7: the label of a date in the months 1 to 12: the formatter returns it,
    and two dates with the same label are the same month of the same
    year. *)
Theorem format_thai_date_injective (full_month : bool) (d1 d2 : timestamp) :
  (1 <= month d1 <= 12)%Z -> (1 <= month d2 <= 12)%Z ->
  (exists name,
     nth_error (month_table full_month) (Z.to_nat (month d1 - 1)) = Some name
     /\ format_thai_date (Some d1) full_month
        = Returns (name ++ SPACE ++ str_of_Z (year d1 + 543)))
  /\ (format_thai_date (Some d1) full_month
      = format_thai_date (Some d2) full_month ->
      d1 = d2).
Proof.
  intros H1 H2.
  destruct (month_index full_month _ H1) as [E1 L1].
  destruct (month_index full_month _ H2) as [E2 L2].
  unfold format_thai_date. fold (month_table full_month).
  rewrite E1, E2.
  destruct (nth_error (month_table full_month) (Z.to_nat (month d1 - 1)))
    as [n1|] eqn:N1; [|apply nth_error_None in N1; lia].
  destruct (nth_error (month_table full_month) (Z.to_nat (month d2 - 1)))
    as [n2|] eqn:N2; [|apply nth_error_None in N2; lia].
  cbn [or_raise and_then]. split; [eauto|].
  intros E. injection E as E. unfold SPACE in E. cbn [app] in E.
  apply app_sep_inj in E as [En Ey].
  - subst n2. apply str_of_Z_inj in Ey.
    assert (Hidx : Z.to_nat (month d1 - 1) = Z.to_nat (month d2 - 1)).
    { apply (proj1 (NoDup_nth_error (month_table full_month))
                   (month_table_distinct full_month)); [exact L1|].
      now rewrite N1, N2. }
    destruct d1 as [y1 m1], d2 as [y2 m2]. simpl in *.
    f_equal; lia.
  - apply (month_table_no_space full_month). eapply nth_error_In; eauto.
  - apply (month_table_no_space full_month). eapply nth_error_In; eauto.
Qed.

(** ** Thousands separators *)

Lemma group_thousands_delete (ds : str) :
  filter (fun x => negb (44 =? x)) (group_thousands ds)
  = filter (fun x => negb (44 =? x)) ds.
Proof.
  induction ds as [|d t IH]; [reflexivity|].
  cbn [group_thousands filter].
  destruct (negb (Nat.eqb (length t) 0) && Nat.eqb (length t mod 3) 0);
    cbn [filter]; change (44 =? 44) with true; cbn [negb];
    now rewrite IH.
Qed.

Lemma delete_commas_numeral (s : str) :
  (forall c, In c s -> numeral_char c = true) ->
  filter (fun x => negb (44 =? x)) s = s.
Proof.
  intros H. apply filter_id. intros c Hc.
  destruct (numeral_char_plain c (H c Hc)) as (_ & _ & _ & _ & E & _).
  now rewrite E.
Qed.

Lemma format_commas_delete (n : Z) :
  replace (format_commas n) COMMA [] = str_of_Z n.
Proof.
  unfold COMMA. rewrite replace_delete_char.
  pose proof (str_of_Z_numeral n) as Hn.
  unfold format_commas.
  destruct n as [|p|p].
  - reflexivity.
  - rewrite group_thousands_delete. now apply delete_commas_numeral.
  - cbn [filter]. change (44 =? 45) with false. cbn [negb].
    rewrite group_thousands_delete.
    change (str_of_Z (Z.neg p)) with (45 :: str_of_N (N.pos p)). f_equal.
    apply delete_commas_numeral. intros c Hc. apply Hn. now right.
Qed.

Ltac divmod_lia := zify; Z.to_euclidean_division_equations; lia.

Lemma group_thousands_length (ds : str) :
  length (group_thousands ds) = (length ds + (length ds - 1) / 3)%nat.
Proof.
  induction ds as [|d t IH]; [reflexivity|].
  cbn [group_thousands length].
  destruct (Nat.eqb_spec (length t) 0), (Nat.eqb_spec (length t mod 3) 0);
    cbn [negb andb length]; rewrite IH; divmod_lia.
Qed.

Lemma nth_snoc {A} (l : list A) (x d : A) (i : nat) :
  nth i (l ++ [x]) d
  = if (i <? length l)%nat then nth i l d
    else if (i =? length l)%nat then x else d.
Proof.
  destruct (Nat.ltb_spec i (length l)) as [H|H].
  - now apply app_nth1.
  - rewrite app_nth2 by exact H.
    destruct (Nat.eqb_spec i (length l)) as [->|Hne].
    + now rewrite Nat.sub_diag.
    + destruct (i - length l)%nat as [|[|k]] eqn:E; [lia| |]; reflexivity.
Qed.

(** The commas of the grouping stand between groups of three digits,
    counted from the right. *)
Lemma group_thousands_commas (ds : str) :
  (forall c, In c ds -> c <> 44) -> commas_every_three (group_thousands ds).
Proof.
  induction ds as [|d t IH]; intros Hd i Hi; [simpl in Hi; lia|].
  assert (Hdt : d <> 44) by (apply Hd; now left).
  assert (IHt : commas_every_three (group_thousands t))
    by (apply IH; intros c Hc; apply Hd; now right).
  pose proof (group_thousands_length t) as HL.
  specialize (IHt i). rewrite <- length_rev in HL.
  cbn [group_thousands] in Hi |- *.
  destruct (Nat.eqb_spec (length t) 0) as [E0|E0],
           (Nat.eqb_spec (length t mod 3) 0) as [E3|E3];
    cbn [negb andb] in Hi |- *; cbn [rev length] in Hi |- *;
    rewrite !nth_snoc, ?length_app; cbn [length];
    rewrite <- (length_rev (group_thousands t)) in IHt, Hi;
    destruct (Nat.ltb_spec i (length (rev (group_thousands t))));
    try (apply IHt; assumption);
    repeat match goal with
           | |- context [Nat.ltb ?a ?b] => destruct (Nat.ltb_spec a b)
           | |- context [Nat.eqb ?a ?b] => destruct (Nat.eqb_spec a b)
           end;
    try lia;
    (split; [intros E; try congruence; try (exfalso; divmod_lia)
            |intros E; try reflexivity; exfalso; divmod_lia]);
    divmod_lia.
Qed.

Lemma format_commas_sign (n : Z) :
  format_commas n
  = (if (n <? 0)%Z then [45] else []) ++ group_thousands (str_of_N (Z.abs_N n)).
Proof. destruct n; reflexivity. Qed.

(** X8: the formatter writes the integer part of its argument, towards
    zero: a minus sign when it is negative, its decimal digits with commas
    between the groups of three digits counted from the right, and the
    unit.  On NaN and on the infinities [int] raises and nothing is
    formatted.  An integer argument is within the limit of [format] on the
    digits of an integer. *)
Theorem format_number_with_unit_spec (val : number) :
  str_returns (Num val) = true ->
  match val with
  | Float S754_nan => format_number_with_unit val = inl IntValueError
  | Float (S754_infinity _) => format_number_with_unit val = inl IntOverflowError
  | _ =>
      exists n g,
        truncates val n
        /\ format_number_with_unit val
           = inr ((if (n <? 0)%Z then [45] else []) ++ g ++ UNIT)
        /\ replace g COMMA [] = str_of_N (Z.abs_N n)
        /\ commas_every_three g
  end.
Proof.
  intros _.
  assert (Hfmt : forall n,
             format_commas n ++ UNIT
             = (if (n <? 0)%Z then [45] else [])
               ++ group_thousands (str_of_N (Z.abs_N n)) ++ UNIT)
    by (intros n; now rewrite format_commas_sign, <- app_assoc).
  assert (Hdel : forall n,
             replace (group_thousands (str_of_N (Z.abs_N n))) COMMA []
             = str_of_N (Z.abs_N n)).
  { intros n. unfold COMMA. rewrite replace_delete_char.
    rewrite group_thousands_delete. apply delete_commas_numeral.
    intros c Hc. unfold numeral_char. now rewrite (str_of_N_digit _ _ Hc). }
  assert (Hcom : forall n,
             commas_every_three (group_thousands (str_of_N (Z.abs_N n)))).
  { intros n. apply group_thousands_commas. intros c Hc ->.
    apply str_of_N_digit in Hc. discriminate Hc. }
  assert (Hall : forall n,
             py_int val = IntOf n -> truncates val n ->
             exists n' g,
               truncates val n'
               /\ format_number_with_unit val
                  = inr ((if (n' <? 0)%Z then [45] else []) ++ g ++ UNIT)
               /\ replace g COMMA [] = str_of_N (Z.abs_N n')
               /\ commas_every_three g).
  { intros n Hn Ht. exists n, (group_thousands (str_of_N (Z.abs_N n))).
    split; [exact Ht|]. split; [|split; [apply Hdel|apply Hcom]].
    unfold format_number_with_unit. rewrite Hn. now rewrite Hfmt. }
  destruct val as [z|[s|s| |s m e]]; try reflexivity.
  - apply (Hall z); reflexivity.
  - apply (Hall 0%Z); reflexivity.
  - eapply Hall; [reflexivity|].
    cbn [truncates].
    exists (if (0 <=? e)%Z then (Z.pos m * 2 ^ e)%Z
            else (Z.pos m / 2 ^ (- e))%Z).
    destruct (Z.leb_spec 0 e) as [He|He].
    + split; [apply Z.mul_nonneg_nonneg; [lia|now apply Z.pow_nonneg]|].
      split; [reflexivity|]. split; [reflexivity|lia].
    + assert (Hp : (0 < 2 ^ (- e))%Z) by (apply Z.pow_pos_nonneg; lia).
      split; [apply Z.div_pos; lia|].
      split; [reflexivity|]. split; [lia|]. intros _.
      split.
      * rewrite Z.mul_comm. apply Z.mul_div_le. exact Hp.
      * rewrite Z.mul_comm. apply Z.mul_succ_div_gt. exact Hp.
Qed.

Lemma format_thai_date_injective_witness :
  format_thai_date (Some {| year := 2015; month := 1 |}) true
  = Returns (u "มกราคม 2558")
  /\ (format_thai_date (Some {| year := 2015; month := 1 |}) true
      = format_thai_date (Some {| year := 2015; month := 2 |}) true ->
      {| year := 2015; month := 1 |} = {| year := 2015; month := 2 |}).
Proof.
  destruct (format_thai_date_injective true
              {| year := 2015; month := 1 |} {| year := 2015; month := 2 |})
    as [_ Hinj]; [simpl; lia|simpl; lia|].
  split; [reflexivity|exact Hinj].
Defined.

Lemma format_number_with_unit_spec_witness :
  str_returns (Num (Int (-1234567))) = true
  /\ format_number_with_unit (Int (-1234567)) = inr (u "-1,234,567 คน")
  /\ exists n g,
       truncates (Int (-1234567)) n
       /\ format_number_with_unit (Int (-1234567))
          = inr ((if (n <? 0)%Z then [45] else []) ++ g ++ UNIT)
       /\ replace g COMMA [] = str_of_N (Z.abs_N n)
       /\ commas_every_three g.
Proof.
  split; [reflexivity|]. split; [reflexivity|].
  exact (format_number_with_unit_spec (Int (-1234567)) eq_refl).
Defined.

End FormatFacts.

(* ================================================================== *)
(** * More on the factor table *)
(* ================================================================== *)

Module FactorMore.

Import PyStrFacts FrameFacts CleanerFacts FactorFacts.
Local Open Scope N_scope.

(** ** The order of the group keys on names *)

Lemma str_ltb_irrefl (a : str) : str_ltb a a = false.
Proof.
  induction a as [|x a IH]; [reflexivity|].
  simpl. rewrite N.ltb_irrefl, N.eqb_refl. exact IH.
Qed.

Lemma str_ltb_trans (a b c : str) :
  str_ltb a b = true -> str_ltb b c = true -> str_ltb a c = true.
Proof.
  revert b c; induction a as [|x a IH]; intros [|y b] [|z c] H1 H2;
    try discriminate; try reflexivity.
  simpl in *.
  apply orb_prop in H1 as [H1|H1]; apply orb_prop in H2 as [H2|H2].
  - apply N.ltb_lt in H1, H2.
    replace (x <? z) with true by (symmetry; apply N.ltb_lt; lia). reflexivity.
  - apply andb_prop in H2 as [E2 H2]. apply N.eqb_eq in E2. subst.
    now rewrite H1.
  - apply andb_prop in H1 as [E1 H1]. apply N.eqb_eq in E1. subst.
    now rewrite H2.
  - apply andb_prop in H1 as [E1 H1]. apply andb_prop in H2 as [E2 H2].
    apply N.eqb_eq in E1, E2. subst. rewrite N.eqb_refl, (IH b c H1 H2).
    apply orb_true_r.
Qed.

Lemma str_ltb_total (a b : str) :
  str_eqb a b = false -> str_ltb a b = false -> str_ltb b a = true.
Proof.
  revert b; induction a as [|x a IH]; intros [|y b] He Hl;
    try discriminate; try reflexivity.
  simpl in *. unfold char_eqb in He.
  apply orb_false_iff in Hl as [Hxy Hl].
  apply N.ltb_ge in Hxy.
  destruct (x =? y) eqn:E.
  - apply N.eqb_eq in E. subst. rewrite N.eqb_refl.
    simpl in He, Hl. rewrite (IH b He Hl). apply orb_true_r.
  - apply N.eqb_neq in E.
    replace (y <? x) with true by (symmetry; apply N.ltb_lt; lia). reflexivity.
Qed.

Lemma insert_key_text (k : pyval) (keys : list pyval) (x : pyval) :
  In x (insert_key k keys) -> is_text k = true ->
  (forall h, In h keys -> is_text h = true) -> is_text x = true.
Proof.
  intros Hin Hk Hkeys. apply insert_key_In in Hin as [->|Hin]; auto.
Qed.

Lemma insert_key_increasing (k : pyval) (keys : list pyval) :
  is_text k = true -> (forall h, In h keys -> is_text h = true) ->
  increasing keys -> increasing (insert_key k keys).
Proof.
  intros Hk Htext Hinc. induction Hinc as [|h t Hlt Hinc IH].
  - simpl. constructor; [intros h []|constructor].
  - cbn [insert_key].
    assert (Hh : is_text h = true) by (apply Htext; now left).
    destruct k as [ks|]; [|discriminate]. destruct h as [hs|]; [|discriminate].
    cbn [pyval_eqb pyval_ltb].
    destruct (str_eqb ks hs) eqn:He; [now constructor|].
    destruct (str_ltb ks hs) eqn:Hl.
    + constructor; [|now constructor].
      intros x [<-|Hx]; [exact Hl|].
      specialize (Hlt x Hx).
      assert (is_text x = true) by (apply Htext; now right).
      destruct x as [xs|]; [|discriminate]. simpl in *.
      eapply str_ltb_trans; eauto.
    + constructor.
      * intros x Hx. apply insert_key_In in Hx as [->|Hx]; [|auto].
        simpl. now apply str_ltb_total.
      * apply IH. intros x Hx. apply Htext. now right.
Qed.

Lemma increasing_NoDup (l : list pyval) :
  (forall h, In h l -> is_text h = true) -> increasing l -> NoDup l.
Proof.
  intros Htext Hinc. induction Hinc as [|k l Hlt Hinc IH]; constructor.
  - intros Hin. specialize (Hlt k Hin).
    assert (is_text k = true) by (apply Htext; now left).
    destruct k as [ks|]; [|discriminate]. simpl in Hlt.
    now rewrite str_ltb_irrefl in Hlt.
  - apply IH. intros h Hh. apply Htext. now right.
Qed.

Lemma insert_key_keeps (k x : pyval) (keys : list pyval) :
  In x keys -> In x (insert_key k keys).
Proof.
  induction keys as [|h t IH]; [intros []|].
  intros Hin. cbn [insert_key].
  destruct (pyval_eqb k h); [exact Hin|].
  destruct (pyval_ltb k h); [now right|].
  destruct Hin as [->|Hin]; [now left|right; auto].
Qed.

Lemma insert_key_adds (k : pyval) (keys : list pyval) :
  is_text k = true -> In k (insert_key k keys).
Proof.
  intros Hk. induction keys as [|h t IH]; [now left|].
  cbn [insert_key]. destruct (pyval_eqb k h) eqn:He.
  - destruct k as [ks|]; [|discriminate].
    destruct h as [hs|]; [|discriminate He].
    simpl in He. apply str_eqb_eq in He. subst. now left.
  - destruct (pyval_ltb k h); [now left|now right].
Qed.

(** The groups of a column of names: every name once. *)
Lemma group_keys_text (prov : list pyval) :
  (forall x, In x prov -> is_text x = true) ->
  NoDup (group_keys prov)
  /\ forall x, In x (group_keys prov) <-> In x prov.
Proof.
  intros Htext.
  assert (Hkeys : forall x, In x (group_keys prov) -> is_text x = true)
    by (intros x Hx; apply Htext; now apply group_keys_In).
  split.
  - apply increasing_NoDup; [exact Hkeys|].
    clear Hkeys. induction prov as [|k prov IH]; [constructor|].
    unfold group_keys. cbn [fold_right]. apply insert_key_increasing.
    + apply Htext. now left.
    + intros h Hh. apply Htext. right. now apply group_keys_In.
    + apply IH. intros x Hx. apply Htext. now right.
  - intros x. split; [apply group_keys_In|].
    clear Hkeys. induction prov as [|k prov IH]; [intros []|].
    intros [->|Hin]; unfold group_keys; cbn [fold_right].
    + apply insert_key_adds. apply Htext. now left.
    + apply insert_key_keeps. apply IH; [|exact Hin].
      intros y Hy. apply Htext. now right.
Qed.


Lemma select_self {A} (p : A -> bool) (l : list A) :
  select (map p l) l = filter p l.
Proof.
  induction l as [|x l IH]; [reflexivity|].
  simpl map. rewrite select_cons. simpl. destruct (p x); now rewrite IH.
Qed.

Lemma map2_repeat {A B C} (f : A -> B -> C) (a : A) (b : B) (n : nat) :
  map2 f (repeat a n) (repeat b n) = repeat (f a b) n.
Proof. induction n as [|n IH]; [reflexivity|]. simpl. now rewrite IH. Qed.

Lemma search_header_In (k t : str) :
  In (k, t) column_mapping -> In t [FACEBOOK; TIKTOK; INSTAGRAM] ->
  In k search_headers.
Proof.
  intros Hk Ht. unfold search_headers. apply in_map_iff.
  exists (k, t). split; [reflexivity|].
  apply filter_In. split; [exact Hk|].
  apply existsb_exists. exists t. split; [exact Ht|apply str_eqb_refl].
Qed.

Local Close Scope N_scope.

Section WithRepr.

Variable float_repr : float -> str.

(** The steps of the ingestion on a CSV with one province column: the
    rows kept, the columns built and the table grouped. *)
Lemma load_factor_run (csv : DataFrame str) :
  count_label PROVINCE (with_province_column csv) = 1 ->
  exists prov0 new_df fb tk ig cols,
    get_col str_eqb PROVINCE (with_province_column csv) = Some prov0
    /\ province new_df = filter (valid_province float_repr) prov0
    /\ (forall k t, In (k, t) column_mapping ->
          has_column str_eqb k csv = false ->
          lookup t (numeric new_df)
          = Some (repeat (Int 0) (length (province new_df))))
    /\ lookup FACEBOOK (numeric new_df) = Some fb
    /\ lookup TIKTOK (numeric new_df) = Some tk
    /\ lookup INSTAGRAM (numeric new_df) = Some ig
    /\ lookup INTEREST cols = Some (map2 np_add (map2 np_add fb tk) ig)
    /\ load_factor_and_target_data float_repr csv
       = Returns (groupby_last {| province := province new_df;
                                  numeric := cols |},
                  required_features).
Proof.
  intros Hcount. unfold load_factor_and_target_data.
  unfold with_province_column in *.
  set (df0 := if has_column str_eqb PROVINCE_TH csv
              then rename str_eqb PROVINCE_TH PROVINCE csv else csv) in *.
  destruct (count_label_get_col _ _ Hcount) as [prov0 Hp0].
  rewrite Hp0, Hcount. cbn [or_raise and_then Nat.ltb Nat.leb].
  rewrite !get_col_filter_rows, Hp0. cbn [option_map or_raise and_then].
  rewrite !get_col_filter_rows, Hp0. cbn [option_map or_raise and_then].
  rewrite !get_col_filter_rows, Hp0. cbn [option_map or_raise and_then].
  set (m1 := map not_na prov0).
  set (m2 := map (not_nan_text float_repr) (select m1 prov0)).
  set (m3 := map (not_reference float_repr) (select m2 (select m1 prov0))).
  set (prov := select m3 (select m2 (select m1 prov0))).
  set (df := filter_rows m3 (filter_rows m2 (filter_rows m1 df0))).
  assert (Hvalid : prov = filter (valid_province float_repr) prov0).
  { unfold prov, m3, m2, m1. rewrite (select_select not_na).
    rewrite (select_select (fun k => not_na k && not_nan_text float_repr k)).
    apply select_self. }
  destruct (map_columns_spec float_repr df column_mapping
              mapping_targets_distinct {| province := prov; numeric := [] |})
    as (new_df & Hloop & Hnp & Htargets & _).
  rewrite Hloop. cbn [and_then]. simpl province in Hnp, Htargets.
  assert (Htarget : forall t,
             existsb (str_eqb t) (map snd column_mapping) = true ->
             exists col, lookup t (numeric new_df) = Some col).
  { intros t Ht. destruct (target_in_mapping _ Ht) as [k Hk].
    destruct (Htargets k t Hk) as (col & Hcol & _). eauto. }
  destruct (Htarget FACEBOOK eq_refl) as [fb Hfb].
  destruct (Htarget TIKTOK eq_refl) as [tk Htk].
  destruct (Htarget INSTAGRAM eq_refl) as [ig Hig].
  rewrite Hfb, Htk, Hig. cbn [or_raise and_then].
  set (interest := map2 np_add (map2 np_add fb tk) ig).
  set (new_df' := set_numeric INTEREST interest new_df).
  assert (Hreq : forall f, In f required_features ->
                           exists col, lookup f (numeric new_df') = Some col).
  { intros f Hf. destruct (required_feature_source f Hf) as [->|[k Hk]].
    - exists interest. apply lookup_assign_same.
    - destruct (Htargets k f Hk) as (col & Hcol & _). exists col.
      unfold new_df', set_numeric. cbn [numeric].
      rewrite lookup_assign_other; [exact Hcol|].
      intros E. apply interest_is_no_target. rewrite E.
      apply in_map_iff. exists (k, f). split; [reflexivity|exact Hk]. }
  rewrite (filter_all (fun c => has_numeric c new_df') required_features)
    by (intros f Hf; apply has_numeric_lookup; auto).
  destruct (select_columns_spec (TOTAL_TOURISTS :: required_features)
              (numeric new_df')) as (cols & Hcols & Hlook).
  { intros c [<-|Hc]; [|auto].
    destruct (Htarget TOTAL_TOURISTS eq_refl) as [col Hcol]. exists col.
    unfold new_df', set_numeric. cbn [numeric].
    rewrite lookup_assign_other; [exact Hcol|]. intros E. discriminate E. }
  rewrite Hcols. cbn [or_raise and_then].
  exists prov0, new_df, fb, tk, ig, cols.
  split; [reflexivity|]. split; [now rewrite Hnp|].
  split.
  { intros k t Hk Habsent.
    destruct (Htargets k t Hk) as (col & Hcol & Hzero).
    rewrite Hcol, Hnp. f_equal. apply Hzero.
    unfold df. rewrite !get_col_filter_rows.
    assert (E : get_col str_eqb k df0 = None); [|now rewrite E].
    apply get_col_has_column. unfold df0.
    destruct (has_column str_eqb PROVINCE_TH csv); [|exact Habsent].
    destruct (mapping_key_plain _ _ Hk) as [H1 H2].
    now rewrite has_column_rename. }
  do 3 (split; [assumption|]).
  split; [|reflexivity].
  rewrite (Hlook INTEREST).
  - apply lookup_assign_same.
  - right. unfold required_features. 
    apply existsb_str_eqb_In. reflexivity.
Qed.

Lemma lookup_In (c : str) (col : list number)
    (df : list (str * list number)) :
  lookup c df = Some col -> In (c, col) df.
Proof.
  induction df as [|[l x] df IH]; [discriminate|].
  simpl. destruct (str_eqb c l) eqn:E.
  - intros H. injection H as ->. apply str_eqb_eq in E. subst. now left.
  - right. auto.
Qed.

(** A name of the province column is a group key. *)
Lemma group_keys_name (prov : list pyval) (s : str) :
  In (Str s) prov -> In (Str s) (group_keys prov).
Proof.
  induction prov as [|k prov IH]; [intros []|].
  intros [->|Hin]; unfold group_keys; cbn [fold_right].
  - now apply insert_key_adds.
  - apply insert_key_keeps. now apply IH.
Qed.

(** C4.  A CSV with one province column ('Province' or 'จังหวัด') is
    ingested, and the factor table returned has a column for every name of
    the required feature list, with one entry for each province of the
    table; the column of a feature whose CSV header is absent is the
    integer 0 in every one of these rows; and every name of the province
    column that the three filters keep has a row in the table. *)
Theorem factor_table_has_every_feature (csv : DataFrame str) :
  count_label PROVINCE
    (if has_column str_eqb PROVINCE_TH csv
     then rename str_eqb PROVINCE_TH PROVINCE csv else csv) = 1 ->
  exists df_final,
    load_factor_and_target_data float_repr csv
    = Returns (df_final, required_features)
    /\ (forall f, In f required_features ->
          has_numeric f df_final = true
          /\ exists col,
               lookup f (numeric df_final) = Some col
               /\ length col = length (province df_final))
    /\ (forall csv_col f,
          In (csv_col, f) column_mapping ->
          In f required_features ->
          has_column str_eqb csv_col csv = false ->
          lookup f (numeric df_final)
          = Some (repeat (Int 0) (length (province df_final))))
    /\ (forall prov0 s,
          get_col str_eqb PROVINCE (with_province_column csv) = Some prov0 ->
          In (Str s) prov0 ->
          valid_province float_repr (Str s) = true ->
          In (Str s) (province df_final)).
Proof.
  intros Hcount.
  destruct (load_factor_spec float_repr csv Hcount)
    as (df & Hload & Hhas & Hzero & Hcols & Hlens & _).
  destruct (load_factor_run csv Hcount)
    as (prov0 & new_df & fb & tk & ig & cols & Hp0 & Hprov & _ & _ & _ & _
        & _ & Hrun).
  exists df. split; [exact Hload|].
  assert (Hlen : forall f col, lookup f (numeric df) = Some col ->
                               length col = length (province df))
    by (intros f col H; apply (Hlens f), lookup_In, H).
  split; [|split].
  - intros f Hf. split; [now apply Hhas|].
    destruct (Hcols f (or_intror Hf)) as [col Hcol].
    exists col. split; [exact Hcol|]. now apply (Hlen f).
  - intros k f Hk Hf Habsent.
    destruct (Hzero k f Hk Hf Habsent) as (col & Hcol & Hall).
    rewrite Hcol. f_equal.
    rewrite <- (Hlen f col Hcol). now apply Forall_eq_repeat.
  - intros prov0' s Hget Hin Hvalid.
    rewrite Hp0 in Hget. injection Hget as <-.
    rewrite Hload in Hrun. injection Hrun as ->.
    unfold groupby_last. cbn [province]. rewrite Hprov.
    apply group_keys_name. apply filter_In. now split.
Qed.

(** X12: the factor table has one row for each province name the CSV
    lists: when every cell of the province column is a name or is empty,
    the provinces of the table are pairwise different, and they are the
    names of the column that are not missing, are not the text of a
    missing value and are not a reference line. *)
Theorem factor_table_one_row_per_province (csv : DataFrame str)
    (prov0 : Series) :
  count_label PROVINCE (with_province_column csv) = 1 ->
  get_col str_eqb PROVINCE (with_province_column csv) = Some prov0 ->
  forallb text_or_missing prov0 = true ->
  exists df_final,
    load_factor_and_target_data float_repr csv
    = Returns (df_final, required_features)
    /\ NoDup (province df_final)
    /\ forall x, In x (province df_final)
                 <-> In x prov0 /\ valid_province float_repr x = true.
Proof.
  intros Hcount Hcol Htext.
  destruct (load_factor_run csv Hcount)
    as (prov0' & new_df & fb & tk & ig & cols & Hp0 & Hprov & _ & _ & _ & _
        & _ & Hload).
  rewrite Hcol in Hp0. injection Hp0 as <-.
  eexists. split; [exact Hload|].
  unfold groupby_last. cbn [province]. rewrite Hprov.
  assert (Hnames : forall x, In x (filter (valid_province float_repr) prov0) ->
                             is_text x = true).
  { intros x Hx. apply filter_In in Hx as [Hin Hv].
    rewrite forallb_forall in Htext. specialize (Htext x Hin).
    destruct x as [s|n]; [reflexivity|].
    unfold valid_province, not_na, pd_isna in Hv. simpl in Htext.
    rewrite Htext in Hv. discriminate Hv. }
  destruct (group_keys_text _ Hnames) as [Hnd Hin].
  split; [exact Hnd|].
  intros x. rewrite Hin. apply filter_In.
Qed.

(** X13: without the three search-count columns in the CSV, the combined
    search interest of every province in the factor table is 0. *)
Theorem interest_defaults_to_zero (csv : DataFrame str) :
  count_label PROVINCE (with_province_column csv) = 1 ->
  forallb (fun k => negb (has_column str_eqb k csv)) search_headers = true ->
  exists df_final col,
    load_factor_and_target_data float_repr csv
    = Returns (df_final, required_features)
    /\ lookup INTEREST (numeric df_final) = Some col
    /\ length col = length (province df_final)
    /\ Forall (eq (Int 0)) col.
Proof.
  intros Hcount Habsent.
  destruct (load_factor_run csv Hcount)
    as (prov0 & new_df & fb & tk & ig & cols & _ & Hprov & Hzero & Hfb & Htk
        & Hig & Hint & Hload).
  assert (Hz : forall t, In t [FACEBOOK; TIKTOK; INSTAGRAM] ->
               lookup t (numeric new_df)
               = Some (repeat (Int 0) (length (province new_df)))).
  { intros t Ht.
    assert (Hm : existsb (str_eqb t) (map snd column_mapping) = true).
    { destruct Ht as [<-|[<-|[<-|[]]]]; reflexivity. }
    destruct (target_in_mapping _ Hm) as [k Hk].
    apply (Hzero k t Hk).
    rewrite forallb_forall in Habsent.
    apply negb_true_iff, Habsent. now apply (search_header_In k t). }
  rewrite (Hz FACEBOOK) in Hfb by (now left). injection Hfb as <-.
  rewrite (Hz TIKTOK) in Htk by (right; now left). injection Htk as <-.
  rewrite (Hz INSTAGRAM) in Hig by (do 2 right; now left). injection Hig as <-.
  rewrite !map2_repeat in Hint.
  change (np_add (np_add (Int 0) (Int 0)) (Int 0)) with (Int 0) in Hint.
  eexists. eexists. split; [exact Hload|].
  unfold groupby_last. cbn [numeric province].
  rewrite (lookup_map_columns
             (fun col => map (group_last (province new_df) col)
                             (group_keys (province new_df)))).
  rewrite Hint. cbn [option_map]. split; [reflexivity|].
  split; [apply length_map|].
  apply Forall_forall. intros x Hx.
  apply in_map_iff in Hx as (key & <- & Hkey).
  apply group_keys_In in Hkey. symmetry. apply group_last_zeros; [exact Hkey|].
  rewrite Hprov in Hkey. apply filter_In in Hkey as [_ Hv].
  unfold valid_province in Hv.
  apply andb_prop in Hv as [Hv _]. now apply andb_prop in Hv as [Hv _].
Qed.

End WithRepr.

Lemma factor_table_has_every_feature_witness :
  count_label PROVINCE
    (if has_column str_eqb PROVINCE_TH sample_csv
     then rename str_eqb PROVINCE_TH PROVINCE sample_csv else sample_csv) = 1
  /\ exists df_final,
       load_factor_and_target_data repr_unused sample_csv
       = Returns (df_final, required_features)
       /\ has_numeric (u "สนามบิน") df_final = true
       /\ lookup (u "สนามบิน") (numeric df_final)
          = Some (repeat (Int 0) (length (province df_final)))
       /\ In (Str CHIANG_MAI) (province df_final).
Proof.
  split; [reflexivity|].
  destruct (factor_table_has_every_feature repr_unused sample_csv eq_refl)
    as (df_final & Hload & Hhas & Hzero & Hrows).
  exists df_final. split; [exact Hload|].
  assert (Hin : In (u "สนามบิน") required_features) by (now left).
  split; [exact (proj1 (Hhas _ Hin))|]. split.
  - apply (Hzero (u "สนามบิน
 (มี=1, ไม่มี=0)") (u "สนามบิน")); [now left|exact Hin|reflexivity].
  - apply (Hrows [Str CHIANG_MAI; Str BANGKOK; Str (u "ภูเก็ต"); Str (u "ตาก")]
             CHIANG_MAI); [reflexivity|now left|reflexivity].
Defined.

Lemma factor_table_one_row_per_province_witness :
  exists df_final,
    load_factor_and_target_data repr_unused repeated_csv
    = Returns (df_final, required_features)
    /\ NoDup (province df_final)
    /\ In (Str CHIANG_MAI) (province df_final)
    /\ ~ In NaN (province df_final).
Proof.
  destruct (factor_table_one_row_per_province repr_unused repeated_csv _
              eq_refl eq_refl eq_refl) as (df_final & Hload & Hnd & Hin).
  exists df_final. split; [exact Hload|]. split; [exact Hnd|]. split.
  - apply Hin. split; [now left|reflexivity].
  - intros H. apply Hin in H as [_ H]. discriminate H.
Defined.

Lemma interest_defaults_to_zero_witness :
  exists df_final col,
    load_factor_and_target_data repr_unused sample_csv
    = Returns (df_final, required_features)
    /\ lookup INTEREST (numeric df_final) = Some col
    /\ length col = length (province df_final)
    /\ Forall (eq (Int 0)) col.
Proof.
  exact (interest_defaults_to_zero repr_unused sample_csv eq_refl eq_refl).
Defined.

End FactorMore.

(* ================================================================== *)
(** * Ranges and durations of whole numbers *)
(* ================================================================== *)

Module CleanerRanges.

Import PyStrFacts PyFloatFacts CleanerFacts NumeralFacts CleanerMore.
Local Open Scope N_scope.

(** ** Patterns at a known place *)

Lemma startswith_app (p b : str) : startswith p (p ++ b) = true.
Proof.
  induction p as [|c p IH]; [now destruct b|].
  simpl. unfold char_eqb. now rewrite N.eqb_refl.
Qed.

Lemma contains_startswith (p s : str) :
  startswith p s = true -> contains p s = true.
Proof. intros H. destruct s; simpl; now rewrite H. Qed.

Lemma contains_app (a p b : str) : contains p (a ++ p ++ b) = true.
Proof.
  induction a as [|x a IH].
  - cbn [app]. apply contains_startswith. apply startswith_app.
  - simpl. rewrite IH. apply orb_true_r.
Qed.

Lemma startswith_head (c x : char) (p s : str) :
  x <> c -> startswith (c :: p) (x :: s) = false.
Proof.
  intros H. simpl. unfold char_eqb.
  replace (c =? x) with false; [reflexivity|].
  symmetry. apply N.eqb_neq. congruence.
Qed.

(** The characters of a separator just matched are passed over. *)
Lemma split_go_skip (sep p y cur : str) :
  split_go sep (length p) cur (p ++ y) = split_go sep 0 cur y.
Proof.
  induction p as [|c p IH]; [reflexivity|]. exact IH.
Qed.

(** The first piece ends at the first separator. *)
Lemma split_go_piece (c : char) (p x y cur : str) :
  ~ In c x ->
  split_go (c :: p) 0 cur (x ++ (c :: p) ++ y)
  = (rev cur ++ x) :: split_go (c :: p) 0 [] y.
Proof.
  revert cur; induction x as [|h x IH]; intros cur H.
  - cbn [app]. cbn [split_go].
    change (startswith (c :: p) (c :: p ++ y))
      with (startswith (c :: p) ((c :: p) ++ y)).
    rewrite startswith_app. rewrite app_nil_r.
    cbn [length Nat.sub]. rewrite Nat.sub_0_r.
    now rewrite split_go_skip.
  - cbn [app split_go].
    rewrite startswith_head by (intros E; apply H; now left).
    rewrite IH by (intros Hin; apply H; now right).
    simpl. now rewrite <- app_assoc.
Qed.

(** A string without the first character of the separator is one piece. *)
Lemma split_go_none (c : char) (p s cur : str) :
  ~ In c s -> split_go (c :: p) 0 cur s = [rev cur ++ s].
Proof.
  revert cur; induction s as [|h s IH]; intros cur H.
  - simpl. now rewrite app_nil_r.
  - cbn [split_go].
    rewrite startswith_head by (intros E; apply H; now left).
    rewrite IH by (intros Hin; apply H; now right).
    simpl. now rewrite <- app_assoc.
Qed.

Lemma split_two (c : char) (p x y : str) :
  ~ In c x -> ~ In c y -> split (x ++ (c :: p) ++ y) (c :: p) = [x; y].
Proof.
  intros Hx Hy. unfold split.
  rewrite split_go_piece by exact Hx.
  now rewrite split_go_none by exact Hy.
Qed.

Lemma replace_go_skip (old new p y : str) :
  replace_go old new (length p) (p ++ y) = replace_go old new 0 y.
Proof.
  induction p as [|c p IH]; [reflexivity|]. exact IH.
Qed.

(** Deleting a pattern that ends the string. *)
Lemma replace_suffix (c : char) (p x : str) :
  ~ In c x -> replace (x ++ c :: p) (c :: p) [] = x.
Proof.
  unfold replace. induction x as [|h x IH]; intros H.
  - cbn [app replace_go].
    rewrite <- (app_nil_r (c :: p)) at 2. rewrite startswith_app.
    cbn [length Nat.sub app]. rewrite Nat.sub_0_r.
    pose proof (replace_go_skip (c :: p) [] p []) as E.
    rewrite app_nil_r in E. exact E.
  - cbn [app replace_go].
    rewrite startswith_head by (intros E; apply H; now left).
    f_equal. apply IH. intros Hin. apply H. now right.
Qed.

(** ** Strings the first line of the cleaner leaves as they are *)

Lemma cleaned_plain (s : str) :
  (forall c, In c s -> isspace c = false /\ (44 =? c) = false) ->
  cleaned s = s.
Proof.
  intros H. unfold cleaned, COMMA. rewrite replace_delete_char.
  rewrite filter_id.
  - apply strip_id. intros c Hc. now apply H.
  - intros c Hc. destruct (H c Hc) as [_ E]. now rewrite E.
Qed.

Lemma digit_first_not_blank (c : char) (t : str) :
  is_digit c = true -> is_blank (c :: t) = false.
Proof.
  intros H. unfold is_blank. cbn [orb lower map].
  assert (Hn : numeral_char c = true) by (unfold numeral_char; now rewrite H).
  destruct (numeral_char_plain c Hn) as (_ & _ & _ & _ & _ & -> & Hne & _).
  unfold NAN. cbn [str_eqb]. unfold char_eqb.
  replace (c =? 110) with false; [reflexivity|].
  symmetry. now apply N.eqb_neq.
Qed.

Lemma str_of_N_first (n : N) :
  exists c t, str_of_N n = c :: t /\ is_digit c = true.
Proof.
  destruct (str_of_N_spec n) as (Hne & Hd & _).
  destruct (str_of_N n) as [|c t]; [congruence|].
  exists c, t. split; [reflexivity|]. now inversion Hd.
Qed.

Lemma digit_is_not (n : N) (c : char) :
  is_digit c = false -> ~ In c (str_of_N n).
Proof. intros H Hin. apply str_of_N_digit in Hin. congruence. Qed.

Lemma float_of_str_of_N (n : N) :
  n < 2 ^ 63 -> float_of_str (str_of_N n) = Some (of_Z (Z.of_N n)).
Proof.
  intros H.
  assert (Hz : (Z.abs (Z.of_N n) < 2 ^ 63)%Z) by lia.
  pose proof (float_of_str_of_Z _ Hz) as E.
  destruct (str_of_Z_cases (Z.of_N n)) as [(p & Hp & _)|[_ Hs]]; [lia|].
  rewrite Hs in E. now rewrite N2Z.id in E.
Qed.

Lemma dropwhile_spaces (a t : str) :
  forallb isspace a = true -> dropwhile isspace (a ++ t) = dropwhile isspace t.
Proof.
  induction a as [|c a IH]; intros H; [reflexivity|].
  simpl in H. apply andb_prop in H as [Hc Ha]. simpl. rewrite Hc. auto.
Qed.

Lemma strip_spaces (a t b : str) :
  forallb isspace a = true -> forallb isspace b = true ->
  strip (a ++ t ++ b) = strip t.
Proof.
  intros Ha Hb. unfold strip, lstrip, rstrip.
  rewrite (dropwhile_spaces a _ Ha).
  destruct (forallb isspace t) eqn:Ht.
  - assert (Hall : forall u, forallb isspace u = true ->
                             dropwhile isspace u = []).
    { intros u Hu. rewrite <- (app_nil_r u). now rewrite dropwhile_spaces. }
    rewrite (dropwhile_spaces t b Ht), (Hall b Hb), (Hall t Ht). reflexivity.
  - assert (Hdrop : forall u, dropwhile isspace (t ++ u)
                              = dropwhile isspace t ++ u).
    { intros u. clear Ha Hb. induction t as [|c t IH]; [discriminate|].
      simpl in *. destruct (isspace c); [auto|reflexivity]. }
    rewrite Hdrop, rev_app_distr.
    rewrite dropwhile_spaces; [reflexivity|].
    rewrite forallb_forall in *. intros c Hc. apply Hb. now apply in_rev.
Qed.

Section WithRepr.

Variable float_repr : float -> str.

(** X4: white space around a cell does not change what is read from it. *)
Theorem clean_ignores_surrounding_space (a s b : str) :
  forallb isspace a = true -> forallb isspace b = true ->
  clean_complex_string float_repr (Str (a ++ s ++ b))
  = clean_complex_string float_repr (Str s).
Proof.
  intros Ha Hb. rewrite !clean_complex_string_refines. do 3 f_equal.
  unfold cleaned, COMMA. rewrite !replace_delete_char, !filter_app.
  rewrite (filter_id _ a), (filter_id _ b).
  - apply strip_spaces; assumption.
  - intros c Hc. rewrite forallb_forall in Hb. specialize (Hb c Hc).
    destruct (44 =? c) eqn:E; [|reflexivity].
    apply N.eqb_eq in E. subst c. discriminate Hb.
  - intros c Hc. rewrite forallb_forall in Ha. specialize (Ha c Hc).
    destruct (44 =? c) eqn:E; [|reflexivity].
    apply N.eqb_eq in E. subst c. discriminate Ha.
Qed.

(** X5: a range of two whole numbers, "A-B", is read as the float
    (A + B) / 2. *)
Theorem clean_whole_number_range (a b : N) :
  a < 2 ^ 63 -> b < 2 ^ 63 ->
  clean_complex_string float_repr (Str (str_of_N a ++ DASH ++ str_of_N b))
  = Returns (Some (Float (fdiv (fadd (of_Z (Z.of_N a)) (of_Z (Z.of_N b)))
                               (of_Z 2)))).
Proof.
  intros Ha Hb. rewrite clean_complex_string_refines.
  set (s := str_of_N a ++ DASH ++ str_of_N b).
  assert (Hchars : forall c, In c s -> numeral_char c = true).
  { intros c Hc. unfold s, numeral_char in *.
    apply in_app_or in Hc as [Hc|Hc];
      [now rewrite (str_of_N_digit _ _ Hc)|].
    apply in_app_or in Hc as [[<-|[]]|Hc];
      [reflexivity|now rewrite (str_of_N_digit _ _ Hc)]. }
  rewrite (cleaned_plain s)
    by (intros c Hc;
        destruct (numeral_char_plain c (Hchars c Hc))
          as (H1 & _ & _ & _ & H2 & _); now split).
  do 2 f_equal. unfold clean_spec.
  destruct (str_of_N_first a) as (c0 & t0 & E0 & Hd0).
  assert (Hblank : is_blank s = false)
    by (unfold s; rewrite E0; now apply digit_first_not_blank).
  rewrite Hblank. unfold parse_range, s.
  rewrite contains_app. unfold DASH. rewrite split_two.
  - now rewrite (float_of_str_of_N a Ha), (float_of_str_of_N b Hb).
  - now apply digit_is_not.
  - now apply digit_is_not.
Qed.

(** X6: a duration of whole hours and minutes, "H ชม. M นาที" written
    without spaces, is read as the float H * 60 + M. *)
Theorem clean_hours_and_minutes (h m : N) :
  h < 2 ^ 63 -> m < 2 ^ 63 ->
  clean_complex_string float_repr
    (Str (str_of_N h ++ HOURS ++ str_of_N m ++ MINUTES))
  = Returns (Some (Float (fadd (fmul (of_Z (Z.of_N h)) (of_Z 60))
                               (of_Z (Z.of_N m))))).
Proof.
  intros Hh Hm. rewrite clean_complex_string_refines.
  set (s := str_of_N h ++ HOURS ++ str_of_N m ++ MINUTES).
  assert (Hchars : forall c, In c s ->
             is_digit c = true \/ In c HOURS \/ In c MINUTES).
  { intros c Hc. unfold s in Hc.
    apply in_app_or in Hc as [Hc|Hc]; [left; eapply str_of_N_digit; eauto|].
    apply in_app_or in Hc as [Hc|Hc]; [now (right; left)|].
    apply in_app_or in Hc as [Hc|Hc]; [left; eapply str_of_N_digit; eauto|].
    now (right; right). }
  assert (Hplain : forall c, In c s ->
             isspace c = false /\ (44 =? c) = false /\ c <> 45).
  { intros c Hc. destruct (Hchars c Hc) as [Hd|[Hi|Hi]].
    - assert (Hn : numeral_char c = true)
        by (unfold numeral_char; now rewrite Hd).
      destruct (numeral_char_plain c Hn) as (H1 & _ & _ & _ & H2 & _).
      repeat split; [exact H1|exact H2|].
      intros ->. discriminate Hd.
    - unfold HOURS in Hi. repeat destruct Hi as [<-|Hi];
        [repeat split; discriminate..|destruct Hi].
    - unfold MINUTES in Hi. repeat destruct Hi as [<-|Hi];
        [repeat split; discriminate..|destruct Hi]. }
  rewrite (cleaned_plain s)
    by (intros c Hc; destruct (Hplain c Hc) as (H1 & H2 & _); now split).
  do 2 f_equal. unfold clean_spec.
  destruct (str_of_N_first h) as (c0 & t0 & E0 & Hd0).
  assert (Hblank : is_blank s = false)
    by (unfold s; rewrite E0; now apply digit_first_not_blank).
  rewrite Hblank.
  assert (Hrange : parse_range s = None).
  { unfold parse_range. rewrite (contains_false DASH s 45); [reflexivity|now left|].
    intros Hin. now destruct (Hplain 45 Hin) as (_ & _ & H). }
  rewrite Hrange. unfold parse_duration, s.
  rewrite contains_app.
  assert (Hsplit : split (str_of_N h ++ HOURS ++ str_of_N m ++ MINUTES) HOURS
                   = [str_of_N h; str_of_N m ++ MINUTES]).
  { unfold HOURS. apply split_two; [now apply digit_is_not|].
    intros Hin. apply in_app_or in Hin as [Hin|Hin].
    - now apply digit_is_not in Hin.
    - unfold MINUTES in Hin.
      repeat (destruct Hin as [Hin|Hin]; [discriminate Hin|]).
      destruct Hin. }
  rewrite Hsplit, (float_of_str_of_N h Hh).
  rewrite <- (app_nil_r (str_of_N m ++ MINUTES)) at 1.
  rewrite <- app_assoc, contains_app.
  unfold MINUTES at 1 2. rewrite replace_suffix by (now apply digit_is_not).
  rewrite (float_of_str_of_N m Hm). reflexivity.
Qed.

End WithRepr.

Lemma clean_ignores_surrounding_space_witness :
  clean_complex_string repr_unused (Str ([32; 9] ++ u "10-20" ++ [32]))
  = Returns (Some (Float (of_Z 15))).
Proof.
  etransitivity.
  - exact (clean_ignores_surrounding_space repr_unused [32; 9] (u "10-20")
             [32] eq_refl eq_refl).
  - vm_compute. reflexivity.
Defined.

Lemma clean_whole_number_range_witness :
  1250 < 2 ^ 63 /\ 1300 < 2 ^ 63
  /\ clean_complex_string repr_unused (Str (u "1250-1300"))
     = Returns (Some (Float (of_Z 1275))).
Proof.
  split; [reflexivity|]. split; [reflexivity|].
  exact (clean_whole_number_range repr_unused 1250 1300 eq_refl eq_refl).
Defined.

Lemma clean_hours_and_minutes_witness :
  11 < 2 ^ 63 /\ 45 < 2 ^ 63
  /\ clean_complex_string repr_unused (Str (u "11ชม.45นาที"))
     = Returns (Some (Float (of_Z 705))).
Proof.
  split; [reflexivity|]. split; [reflexivity|].
  exact (clean_hours_and_minutes repr_unused 11 45 eq_refl eq_refl).
Defined.

End CleanerRanges.

(* ================================================================== *)
(** * Tables without their key column; the selection of a province *)
(* ================================================================== *)

Module IngestFacts.

Import PyStrFacts FrameFacts FactorFacts.

Lemma get_col_drop_columns (c : str) (q : str -> bool) (df : DataFrame str) :
  get_col str_eqb c df = None ->
  get_col str_eqb c (drop_columns q df) = None.
Proof.
  unfold drop_columns. induction df as [|[l col] df IH]; [reflexivity|].
  simpl. destruct (str_eqb c l) eqn:E; [discriminate|].
  intros H. destruct (negb (q l)); simpl; [rewrite E|]; auto.
Qed.

Lemma select_none {A} (p : pyval -> bool) (ks : list pyval) (col : list A) :
  (forall k, In k ks -> p k = false) -> select (map p ks) col = [].
Proof.
  revert col; induction ks as [|k ks IH]; intros col H; [reflexivity|].
  destruct col as [|x col]; [apply select_nil_r|].
  simpl map. rewrite select_cons, (H k (or_introl eq_refl)).
  apply IH. intros y Hy. apply H. now right.
Qed.

Lemma get_col_label_filter_rows (c : label) (m : list bool)
    (df : DataFrame label) :
  get_col label_eqb c (filter_rows m df)
  = option_map (select m) (get_col label_eqb c df).
Proof.
  induction df as [|[l col] df IH]; [reflexivity|].
  rewrite filter_rows_cons. simpl. destruct (label_eqb c l); auto.
Qed.

Lemma eq_str_true (s : str) (v : pyval) : eq_str s v = true <-> v = Str s.
Proof.
  destruct v as [t|n]; simpl.
  - split; [intros H; apply str_eqb_eq in H; now subst|].
    intros E. injection E as ->. apply str_eqb_refl.
  - split; discriminate.
Qed.

Section WithPandas.

Variable float_repr : float -> str.
Variable to_numeric : list str -> Series.
Variable series_sum : Series -> pyval.

(** X9: a visitor table without the unnamed first column is refused with
    KeyError. *)
Theorem load_tourist_needs_first_column (raw : DataFrame str) :
  has_column str_eqb UNNAMED0 raw = false ->
  load_tourist_data float_repr to_numeric raw = Raises KeyError.
Proof.
  intros H. apply get_col_has_column in H.
  unfold load_tourist_data.
  now rewrite (get_col_drop_columns UNNAMED0 cols_to_drop raw H).
Qed.

(** X10: unless the national total is to be synthesized (the national view
    is selected and the table has no national row), the selection keeps the
    columns of the table and the rows of the selected name; when the table
    has no row of that name, every column of the selection is empty, and
    nothing is raised. *)
Theorem province_data_selects_rows (df_tourist : DataFrame label)
    (prov : Series) (selected : str) :
  get_col label_eqb (Name PROVINCE) df_tourist = Some prov ->
  str_eqb selected NATIONAL && negb (existsb (eq_str NATIONAL) prov) = false ->
  exists out,
    province_data series_sum df_tourist selected = Returns out
    /\ columns out = columns df_tourist
    /\ get_col label_eqb (Name PROVINCE) out
       = Some (repeat (Str selected)
                      (length (filter (eq_str selected) prov)))
    /\ (~ In (Str selected) prov ->
        forall l col, In (l, col) out -> col = []).
Proof.
  intros Hprov Hsel. unfold province_data.
  rewrite Hprov. cbn [or_raise and_then]. rewrite Hsel.
  eexists. split; [reflexivity|].
  split; [apply columns_filter_rows|]. split.
  - rewrite get_col_label_filter_rows, Hprov. cbn [option_map]. f_equal.
    clear Hprov Hsel. induction prov as [|v prov IH]; [reflexivity|].
    simpl map. rewrite select_cons. cbn [filter].
    destruct (eq_str selected v) eqn:E; [|exact IH].
    apply eq_str_true in E. subst v. simpl. now rewrite IH.
  - intros Hnot l col Hin.
    apply in_map_iff in Hin as ([l' col'] & E & _). injection E as <- <-.
    apply select_none. intros k Hk.
    destruct (eq_str selected k) eqn:E; [|reflexivity].
    apply eq_str_true in E. subst. contradiction.
Qed.

End WithPandas.

Section WithRepr.

Variable float_repr : float -> str.

(** X11: a factor table with neither the Thai nor the English province
    header is refused with KeyError. *)
Theorem load_factor_needs_province_column (csv : DataFrame str) :
  has_column str_eqb PROVINCE_TH csv = false ->
  has_column str_eqb PROVINCE csv = false ->
  load_factor_and_target_data float_repr csv = Raises KeyError.
Proof.
  intros Hth Hen. unfold load_factor_and_target_data.
  rewrite Hth. apply get_col_has_column in Hen. now rewrite Hen.
Qed.

End WithRepr.

Lemma load_tourist_needs_first_column_witness :
  load_tourist_data repr_unused sample_to_numeric (tl sample_table)
  = Raises KeyError.
Proof.
  exact (load_tourist_needs_first_column repr_unused sample_to_numeric
           (tl sample_table) eq_refl).
Defined.

Lemma province_data_selects_rows_witness :
  exists out,
    province_data sample_sum two_provinces (u "ระยอง") = Returns out
    /\ forall l col, In (l, col) out -> col = [].
Proof.
  destruct (province_data_selects_rows sample_sum two_provinces
              [Str CHIANG_MAI; Str (u "ตาก")] (u "ระยอง") eq_refl eq_refl)
    as (out & Hrun & _ & _ & Hempty).
  exists out. split; [exact Hrun|]. apply Hempty.
  intros H. vm_compute in H. destruct H as [H|[H|[]]]; discriminate H.
Defined.

Lemma load_factor_needs_province_column_witness :
  load_factor_and_target_data repr_unused (tl sample_csv) = Raises KeyError.
Proof.
  exact (load_factor_needs_province_column repr_unused (tl sample_csv)
           eq_refl eq_refl).
Defined.

End IngestFacts.

(* ================================================================== *)
(** * The training data and the order of the SWOT lists *)
(* ================================================================== *)

Module SwotMore.

Import PyStrFacts FrameFacts FactorFacts SwotFacts FactorMore IngestFacts.

Lemma map_feature_filter (t : item -> bool) (comp_df : list comparison)
    (fs : list str) :
  map feature (filter t (map (item_of comp_df) fs))
  = filter (fun f => t (item_of comp_df f)) fs.
Proof.
  induction fs as [|f fs IH]; [reflexivity|].
  simpl. destruct (t (item_of comp_df f)); simpl; rewrite IH;
    [now rewrite feature_item_of|reflexivity].
Qed.

Lemma train_data_province (df : NumFrame) :
  province (train_data df)
  = filter (fun v => negb (eq_str BANGKOK v)) (province df).
Proof. unfold train_data, filter_num_rows. cbn [province]. apply select_self. Qed.

Section WithLibraries.

Variable nlargest_rows : nat -> list number -> list nat.
Variable series_mean : list number -> float.
Variable sort_values_desc : list (str * float) -> list (str * float).

Hypothesis sort_values_perm :
  forall l, Permutation (sort_values_desc l) l.

Variable float_repr : float -> str.

(** X15: each of the three lists gives its features in the order of the
    importance table sorted for the action plan: a list is that sequence
    of actionable features, with the features of the other two lists
    left out. *)
Theorem swot_lists_follow_importance_order
    (csv : DataFrame str) (df_model_data : NumFrame)
    (feature_names_list : list str) (importances : list float)
    (selected : pyval) :
  load_factor_and_target_data float_repr csv
  = Returns (df_model_data, feature_names_list) ->
  In selected (province (train_data df_model_data)) ->
  truthy selected = true ->
  length importances = length feature_names_list ->
  let order :=
    map fst (sorted_actionable_imp sort_values_desc feature_names_list
               (sort_values_desc (combine feature_names_list importances))) in
  exists comp_df lists,
    swot_analysis nlargest_rows series_mean sort_values_desc
      df_model_data feature_names_list importances selected
    = Returns (Some (comp_df, lists))
    /\ map feature (weaknesses_list lists)
       = filter (fun f => is_weakness (item_of comp_df f)) order
    /\ map feature (opportunities_list lists)
       = filter (fun f => is_opportunity (item_of comp_df f)) order
    /\ map feature (strengths_list lists)
       = filter (fun f => is_strength (item_of comp_df f)) order.
Proof.
  intros Hload Hsel Htruthy Hlen order.
  destruct (load_factor_output float_repr csv _ _ Hload) as [-> Hok].
  destruct (swot_analysis_run nlargest_rows series_mean sort_values_desc
              sort_values_perm df_model_data required_features importances
              selected Hok Hsel Htruthy Hlen)
    as (prov_row & totals & comp_df & lists & Hrun & _ & _ & _ & _ & _
        & Hw & Ho & Hs).
  exists comp_df, lists. split; [exact Hrun|].
  rewrite Hw, Ho, Hs. unfold order. now rewrite !map_feature_filter.
Qed.

(** X14: the training data are the factor table without the rows of the
    capital, so the capital has no row to analyse: the analysis asked for
    the capital raises IndexError. *)
Theorem capital_is_left_out
    (df_model_data : NumFrame) (feature_names_list : list str)
    (importances : list float) :
  length importances = length feature_names_list ->
  (forall x, In x (province (train_data df_model_data))
             <-> In x (province df_model_data) /\ x <> Str BANGKOK)
  /\ swot_analysis nlargest_rows series_mean sort_values_desc
       df_model_data feature_names_list importances (Str BANGKOK)
     = Raises IndexError.
Proof.
  intros Hlen. split.
  - intros x. rewrite train_data_province, filter_In.
    assert (E : negb (eq_str BANGKOK x) = true <-> x <> Str BANGKOK).
    { rewrite negb_true_iff, <- not_true_iff_false.
      now rewrite eq_str_true. }
    now rewrite E.
  - unfold swot_analysis, feature_imp_df.
    rewrite Hlen, Nat.eqb_refl. cbn [and_then].
    change (truthy (Str BANGKOK)) with true. cbv iota.
    unfold iloc0, filter_num_rows at 1. cbn [province].
    rewrite select_none; [reflexivity|].
    intros k Hk. rewrite train_data_province in Hk.
    apply filter_In in Hk as [_ Hk]. apply negb_true_iff in Hk.
    destruct k as [t|n]; [exact Hk|reflexivity].
Qed.

End WithLibraries.

Lemma swot_lists_follow_importance_order_witness :
  let order :=
    map fst (sorted_actionable_imp sample_sort_values required_features
               (sample_sort_values
                  (combine required_features sample_importances))) in
  exists comp_df lists,
    swot_analysis sample_nlargest sample_mean sample_sort_values
      sample_model required_features sample_importances (Str CHIANG_MAI)
    = Returns (Some (comp_df, lists))
    /\ map feature (weaknesses_list lists)
       = filter (fun f => is_weakness (item_of comp_df f)) order
    /\ map feature (opportunities_list lists)
       = filter (fun f => is_opportunity (item_of comp_df f)) order
    /\ map feature (strengths_list lists)
       = filter (fun f => is_strength (item_of comp_df f)) order.
Proof.
  exact (swot_lists_follow_importance_order
           sample_nlargest sample_mean sample_sort_values
           sample_sort_values_perm repr_unused
           sample_csv sample_model required_features sample_importances
           (Str CHIANG_MAI) sample_load sample_selected eq_refl eq_refl).
Defined.

Lemma capital_is_left_out_witness :
  (forall x, In x (province (train_data sample_model))
             <-> In x (province sample_model) /\ x <> Str BANGKOK)
  /\ swot_analysis sample_nlargest sample_mean sample_sort_values
       sample_model required_features sample_importances (Str BANGKOK)
     = Raises IndexError.
Proof.
  exact (capital_is_left_out sample_nlargest sample_mean sample_sort_values
           sample_model required_features sample_importances eq_refl).
Defined.

End SwotMore.

(* ================================================================== *)
(** * The cards of the action plan *)
(* ================================================================== *)

Module DisplayFacts.

Import PyStrFacts FactorFacts SwotFacts.

(** The sections hold the three lists, in their order. *)
Lemma active_sections_items (lists : swot_lists) :
  flat_map items (active_sections lists)
  = weaknesses_list lists ++ opportunities_list lists ++ strengths_list lists.
Proof.
  destruct lists as [w o s]. unfold active_sections.
  cbn [weaknesses_list opportunities_list strengths_list].
  destruct w, o, s; cbn; rewrite ?app_nil_r; reflexivity.
Qed.

Lemma active_sections_cases (lists : swot_lists) (sec : section) :
  In sec (active_sections lists) ->
  (sec = weaknesses_section (weaknesses_list lists)
   /\ weaknesses_list lists <> [])
  \/ (sec = opportunities_section (opportunities_list lists)
      /\ opportunities_list lists <> [])
  \/ (sec = strengths_section (strengths_list lists)
      /\ strengths_list lists <> []).
Proof.
  unfold active_sections. intros H.
  apply in_app_or in H as [H|H]; [|apply in_app_or in H as [H|H]].
  - left. destruct (weaknesses_list lists); [destruct H|].
    destruct H as [<-|[]]. split; [reflexivity|discriminate].
  - right; left. destruct (opportunities_list lists); [destruct H|].
    destruct H as [<-|[]]. split; [reflexivity|discriminate].
  - right; right. destruct (strengths_list lists); [destruct H|].
    destruct H as [<-|[]]. split; [reflexivity|discriminate].
Qed.

(** X17: the status line of a card: in the strengths section it says
    whether the feature is a problem under control or an asset, in the
    other two it is the text of the section; the text configured for the
    strengths section itself is never shown. *)
Theorem strengths_status_text_is_never_shown (lists : swot_lists)
    (sec : section) (it : item) :
  In sec (active_sections lists) ->
  (color_code sec = GREEN ->
   status_display sec it = if is_neg it then CONTROLLED else HIGH_POTENTIAL)
  /\ (color_code sec <> GREEN -> status_display sec it = status_text sec)
  /\ status_display sec it <> STRENGTHS_STATUS.
Proof.
  intros H.
  destruct (active_sections_cases lists sec H) as [[-> _]|[[-> _]|[-> _]]];
    unfold status_display; cbn [color_code status_text weaknesses_section
                               opportunities_section strengths_section];
    (split; [|split]);
    try (intros E; discriminate E);
    try (intros E; now elim E);
    destruct (is_neg it); try reflexivity; discriminate.
Qed.

Section WithLibraries.

Variable nlargest_rows : nat -> list number -> list nat.
Variable series_mean : list number -> float.
Variable sort_values_desc : list (str * float) -> list (str * float).

Hypothesis sort_values_perm :
  forall l, Permutation (sort_values_desc l) l.

Variable float_repr : float -> str.

(** X16: for a selected province of the training data the action plan has
    at least one section, so the notice that there is nothing to analyse
    is not shown; no section is empty; and the cards of the sections
    together show every actionable feature, each once. *)
Theorem action_plan_shows_every_feature
    (csv : DataFrame str) (df_model_data : NumFrame)
    (feature_names_list : list str) (importances : list float)
    (selected : pyval) :
  load_factor_and_target_data float_repr csv
  = Returns (df_model_data, feature_names_list) ->
  In selected (province (train_data df_model_data)) ->
  truthy selected = true ->
  length importances = length feature_names_list ->
  exists comp_df lists,
    swot_analysis nlargest_rows series_mean sort_values_desc
      df_model_data feature_names_list importances selected
    = Returns (Some (comp_df, lists))
    /\ shows_notice lists = false
    /\ (forall sec, In sec (active_sections lists) -> items sec <> [])
    /\ Permutation
         (map feature (flat_map items (active_sections lists)))
         (actionable_vars feature_names_list)
    /\ NoDup (map feature (flat_map items (active_sections lists))).
Proof.
  intros Hload Hsel Htruthy Hlen.
  destruct (load_factor_output float_repr csv _ _ Hload) as [-> Hok].
  destruct (swot_analysis_run nlargest_rows series_mean sort_values_desc
              sort_values_perm df_model_data required_features importances
              selected Hok Hsel Htruthy Hlen)
    as (prov_row & totals & comp_df & lists & Hrun & _ & _ & _ & _ & Hperm
        & Hw & Ho & Hs).
  exists comp_df, lists. split; [exact Hrun|].
  assert (Hall : Permutation
                   (map feature (flat_map items (active_sections lists)))
                   (actionable_vars required_features)).
  { rewrite active_sections_items, Hw, Ho, Hs.
    rewrite (Permutation_map feature
               (three_way_split is_weakness is_opportunity is_strength
                  (map (item_of comp_df) _) bucket_cases)).
    now rewrite map_feature_items. }
  split; [|split; [|split; [exact Hall|]]].
  - unfold shows_notice.
    destruct (active_sections lists) as [|sec rest]; [|reflexivity].
    apply Permutation_nil in Hall. discriminate Hall.
  - intros sec Hsec.
    destruct (active_sections_cases lists sec Hsec)
      as [[-> Hne]|[[-> Hne]|[-> Hne]]]; exact Hne.
  - apply (Permutation_NoDup (Permutation_sym Hall)).
    apply NoDup_filter. apply required_features_distinct.
Qed.

End WithLibraries.

Lemma strengths_status_text_is_never_shown_witness :
  status_display (strengths_section (strengths_list sample_lists))
    {| feature := MARKET; current := Float (of_Z 1); target := of_Z 1;
       is_neg := false |}
  <> STRENGTHS_STATUS.
Proof.
  apply (strengths_status_text_is_never_shown sample_lists).
  vm_compute. right. left. reflexivity.
Defined.

Lemma action_plan_shows_every_feature_witness :
  exists comp_df lists,
    swot_analysis sample_nlargest sample_mean sample_sort_values
      sample_model required_features sample_importances (Str CHIANG_MAI)
    = Returns (Some (comp_df, lists))
    /\ shows_notice lists = false
    /\ (forall sec, In sec (active_sections lists) -> items sec <> [])
    /\ Permutation
         (map feature (flat_map items (active_sections lists)))
         (actionable_vars required_features)
    /\ NoDup (map feature (flat_map items (active_sections lists))).
Proof.
  exact (action_plan_shows_every_feature
           sample_nlargest sample_mean sample_sort_values
           sample_sort_values_perm repr_unused
           sample_csv sample_model required_features sample_importances
           (Str CHIANG_MAI) sample_load sample_selected eq_refl eq_refl).
Defined.

End DisplayFacts.
